(** * PulseEcho backend: classification-result resolution pipeline

    A shallow embedding of the request pipeline of the repository
    (app.py, core/ml_client.py, core/database.py,
    ml_model/model_loader.py) and the properties of its specification.

    Python dictionaries are finite maps from strings to Python values,
    exceptions are an explicit outcome, and every call that leaves the
    process (file system, HTTP, TensorFlow, database, SMS, sleeping) is
    recorded as an event of a trace, so that "no side effect" and "exactly
    one dispatch" are statements about traces. *)

From Stdlib Require Import ZArith QArith Qround String Ascii List Bool Lia Lqa.
From stdpp Require Import gmap strings list fin_maps.

Local Open Scope string_scope.
Local Open Scope Z_scope.

(** ** Python values *)

(** The values that flow through the handlers: JSON-like data.  Floats are
    modelled by exact rationals. *)
#[warnings="-register-all"]
Inductive pyval : Type :=
| VNone
| VBool (b : bool)
| VInt (z : Z)
| VFloat (q : Q)
| VStr (s : string)
| VList (l : list pyval)
| VDict (d : gmap string pyval).

Abbreviation dict := (gmap string pyval).

(** [bool(v)]: Python truthiness. *)
Definition truthy (v : pyval) : bool :=
  match v with
  | VNone => false
  | VBool b => b
  | VInt z => negb (z =? 0)
  | VFloat q => negb (Qeq_bool q 0)
  | VStr s => negb (String.eqb s "")
  | VList l => match l with [] => false | _ => true end
  | VDict d => negb (bool_decide (d = ∅))
  end.

(** [v == s] for a string literal [s]. *)
Definition py_eq_str (v : pyval) (s : string) : bool :=
  match v with
  | VStr t => String.eqb t s
  | _ => false
  end.

(** [d.get(k)] and [d.get(k, default)]. *)
Definition dict_get (d : dict) (k : string) : pyval :=
  match d !! k with Some v => v | None => VNone end.

Definition dict_get_default (d : dict) (k : string) (dflt : pyval) : pyval :=
  match d !! k with Some v => v | None => dflt end.

(** ** Exceptions, events and the effect monad *)

Inductive exn_kind : Type :=
| TypeError | KeyError | IndexError | ValueError | AttributeError
| OSError | RequestException | RuntimeError.

(** An exception: its class and [str(e)]. *)
Record exn : Type := Exn { exn_class : exn_kind; exn_msg : string }.

Inductive outcome (A : Type) : Type :=
| Return (a : A)
| Raise (e : exn).
Arguments Return {A} a.
Arguments Raise {A} e.

(** What the process does to the outside world. *)
Inductive event : Type :=
| EvSleep                                   (* time.sleep(0.5) *)
| EvOpenFile (path : option string)         (* open(audio_path, 'rb') *)
| EvHttpPost (url : string) (data : option dict) (auth : option string)
| EvLocalPredict (path : option string)     (* local_model.predict_from_audio *)
| EvMockAnalysis                            (* MLClient._mock_analysis *)
| EvFileSaved (path : string)               (* audio_file.save(audio_path) *)
| EvDbSave (screening_data : dict)          (* save_screening_result(...) *)
| EvDbInsert (record : dict)                (* supabase insert *)
| EvSms (phone : pyval) (message : string). (* send_sms_alert(phone, message) *)

(** A computation returns or raises, and leaves a trace. *)
Definition M (A : Type) : Type := (outcome A * list event)%type.

Definition ret {A} (a : A) : M A := (Return a, []).
Definition raise {A} (e : exn) : M A := (Raise e, []).
Definition emit (ev : event) : M unit := (Return tt, [ev]).

Definition bind {A B} (m : M A) (f : A → M B) : M B :=
  match m with
  | (Return a, t) => let '(r, t') := f a in (r, (t ++ t')%list)
  | (Raise e, t) => (Raise e, t)
  end.

(** [try: m except Exception as e: h e]. *)
Definition try_except {A} (m : M A) (h : exn → M A) : M A :=
  match m with
  | (Return a, t) => (Return a, t)
  | (Raise e, t) => let '(r, t') := h e in (r, (t ++ t')%list)
  end.

Notation "'let!' x ':=' m 'in' k" := (bind m (fun x => k))
  (at level 10, x pattern, m at level 100, k at level 200, only parsing).
Notation "'do!' m 'in' k" := (bind m (fun _ => k))
  (at level 10, m at level 100, k at level 200, only parsing).

(** ** Strings *)

Module Str.

(** [str.lower()]: the letters A..Z are moved to a..z.  Code points
    above 127 are left as they are: the only ones whose Python lower
    case contains an ASCII letter are U+0130 (i) and U+212A (k), and no
    key compared below contains either letter. *)
Definition is_upper (c : ascii) : bool :=
  let n := N_of_ascii c in (65 <=? n)%N && (n <=? 90)%N.

Definition lower_char (c : ascii) : ascii :=
  if is_upper c then ascii_of_N (N_of_ascii c + 32) else c.

Fixpoint lower (s : string) : string :=
  match s with
  | EmptyString => EmptyString
  | String c s' => String (lower_char c) (lower s')
  end.

(** ['.' in s]. *)
Fixpoint contains_dot (s : string) : bool :=
  match s with
  | EmptyString => false
  | String c s' => Ascii.eqb c "." || contains_dot s'
  end.

(** [s.rsplit('.', 1)]: split once at the last dot. *)
Fixpoint rsplit_dot (s : string) : list string :=
  match s with
  | EmptyString => [EmptyString]
  | String c s' =>
      match rsplit_dot s' with
      | [h; t] => [String c h; t]
      | _ => if Ascii.eqb c "." then [EmptyString; s'] else [s]
      end
  end.

(** Two characters that differ at most by the case of a letter A..Z. *)
Definition same_letter (a b : ascii) : bool :=
  Ascii.eqb a b
  || (is_upper a && (N_of_ascii a + 32 =? N_of_ascii b)%N)
  || (is_upper b && (N_of_ascii b + 32 =? N_of_ascii a)%N).

(** Equality of strings up to the case of letters. *)
Fixpoint ci_eqb (s t : string) : bool :=
  match s, t with
  | EmptyString, EmptyString => true
  | String a s', String b t' => same_letter a b && ci_eqb s' t'
  | _, _ => false
  end.

(** No letter A..Z occurs. *)
Fixpoint no_upper (s : string) : bool :=
  match s with
  | EmptyString => true
  | String c s' => negb (is_upper c) && no_upper s'
  end.

End Str.

(** ** Numbers *)

Module Num.

(** Round half to even, the rounding of Python's [round]. *)
Definition round_half_even (q : Q) : Z :=
  let f := Qfloor q in
  match (q - inject_Z f ?= 1 # 2)%Q with
  | Lt => f
  | Gt => f + 1
  | Eq => if Z.even f then f else f + 1
  end.

(** [round(q, ndigits)] on a float. *)
Definition round_digits (q : Q) (ndigits : nat) : Q :=
  let scale := 10 ^ Z.of_nat ndigits in
  Qmake (round_half_even (q * inject_Z scale)) (Z.to_pos scale).

(** [random.random()]: a multiple of 2^-53 in [0, 1); [k] is the draw. *)
Definition random_unit (k : Z) : Q :=
  Qmake (k mod 2 ^ 53) (Z.to_pos (2 ^ 53)).

(** [random.uniform(a, b)] is [a + (b - a) * random()]. *)
Definition uniform (a b : Q) (k : Z) : Q :=
  (a + (b - a) * random_unit k)%Q.

(** [random.choice(seq)]: [IndexError] on an empty sequence. *)
Definition choice {A} (seq : list A) (draw : nat) : M A :=
  match seq !! (draw mod length seq)%nat with
  | Some x => ret x
  | None => raise (Exn IndexError "Cannot choose from an empty sequence")
  end.

(** [np.argmax]: the first index of a maximal entry; [ValueError] on an
    empty array. *)
Fixpoint argmax_from (best : Q) (besti i : nat) (l : list Q) : nat :=
  match l with
  | [] => besti
  | x :: l' =>
      if Qlt_le_dec best x then argmax_from x i (S i) l'
      else argmax_from best besti (S i) l'
  end.

Definition argmax (l : list Q) : M nat :=
  match l with
  | [] => raise (Exn ValueError "attempt to get argmax of an empty sequence")
  | x :: l' => ret (argmax_from x 0%nat 1%nat l')
  end.

End Num.

(** ** Operations on Python values that can raise *)

Definition lift {A} (o : outcome A) : M A := (o, []).

(** [v.lower()]. *)
Definition py_lower (v : pyval) : M string :=
  match v with
  | VStr s => ret (Str.lower s)
  | _ => raise (Exn AttributeError "object has no attribute 'lower'")
  end.

(** [v > n] for an integer literal [n]. *)
Definition py_gt_int (v : pyval) (n : Z) : M bool :=
  match v with
  | VInt z => ret (n <? z)
  | VBool b => ret (n <? (if b then 1 else 0))
  | VFloat q => ret (if Qlt_le_dec (inject_Z n) q then true else false)
  | _ => raise (Exn TypeError "'>' not supported between instances")
  end.

(** [round(v, ndigits)]. *)
Definition py_round (v : pyval) (ndigits : nat) : M pyval :=
  match v with
  | VFloat q => ret (VFloat (Num.round_digits q ndigits))
  | VInt z => ret (VInt z)
  | VBool b => ret (VInt (if b then 1 else 0))
  | _ => raise (Exn TypeError "type doesn't define __round__ method")
  end.

(** The items of a sequence value.  Lists and strings are sequences; for
    the other values [len], indexing and [random.choice] raise (for a dict
    Python raises [KeyError] where this says [TypeError]). *)
Fixpoint chars (s : string) : list pyval :=
  match s with
  | EmptyString => []
  | String c s' => VStr (String c EmptyString) :: chars s'
  end.

Definition py_seq (v : pyval) : M (list pyval) :=
  match v with
  | VList l => ret l
  | VStr s => ret (chars s)
  | _ => raise (Exn TypeError "object is not a sequence")
  end.

(** [d[k]]. *)
Definition dict_item (d : dict) (k : string) : M pyval :=
  match d !! k with
  | Some v => ret v
  | None => raise (Exn KeyError k)
  end.

(** ** The outside world of one request *)

Inductive http_outcome : Type :=
| HttpRaise (e : exn)                           (* timeout, transport error *)
| HttpResponse (status : Z) (json : outcome pyval). (* response.json() *)

Inductive insert_outcome : Type :=
| InsertRaise (e : exn)
| InsertResponse (data : option (list dict)).   (* response.data, if any *)

Record world : Type := World {
  w_choice : nat;                 (* the draw of random.choice *)
  w_random : Z;                   (* the draw of random.random *)
  w_readable : string → bool;     (* open(path, 'rb') succeeds *)
  w_http : http_outcome;          (* requests.post(..., timeout=30) *)
  w_predict : outcome (list Q);   (* model.predict(features)[0] *)
  w_uuid_hex : string;            (* uuid.uuid4().hex *)
  w_now : string;                 (* datetime.now().isoformat() *)
  w_file_save : option exn;       (* audio_file.save failing *)
  w_insert : insert_outcome       (* supabase insert(...).execute() *)
}.

(** ** ml_model/model_loader.py *)

Module HeartSoundModel.

Inductive keras_model : Type := KerasModel.

Record t : Type := Build {
  model : option keras_model;
  model_info : dict
}.

Definition default_classes : pyval := VList [VStr "normal"; VStr "abnormal"].

Definition _mock_prediction (self : t) (w : world) : M dict :=
  let class_names := dict_get_default (model_info self) "classes" default_classes in
  let! seq := py_seq class_names in
  let! prediction := Num.choice seq (w_choice w) in
  let confidence := Num.round_digits (Num.uniform (7 # 10) (95 # 100) (w_random w)) 3 in
  ret (<["prediction" := prediction]>
      (<["confidence" := VFloat confidence]>
      (<["probabilities" :=
           if (length seq =? 2)%nat then VList [VFloat (1 # 2); VFloat (1 # 2)]
           else VList [VFloat (3 # 10); VFloat (7 # 10)]]>
      (<["class_names" := class_names]>
      (<["model_source" := VStr "mock_fallback"]>
      (<["note" := VStr "Using mock prediction due to error"]> ∅)))))).

Definition predict_from_audio (self : t) (w : world) (audio_path : option string)
  : M dict :=
  match model self with
  | None => _mock_prediction self w
  | Some _ =>
      try_except
        (let! probs := lift (w_predict w) in
         let! class_idx := Num.argmax probs in
         let! confidence :=
           match probs !! class_idx with
           | Some c => ret c
           | None => raise (Exn IndexError "index out of bounds")
           end in
         let class_names :=
           dict_get_default (model_info self) "classes" default_classes in
         let! seq := py_seq class_names in
         let prediction :=
           match seq !! class_idx with
           | Some c => c
           | None => VStr "unknown"
           end in
         ret (<["prediction" := prediction]>
             (<["confidence" := VFloat (Num.round_digits confidence 4)]>
             (<["probabilities" := VList (VFloat <$> probs)]>
             (<["class_names" := class_names]>
             (<["model_source" := VStr "real_cnn_model"]>
             (<["model_note" :=
                  dict_get_default (model_info self) "note" (VStr "")]> ∅)))))))
        (fun _ => _mock_prediction self w)
  end.

Definition get_model_info (self : t) : dict := model_info self.

End HeartSoundModel.

(** ** core/ml_client.py *)

Module MLClient.

Record t : Type := Build {
  use_real_ml : bool;
  ml_api_url : string;
  ml_api_key : string;
  local_model : option HeartSoundModel.t
}.

(** [MLClient.__init__]: [environ] is the process environment,
    [has_local_model] the flag set by the import of [HeartSoundModel] and
    [construct] what [HeartSoundModel()] does at startup. *)
Definition __init__ (environ : gmap string string) (has_local_model : bool)
    (construct : outcome HeartSoundModel.t) : t :=
  let use_real_ml :=
    String.eqb (Str.lower (default "false" (environ !! "USE_REAL_ML"))) "true" in
  {| use_real_ml := use_real_ml;
     ml_api_url := default "" (environ !! "ML_API_URL");
     ml_api_key := default "" (environ !! "ML_API_KEY");
     local_model :=
       if negb use_real_ml && has_local_model then
         match construct with
         | Return m => Some m
         | Raise _ => None
         end
       else None |}.

(** [if patient_context:] on an optional dict. *)
Definition context_given (patient_context : option dict) : option dict :=
  match patient_context with
  | Some d => if bool_decide (d = ∅) then None else Some d
  | None => None
  end.

Definition predictions : list string := ["normal"; "abnormal"; "murmur"].

Definition mock_risk_mapping : gmap string string :=
  <["normal" := "low"]> (<["abnormal" := "high"]> (<["murmur" := "medium"]> ∅)).

Definition mock_recommendations : gmap string string :=
  <["high" := "Urgent consultation with cardiologist recommended."]>
  (<["medium" := "Follow-up with healthcare provider advised."]>
  (<["low" := "Regular check-up advised."]> ∅)).

Definition _mock_analysis (w : world) (patient_context : option dict) : M pyval :=
  do! emit EvMockAnalysis in
  do! emit EvSleep in
  let! prediction := Num.choice predictions (w_choice w) in
  let confidence :=
    Num.round_digits (Num.uniform (6 # 10) (95 # 100) (w_random w)) 3 in
  let risk_level := default "medium" (mock_risk_mapping !! prediction) in
  ret (VDict
    (<["prediction" := VStr prediction]>
    (<["confidence" := VFloat confidence]>
    (<["risk_level" := VStr risk_level]>
    (<["recommendation" := VStr (default "" (mock_recommendations !! risk_level))]>
    (<["ml_source" := VStr "mock"]>
    (<["note" := VStr "Using mock analysis - ML model not available"]> ∅))))))).

(** [open(audio_path, 'rb')]. *)
Definition open_audio (w : world) (audio_path : option string) : M unit :=
  do! emit (EvOpenFile audio_path) in
  match audio_path with
  | None => raise (Exn TypeError "expected str, bytes or os.PathLike object, not NoneType")
  | Some p =>
      if w_readable w p then ret tt
      else raise (Exn OSError "No such file or directory")
  end.

Definition _call_external_ml_api (self : t) (w : world)
    (audio_path : option string) (patient_context : option dict) : M pyval :=
  try_except
    (do! open_audio w audio_path in
     let data := context_given patient_context in
     let headers :=
       if String.eqb (ml_api_key self) "" then None else Some (ml_api_key self) in
     do! emit (EvHttpPost (ml_api_url self) data headers) in
     match w_http w with
     | HttpRaise e => raise e
     | HttpResponse status json =>
         if status =? 200 then lift json
         else _mock_analysis w patient_context
     end)
    (fun _ => _mock_analysis w patient_context).

Definition risk_mapping : gmap string string :=
  <["normal" := "low"]> (<["Normal" := "low"]>
  (<["abnormal" := "high"]> (<["Abnormal" := "high"]>
  (<["murmur" := "medium"]> (<["Murmur" := "medium"]> ∅))))).

Definition recommendations : gmap string string :=
  <["high" := "Urgent consultation with cardiologist recommended. Avoid strenuous activity and seek immediate medical attention if symptoms worsen."]>
  (<["medium" := "Schedule a follow-up with healthcare provider. Monitor for symptoms like chest pain, shortness of breath, or fatigue."]>
  (<["low" := "Regular check-up advised. Maintain healthy lifestyle with balanced diet and regular exercise."]> ∅)).

Definition over_50_note : string :=
  "Patient is over 50, increased cardiovascular risk factors.".

(** Lines 118-123: the note, the only use of [patient_context]. *)
Definition analysis_note_of (risk_level : string) (patient_context : option dict)
  : M string :=
  match context_given patient_context with
  | Some d =>
      let age := dict_get_default d "age" (VInt 0) in
      let! over := py_gt_int age 50 in
      if over && negb (String.eqb risk_level "low") then ret over_50_note
      else ret ""
  | None => ret ""
  end.

(** Lines 125-135: the dict that is returned. *)
Definition local_result (self : t) (ml_result : dict) (prediction rounded : pyval)
    (risk_level analysis_note : string) : dict :=
  <["prediction" := prediction]>
  (<["confidence" := rounded]>
  (<["risk_level" := VStr risk_level]>
  (<["recommendation" := VStr (default "" (recommendations !! risk_level))]>
  (<["analysis_note" := VStr analysis_note]>
  (<["probabilities" := dict_get_default ml_result "probabilities" (VList [])]>
  (<["class_names" :=
       dict_get_default ml_result "class_names" HeartSoundModel.default_classes]>
  (<["ml_source" := VStr "local_cnn_model"]>
  (<["model_info" :=
       VDict (match local_model self with
              | Some m => HeartSoundModel.get_model_info m
              | None => ∅
              end)]> ∅)))))))).

Definition _format_local_ml_result (self : t) (ml_result : dict)
    (patient_context : option dict) : M pyval :=
  let! prediction := dict_item ml_result "prediction" in
  let! confidence := dict_item ml_result "confidence" in
  let! lowered := py_lower prediction in
  let risk_level := default "medium" (risk_mapping !! lowered) in
  let! analysis_note := analysis_note_of risk_level patient_context in
  let! rounded := py_round confidence 4 in
  ret (VDict (local_result self ml_result prediction rounded risk_level analysis_note)).

Definition analyze_heart_sound (self : t) (w : world)
    (audio_path : option string) (patient_context : option dict) : M pyval :=
  if use_real_ml self && negb (String.eqb (ml_api_url self) "") then
    _call_external_ml_api self w audio_path patient_context
  else
    match local_model self with
    | Some m =>
        do! emit (EvLocalPredict audio_path) in
        let! result := HeartSoundModel.predict_from_audio m w audio_path in
        if bool_decide (result = ∅) then _mock_analysis w patient_context
        else _format_local_ml_result self result patient_context
    | None => _mock_analysis w patient_context
    end.

Definition get_status (self : t) : dict :=
  <["use_real_ml" := VBool (use_real_ml self)]>
  (<["has_local_model" := VBool (bool_decide (is_Some (local_model self)))]>
  (<["model_loaded" := VBool (bool_decide (is_Some (local_model self)))]>
  (<["external_api_configured" := VBool (negb (String.eqb (ml_api_url self) ""))]> ∅))).

End MLClient.

(** ** core/database.py *)

Module Database.

(** [supabase] tells whether the client was created at import time
    ([supabase is not None]). *)
Definition save_screening_result (supabase : bool) (w : world)
    (screening_data : dict) : M dict :=
  if negb supabase then
    ret (<["success" := VBool true]>
        (<["id" := VStr "mock_id"]>
        (<["note" := VStr "Mock save - Supabase not connected"]> ∅)))
  else
    try_except
      (let record : dict :=
         <["patient_id" := dict_get_default screening_data "patient_id" (VStr "")]>
         (<["patient_name" := dict_get_default screening_data "patient_name" (VStr "")]>
         (<["patient_age" := dict_get screening_data "age"]>
         (<["recording_url" := dict_get_default screening_data "audio_filename" (VStr "")]>
         (<["status" := dict_get_default screening_data "prediction" (VStr "")]>
         (<["confidence" := dict_get screening_data "confidence"]>
         (<["risk_level" := dict_get_default screening_data "risk_level" (VStr "")]>
         (<["created_at" :=
              dict_get_default screening_data "created_at" (VStr (w_now w))]> ∅))))))) in
       do! emit (EvDbInsert record) in
       match w_insert w with
       | InsertRaise e => raise e
       | InsertResponse (Some (row :: _)) =>
           ret (<["success" := VBool true]>
               (<["id" := dict_get row "id"]>
               (<["message" := VStr "Screening saved successfully"]> ∅)))
       | InsertResponse _ =>
           ret (<["success" := VBool false]>
               (<["error" := VStr "Database insert failed"]> ∅))
       end)
      (fun e =>
         ret (<["success" := VBool false]>
             (<["error" := VStr (exn_msg e)]> ∅))).

End Database.

(** ** app.py *)

Module App.

(** Library functions the handlers call. *)
Record platform : Type := Platform {
  secure_filename : string → string;   (* werkzeug.utils.secure_filename *)
  py_int : string → option Z;          (* form.get(..., type=int): None on ValueError *)
  py_str : pyval → string              (* str(v) inside an f-string *)
}.

(** What the guarded imports at the top of app.py bound. *)
Inductive ml_binding : Type :=
| CoreClient (c : MLClient.t)     (* ml_client = core.ml_client.MLClient() *)
| FallbackClient.                 (* the class defined at line 52 *)

Inductive db_binding : Type :=
| CoreDatabase (supabase : bool)  (* core.database imported *)
| FallbackDatabase.               (* the function defined at line 26 *)

Record app : Type := Build {
  ml_client : ml_binding;
  database : db_binding
}.

Definition ml_analyze (a : app) (w : world) (audio_path : option string)
    (patient_context : option dict) : M pyval :=
  match ml_client a with
  | CoreClient c => MLClient.analyze_heart_sound c w audio_path patient_context
  | FallbackClient =>
      ret (VDict (<["prediction" := VStr "normal"]>
                 (<["confidence" := VFloat (85 # 100)]>
                 (<["ml_source" := VStr "mock"]> ∅))))
  end.

Definition save_screening_result (a : app) (w : world) (screening_data : dict)
  : M dict :=
  do! emit (EvDbSave screening_data) in
  match database a with
  | CoreDatabase supabase => Database.save_screening_result supabase w screening_data
  | FallbackDatabase =>
      ret (<["success" := VBool true]>
          (<["id" := VStr "mock_id"]>
          (<["note" := VStr "Mock database"]> ∅)))
  end.

(** core/sms_service.py defines [send_alert_sms] and no [send_sms_alert],
    so the import at line 61 raises [ImportError] and the name is bound
    to the function of line 65. *)
Definition send_sms_alert (phone : pyval) (message : string) : dict :=
  <["success" := VBool true]> (<["message" := VStr "Mock SMS sent"]> ∅).

Definition UPLOAD_FOLDER : string := "uploads".
Definition ALLOWED_EXTENSIONS : gset string := {["wav"; "mp3"; "m4a"]}.

Definition allowed_file (filename : string) : bool :=
  Str.contains_dot filename
  && match Str.rsplit_dot filename !! 1%nat with
     | Some ext => bool_decide (Str.lower ext ∈ ALLOWED_EXTENSIONS)
     | None => false
     end.

Record file_storage : Type := FileStorage { filename : string }.

Record request : Type := Request {
  files : gmap string file_storage;
  form : gmap string string
}.

(** [jsonify(body), status]. *)
Definition response : Type := (pyval * Z)%type.

Definition error_response (msg : string) (status : Z) : response :=
  (VDict (<["error" := VStr msg]> ∅), status).

Section Handlers.

Variable P : platform.
(** The alerting collaborator: a function from recipient and message to
    a result dict.  [analyze_heart_sound] below uses the binding of
    app.py. *)
Variable send : pyval → string → dict.
Variable a : app.
Variable w : world.

(** Lines 127-143. *)
Definition patient_context_of (req : request) : dict :=
  <["patient_id" := VStr (default "" (form req !! "patient_id"))]>
  (<["name" := VStr (default "" (form req !! "patient_name"))]>
  (<["age" := match form req !! "age" ≫= py_int P with
              | Some z => VInt z
              | None => VNone
              end]>
  (<["gender" := VStr (default "" (form req !! "gender"))]>
  (<["doctor_id" := VStr (default "" (form req !! "doctor_id"))]>
  (<["symptoms" := VStr (default "" (form req !! "symptoms"))]> ∅))))).

(** Lines 150-164.  The locals [patient_id], [patient_name], [age],
    [gender], [doctor_id] and [symptoms] are read back from the
    context that was built from them. *)
Definition screening_data_of (ml patient_context : dict)
    (unique_filename : string) : dict :=
  <["patient_id" := dict_get patient_context "patient_id"]>
  (<["patient_name" := dict_get patient_context "name"]>
  (<["age" := dict_get patient_context "age"]>
  (<["gender" := dict_get patient_context "gender"]>
  (<["doctor_id" := dict_get patient_context "doctor_id"]>
  (<["audio_filename" := VStr unique_filename]>
  (<["prediction" := dict_get ml "prediction"]>
  (<["confidence" := dict_get ml "confidence"]>
  (<["risk_level" := dict_get ml "risk_level"]>
  (<["recommendation" := dict_get ml "recommendation"]>
  (<["ml_source" := dict_get ml "ml_source"]>
  (<["symptoms" := dict_get patient_context "symptoms"]>
  (<["created_at" := VStr (w_now w)]> ∅)))))))))))).

(** Lines 169-174: the SMS alert; returns the updated [ml_result]. *)
Definition alert_if_high (ml patient_context : dict) : M dict :=
  if py_eq_str (dict_get ml "risk_level") "high"
     && truthy (dict_get patient_context "phone")
  then
    let phone := dict_get patient_context "phone" in
    let message :=
      "Urgent: Your heart screening shows high risk. "
      ++ py_str P (dict_get_default ml "recommendation" (VStr "")) in
    do! emit (EvSms phone message) in
    let sms_result := send phone message in
    ret (<["sms_sent" := dict_get_default sms_result "success" (VBool false)]> ml)
  else ret ml.

(** Lines 149-180: persist, alert, assemble the response. *)
Definition record_and_respond (ml_result : pyval) (patient_context : dict)
    (unique_filename : string) : M response :=
  match ml_result with
  | VDict ml =>
      let! db_result :=
        save_screening_result a w
          (screening_data_of ml patient_context unique_filename) in
      let! ml := alert_if_high ml patient_context in
      ret (VDict (<["audio_file" := VStr unique_filename]>
                 (<["screening_id" := dict_get_default db_result "id" (VStr "")]> ml)),
           200)
  | _ => raise (Exn AttributeError "object has no attribute 'get'")
  end.

Definition unique_filename_of (audio_file : file_storage) : string :=
  w_uuid_hex w ++ "_" ++ secure_filename P (filename audio_file).

Definition audio_path_of (audio_file : file_storage) : string :=
  UPLOAD_FOLDER ++ "/" ++ unique_filename_of audio_file.

(** The handler of POST /analyze. *)
Definition analyze_with (req : request) : M response :=
  try_except
    (match files req !! "audio" with
     | None => ret (error_response "No audio file provided" 400)
     | Some audio_file =>
         if String.eqb (filename audio_file) "" then
           ret (error_response "No selected file" 400)
         else if negb (allowed_file (filename audio_file)) then
           ret (error_response "File type not allowed. Use WAV, MP3, or M4A" 400)
         else
           let unique_filename := unique_filename_of audio_file in
           let audio_path := audio_path_of audio_file in
           do! emit (EvFileSaved audio_path) in
           do! match w_file_save w with
               | Some e => raise e
               | None => ret tt
               end in
           let patient_context := patient_context_of req in
           let! ml_result :=
             ml_analyze a w (Some audio_path) (Some patient_context) in
           record_and_respond ml_result patient_context unique_filename
     end)
    (fun e => ret (error_response (exn_msg e) 500)).

(** The handler of POST /mock-analyze; [data] is [request.get_json()]. *)
Definition mock_analyze (data : option dict) : M response :=
  try_except
    (let data := default ∅ (MLClient.context_given data) in
     let patient_context : dict :=
       <["patient_id" := dict_get_default data "patient_id" (VStr "TEST001")]>
       (<["age" := dict_get_default data "age" (VInt 35)]>
       (<["gender" := dict_get_default data "gender" (VStr "male")]>
       (<["symptoms" := dict_get_default data "symptoms" (VStr "")]> ∅))) in
     let! result := ml_analyze a w None (Some patient_context) in
     ret (result, 200))
    (fun e => ret (error_response (exn_msg e) 500)).

End Handlers.

Definition analyze_heart_sound (P : platform) (a : app) (w : world)
    (req : request) : M response :=
  analyze_with P send_sms_alert a w req.

End App.

(** ** The specification's tables and policies, in its own words *)

Module Spec.

(** Mapping table, case-insensitive on the label: normal to low, abnormal
    to high, murmur to medium, any unrecognized label to medium. *)
Definition tier_of_label (label : string) : string :=
  if Str.ci_eqb label "normal" then "low"
  else if Str.ci_eqb label "abnormal" then "high"
  else if Str.ci_eqb label "murmur" then "medium"
  else "medium".

Definition in_table (label : string) : bool :=
  Str.ci_eqb label "normal" || Str.ci_eqb label "abnormal"
  || Str.ci_eqb label "murmur".

Inductive variant : Type := RemoteAPI | LocalModel | Mock.

(** Selection policy: remote when the flag is on and an endpoint is
    configured, else the local model when one was loaded, else mock. *)
Definition select (use_remote : bool) (endpoint_configured : bool)
    (local_loaded : bool) : variant :=
  if use_remote && endpoint_configured then RemoteAPI
  else if local_loaded then LocalModel
  else Mock.

(** The audio artifact has an extension in the allowed set: the text
    after its last dot is wav, mp3 or m4a, in any case. *)
Definition has_allowed_extension (filename : string) : Prop :=
  ∃ stem ext known,
    filename = stem ++ "." ++ ext
    ∧ Str.contains_dot ext = false
    ∧ known ∈ ["wav"; "mp3"; "m4a"]
    ∧ Str.ci_eqb ext known = true.

(** The patient context's age is greater than 50. *)
Definition age_over_50 (patient_context : option dict) : bool :=
  match patient_context with
  | Some d =>
      match d !! "age" with
      | Some (VInt z) => 50 <? z
      | Some (VFloat q) => if Qlt_le_dec 50 q then true else false
      | _ => false
      end
  | None => false
  end.

(** The age of the context is a number, or the context has no age. *)
Definition age_is_number (patient_context : option dict) : Prop :=
  match patient_context with
  | Some d =>
      match d !! "age" with
      | Some (VInt _) | Some (VFloat _) | Some (VBool _) | None => True
      | Some _ => False
      end
  | None => True
  end.

(** The risk tier of an outcome is high. *)
Definition high_risk (outcome : dict) : bool :=
  match outcome !! "risk_level" with
  | Some (VStr tier) => String.eqb tier "high"
  | _ => false
  end.

(** The phone of the patient context is present and non-empty. *)
Definition phone_present (patient_context : dict) : bool :=
  match patient_context !! "phone" with
  | Some (VStr number) => negb (String.eqb number "")
  | Some v => truthy v
  | None => false
  end.

End Spec.

(** The remote call of a request fails: a non-200 status, a timeout or
    transport exception raised by the post, and also an audio file that
    cannot be opened or a 200 body that is not JSON. *)
Inductive remote_fails (w : world) (audio_path : option string) : Prop :=
| fails_status status json :
    w_http w = HttpResponse status json → status ≠ 200 → remote_fails w audio_path
| fails_transport e :
    w_http w = HttpRaise e → remote_fails w audio_path
| fails_body e :
    w_http w = HttpResponse 200 (Raise e) → remote_fails w audio_path
| fails_no_path :
    audio_path = None → remote_fails w audio_path
| fails_open p :
    audio_path = Some p → w_readable w p = false → remote_fails w audio_path.

(** The persistence write of a request fails: the insert raises, or its
    response carries no row. *)
Definition insert_fails (w : world) : Prop :=
  match w_insert w with
  | InsertRaise _ => True
  | InsertResponse None => True
  | InsertResponse (Some []) => True
  | InsertResponse (Some (_ :: _)) => False
  end.

(** The classifier variant a trace starts with. *)
Definition variant_of_event (ev : event) : option Spec.variant :=
  match ev with
  | EvOpenFile _ | EvHttpPost _ _ _ => Some Spec.RemoteAPI
  | EvLocalPredict _ => Some Spec.LocalModel
  | EvMockAnalysis => Some Spec.Mock
  | _ => None
  end.

Definition first_variant (t : list event) : option Spec.variant :=
  head (omap variant_of_event t).

(** The number of alert dispatches of a trace. *)
Definition is_sms (ev : event) : bool :=
  match ev with EvSms _ _ => true | _ => false end.

Definition alerts (t : list event) : nat := length (filter (fun ev => is_sms ev = true) t).

(** A computation that dispatches no alert, whatever its outcome. *)
Definition silent {A} (m : M A) : Prop := alerts (snd m) = 0%nat.

(** ** Sample inputs *)

Module Sample.

(** A stand-in for [int]: unsigned decimal digits. *)
Fixpoint decimal (acc : Z) (s : string) : option Z :=
  match s with
  | EmptyString => Some acc
  | String c s' =>
      let n := Z.of_N (N_of_ascii c) in
      if (48 <=? n) && (n <=? 57) then decimal (10 * acc + (n - 48)) s' else None
  end.

Definition platform : App.platform :=
  App.Platform
    (fun name => name)
    (fun s => match s with EmptyString => None | _ => decimal 0 s end)
    (fun v => match v with VStr s => s | _ => "" end).

Definition heart_model : HeartSoundModel.t :=
  HeartSoundModel.Build (Some HeartSoundModel.KerasModel) ∅.

(** No environment variable set: the local model is loaded. *)
Definition local_client : MLClient.t :=
  MLClient.__init__ ∅ true (Return heart_model).

Definition remote_client : MLClient.t :=
  MLClient.__init__
    (<["USE_REAL_ML" := "true"]> (<["ML_API_URL" := "http://ml.example/predict"]> ∅))
    true (Return heart_model).

(** The model answers "abnormal" with probability 0.75; the remote call
    times out; the database insert is refused. *)
Definition local_world : world :=
  World 0 0 (fun _ => true)
    (HttpRaise (Exn RequestException "Read timed out."))
    (Return [1 # 4; 3 # 4]%Q)
    "0123abcd" "2026-01-01T00:00:00" None
    (InsertRaise (Exn RuntimeError "connection refused")).

(** The remote classifier answers 200 with a body that has an
    [sms_sent] key. *)
Definition remote_body : dict :=
  <["prediction" := VStr "abnormal"]>
  (<["confidence" := VFloat (9 # 10)]>
  (<["risk_level" := VStr "high"]>
  (<["sms_sent" := VBool true]> ∅))).

Definition remote_world : world :=
  World 0 0 (fun _ => true)
    (HttpResponse 200 (Return (VDict remote_body)))
    (Return [1 # 4; 3 # 4]%Q)
    "0123abcd" "2026-01-01T00:00:00" None
    (InsertResponse (Some [<["id" := VInt 7]> ∅])).

(** An upload of heart.wav with a patient id and a phone, and no age. *)
Definition request : App.request :=
  App.Request
    (<["audio" := App.FileStorage "heart.wav"]> ∅)
    (<["patient_id" := "P1"]> (<["phone" := "+15550100"]> ∅)).

(** The same upload for a patient of 60. *)
Definition request_60 : App.request :=
  App.Request
    (<["audio" := App.FileStorage "heart.wav"]> ∅)
    (<["patient_id" := "P1"]> (<["age" := "60"]> ∅)).

Definition local_app : App.app :=
  App.Build (App.CoreClient local_client) (App.CoreDatabase true).

Definition remote_app : App.app :=
  App.Build (App.CoreClient remote_client) (App.CoreDatabase true).

End Sample.

(** * The rest of the code *)

(** ** More operations on Python values and traces *)

(** [a or b]. *)
Definition py_or (a b : pyval) : pyval := if truthy a then a else b.

(** [v.get(k, dflt)] on a value that may not be a dict. *)
Definition py_get (v : pyval) (k : string) (dflt : pyval) : M pyval :=
  match v with
  | VDict d => ret (dict_get_default d k dflt)
  | _ => raise (Exn AttributeError "object has no attribute 'get'")
  end.

(** The number of events of one kind in a trace. *)
Definition count_events (p : event → bool) (t : list event) : nat :=
  length (filter (fun ev => p ev = true) t).

Definition is_post (ev : event) : bool :=
  match ev with EvHttpPost _ _ _ => true | _ => false end.

Definition is_insert (ev : event) : bool :=
  match ev with EvDbInsert _ => true | _ => false end.

Definition is_mock_analysis (ev : event) : bool :=
  match ev with EvMockAnalysis | EvSleep => true | _ => false end.

(** The events a classifier may leave: it touches neither the upload
    folder, nor the database, nor the SMS service. *)
Definition classifier_event (ev : event) : bool :=
  match ev with
  | EvSleep | EvOpenFile _ | EvHttpPost _ _ _ | EvLocalPredict _ | EvMockAnalysis => true
  | _ => false
  end.

(** The post of [_call_external_ml_api]: the URL, the serialized context
    when one is given, and the bearer token when a key is set. *)
Definition post_event (self : MLClient.t) (ctx : option dict) : event :=
  EvHttpPost (MLClient.ml_api_url self) (MLClient.context_given ctx)
    (if String.eqb (MLClient.ml_api_key self) "" then None
     else Some (MLClient.ml_api_key self)).

(** The object a supabase query returns from [.execute()]: its [data]
    attribute may be missing, [None] or a list of rows, and so may its
    [count]. *)
Inductive response_data : Type :=
| NoData
| DataNone
| DataRows (rows : list dict).

Record api_response : Type := ApiResponse {
  resp_data : response_data;
  resp_count : option pyval
}.

(** ** core/database.py: the record and the read side *)

Module DatabaseRead.

(** Lines 34-43: the row that [save_screening_result] inserts. *)
Definition screening_record (w : world) (screening_data : dict) : dict :=
  <["patient_id" := dict_get_default screening_data "patient_id" (VStr "")]>
  (<["patient_name" := dict_get_default screening_data "patient_name" (VStr "")]>
  (<["patient_age" := dict_get screening_data "age"]>
  (<["recording_url" := dict_get_default screening_data "audio_filename" (VStr "")]>
  (<["status" := dict_get_default screening_data "prediction" (VStr "")]>
  (<["confidence" := dict_get screening_data "confidence"]>
  (<["risk_level" := dict_get_default screening_data "risk_level" (VStr "")]>
  (<["created_at" :=
       dict_get_default screening_data "created_at" (VStr (w_now w))]> ∅))))))).

(** Lines 88-98: a row mapped back to the names of the application. *)
Definition history_entry (item : dict) : dict :=
  <["id" := dict_get item "id"]>
  (<["patient_id" := dict_get item "patient_id"]>
  (<["patient_name" := dict_get item "patient_name"]>
  (<["age" := dict_get item "patient_age"]>
  (<["audio_filename" := dict_get item "recording_url"]>
  (<["prediction" := dict_get item "status"]>
  (<["confidence" := dict_get item "confidence"]>
  (<["risk_level" := dict_get item "risk_level"]>
  (<["created_at" := dict_get item "created_at"]> ∅)))))))).

(** [executed] is what the select query does. *)
Definition get_patient_history (supabase : bool) (executed : outcome api_response)
    (patient_id : pyval) : M dict :=
  if negb supabase then
    ret (<["success" := VBool true]>
        (<["history" := VList []]> (<["count" := VInt 0]> ∅)))
  else
    try_except
      (let! response := lift executed in
       match resp_data response with
       | NoData =>
           ret (<["success" := VBool false]>
               (<["error" := VStr "No data returned"]>
               (<["history" := VList []]> (<["count" := VInt 0]> ∅))))
       | DataNone => raise (Exn TypeError "'NoneType' object is not iterable")
       | DataRows rows =>
           let history := history_entry <$> rows in
           ret (<["success" := VBool true]>
               (<["history" := VList (VDict <$> history)]>
               (<["count" := VInt (Z.of_nat (length history))]> ∅)))
       end)
      (fun e =>
         ret (<["success" := VBool false]>
             (<["error" := VStr (exn_msg e)]>
             (<["history" := VList []]> (<["count" := VInt 0]> ∅))))).

(** [executed] is what the counting query does, [now] the clock. *)
Definition get_system_stats (supabase : bool) (executed : outcome api_response)
    (now : string) : M dict :=
  if negb supabase then
    ret (<["success" := VBool true]>
        (<["stats" := VDict (<["total_screenings" := VInt 0]>
                            (<["normal_count" := VInt 0]>
                            (<["abnormal_count" := VInt 0]> ∅)))]> ∅))
  else
    try_except
      (let! total_response := lift executed in
       let total := py_or (default (VInt 0) (resp_count total_response)) (VInt 0) in
       ret (<["success" := VBool true]>
           (<["stats" := VDict (<["total_screenings" := total]>
                               (<["last_updated" := VStr now]> ∅))]> ∅)))
      (fun e =>
         ret (<["success" := VBool false]>
             (<["error" := VStr (exn_msg e)]>
             (<["stats" := VDict ∅]> ∅)))).

End DatabaseRead.

(** ** core/patient_service.py *)

Module PatientService.

(** [supabase] tells whether the client was created at import time, [now]
    is the clock and [executed] what the insert does. *)
Definition register_patient (supabase : bool) (now : string)
    (executed : outcome api_response) (patient_data : pyval) : M dict :=
  if negb supabase then
    let! patient_id := py_get patient_data "patient_id" (VStr "mock_patient") in
    ret (<["success" := VBool true]>
        (<["patient_id" := patient_id]>
        (<["message" := VStr "Mock registration - database not connected"]> ∅)))
  else
    try_except
      (let! given_full_name := py_get patient_data "full_name" VNone in
       let! given_name :=
         if truthy given_full_name then ret VNone
         else py_get patient_data "name" VNone in
       let full_name := py_or (py_or given_full_name given_name) (VStr "") in
       if negb (truthy full_name) then
         ret (<["success" := VBool false]>
             (<["error" := VStr "Missing required fields: full_name or name"]> ∅))
       else
         let! patient_id := py_get patient_data "patient_id" (VStr "") in
         let! age := py_get patient_data "age" VNone in
         let! gender := py_get patient_data "gender" (VStr "") in
         let! phone := py_get patient_data "phone" (VStr "") in
         let record : dict :=
           <["patient_id" := patient_id]>
           (<["name" := full_name]>
           (<["age" := age]>
           (<["gender" := gender]>
           (<["phone" := phone]>
           (<["created_at" := VStr now]> ∅))))) in
         do! emit (EvDbInsert record) in
         let! response := lift executed in
         match resp_data response with
         | DataRows (_ :: _) =>
             ret (<["success" := VBool true]>
                 (<["patient_id" := patient_id]>
                 (<["name" := full_name]>
                 (<["message" := VStr "Patient registered successfully"]> ∅))))
         | _ =>
             ret (<["success" := VBool false]>
                 (<["error" := VStr "Database insert failed"]> ∅))
         end)
      (fun e =>
         ret (<["success" := VBool false]> (<["error" := VStr (exn_msg e)]> ∅))).

Definition check_patient_exists (supabase : bool) (executed : outcome api_response)
    (patient_id : pyval) : M dict :=
  if negb supabase then
    ret (<["exists" := VBool false]>
        (<["patient_id" := patient_id]>
        (<["note" := VStr "Mock check - database not connected"]> ∅)))
  else
    try_except
      (let! response := lift executed in
       let! exists_ :=
         match resp_data response with
         | NoData => ret false
         | DataNone => raise (Exn TypeError "object of type 'NoneType' has no len()")
         | DataRows rows => ret (0 <? Z.of_nat (length rows))
         end in
       let name :=
         match resp_data response with
         | DataRows (row :: _) => if exists_ then dict_get row "name" else VNone
         | _ => VNone
         end in
       ret (<["exists" := VBool exists_]>
           (<["patient_id" := patient_id]>
           (<["name" := name]> ∅))))
      (fun e =>
         ret (<["exists" := VBool false]>
             (<["patient_id" := patient_id]>
             (<["error" := VStr (exn_msg e)]> ∅)))).

Definition get_patient_details (supabase : bool) (executed : outcome api_response)
    (patient_id : pyval) : M dict :=
  if negb supabase then
    ret (<["success" := VBool false]>
        (<["error" := VStr "Database not connected"]>
        (<["patient_id" := patient_id]> ∅)))
  else
    try_except
      (let! response := lift executed in
       match resp_data response with
       | DataRows (patient :: _) =>
           ret (<["success" := VBool true]> (<["patient" := VDict patient]> ∅))
       | _ =>
           ret (<["success" := VBool false]>
               (<["error" := VStr "Patient not found"]>
               (<["patient_id" := patient_id]> ∅)))
       end)
      (fun e =>
         ret (<["success" := VBool false]>
             (<["error" := VStr (exn_msg e)]>
             (<["patient_id" := patient_id]> ∅)))).

End PatientService.

(** ** app.py: the other endpoints *)

From stdpp Require Import pretty.

Local Open Scope string_scope.
Local Open Scope Z_scope.

Module Routes.

(** What the guarded import of core.patient_service bound. *)
Inductive patient_binding : Type :=
| CorePatients (supabase : bool)
| FallbackPatients.               (* the functions defined at lines 39-44 *)

Definition register_patient (b : patient_binding) (now : string)
    (executed : outcome api_response) (data : pyval) : M dict :=
  match b with
  | CorePatients supabase => PatientService.register_patient supabase now executed data
  | FallbackPatients =>
      let! patient_id := py_get data "patient_id" (VStr "mock") in
      ret (<["success" := VBool true]> (<["patient_id" := patient_id]> ∅))
  end.

Definition check_patient_exists (b : patient_binding)
    (executed : outcome api_response) (patient_id : pyval) : M dict :=
  match b with
  | CorePatients supabase => PatientService.check_patient_exists supabase executed patient_id
  | FallbackPatients =>
      ret (<["exists" := VBool false]> (<["patient_id" := patient_id]> ∅))
  end.

Definition get_patient_details (b : patient_binding)
    (executed : outcome api_response) (patient_id : pyval) : M dict :=
  match b with
  | CorePatients supabase => PatientService.get_patient_details supabase executed patient_id
  | FallbackPatients =>
      ret (<["success" := VBool false]> (<["error" := VStr "Mock mode"]> ∅))
  end.

Definition get_patient_history (b : App.db_binding)
    (executed : outcome api_response) (patient_id : pyval) : M dict :=
  match b with
  | App.CoreDatabase supabase => DatabaseRead.get_patient_history supabase executed patient_id
  | App.FallbackDatabase =>
      ret (<["success" := VBool true]>
          (<["history" := VList []]> (<["count" := VInt 0]> ∅)))
  end.

Definition get_system_stats (b : App.db_binding)
    (executed : outcome api_response) (now : string) : M dict :=
  match b with
  | App.CoreDatabase supabase => DatabaseRead.get_system_stats supabase executed now
  | App.FallbackDatabase =>
      ret (<["success" := VBool true]>
          (<["stats" := VDict (<["total_screenings" := VInt 0]> ∅)]> ∅))
  end.

(** [needle in s] on strings. *)
Fixpoint contains (needle s : string) : bool :=
  String.prefix needle s
  || match s with
     | EmptyString => false
     | String _ s' => contains needle s'
     end.

(** ['patient_id' in data]. *)
Definition py_in (k : string) (data : pyval) : M bool :=
  match data with
  | VDict d => ret (bool_decide (is_Some (d !! k)))
  | VList l => ret (existsb (fun v => py_eq_str v k) l)
  | VStr s => ret (contains k s)
  | _ => raise (Exn TypeError "argument is not iterable")
  end.

(** [data['patient_id']]. *)
Definition py_item (data : pyval) (k : string) : M pyval :=
  match data with
  | VDict d => dict_item d k
  | VList _ => raise (Exn TypeError "list indices must be integers or slices, not str")
  | VStr _ => raise (Exn TypeError "string indices must be integers")
  | _ => raise (Exn TypeError "object is not subscriptable")
  end.

(** POST /patients/register; [json] is what [request.get_json()] does. *)
Definition register_patient_endpoint (b : patient_binding) (now : string)
    (executed : outcome api_response) (json : outcome pyval) : M App.response :=
  try_except
    (let! data := lift json in
     if negb (truthy data) then ret (App.error_response "No data provided" 400)
     else
       let! result := register_patient b now executed data in
       if truthy (dict_get result "success") then ret (VDict result, 201)
       else ret (VDict result, 400))
    (fun e => ret (App.error_response (exn_msg e) 500)).

(** POST /patients/check. *)
Definition check_patient (b : patient_binding) (executed : outcome api_response)
    (json : outcome pyval) : M App.response :=
  try_except
    (let! data := lift json in
     let! missing :=
       if negb (truthy data) then ret true
       else let! present := py_in "patient_id" data in ret (negb present) in
     if missing then ret (App.error_response "patient_id required" 400)
     else
       let! patient_id := py_item data "patient_id" in
       let! result := check_patient_exists b executed patient_id in
       ret (VDict result, 200))
    (fun e => ret (App.error_response (exn_msg e) 500)).

(** GET /patients/<patient_id>. *)
Definition get_patient (b : patient_binding) (executed : outcome api_response)
    (patient_id : string) : M App.response :=
  try_except
    (let! result := get_patient_details b executed (VStr patient_id) in
     ret (VDict result, 200))
    (fun e => ret (App.error_response (exn_msg e) 500)).

(** GET /history/<patient_id>. *)
Definition get_history (b : App.db_binding) (executed : outcome api_response)
    (patient_id : string) : M App.response :=
  try_except
    (let! history := get_patient_history b executed (VStr patient_id) in
     ret (VDict history, 200))
    (fun e => ret (App.error_response (exn_msg e) 500)).

(** GET /stats. *)
Definition get_stats (b : App.db_binding) (executed : outcome api_response)
    (now : string) : M App.response :=
  try_except
    (let! stats := get_system_stats b executed now in
     ret (VDict stats, 200))
    (fun e => ret (App.error_response (exn_msg e) 500)).

End Routes.

(** ** core/sms_service.py *)

Module SMSService.

Record t : Type := Build {
  account_sid : option string;
  auth_token : option string;
  from_number : option string;
  clinic_number : option string;
  client : bool                 (* a Twilio client was created *)
}.

(** A value of [os.getenv] is truthy. *)
Definition set_ (v : option string) : bool :=
  match v with
  | Some s => negb (String.eqb s "")
  | None => false
  end.

(** [twilio_client] tells whether importing twilio and building the client
    go through. *)
Definition __init__ (environ : gmap string string) (twilio_client : bool) : t :=
  let account_sid := environ !! "TWILIO_ACCOUNT_SID" in
  let auth_token := environ !! "TWILIO_AUTH_TOKEN" in
  {| account_sid := account_sid;
     auth_token := auth_token;
     from_number := environ !! "TWILIO_PHONE_NUMBER";
     clinic_number := environ !! "CLINIC_PHONE_NUMBER";
     client := if set_ account_sid && set_ auth_token then twilio_client else false |}.

Definition alert_message (P : App.platform)
    (patient_name risk_level confidence patient_id location : pyval) : string :=
  "🚨 PULSEECHO HEART ALERT

High-risk heart murmur detected!

Patient: " ++ App.py_str P patient_name ++ "
ID: " ++ App.py_str P patient_id ++ "
Risk Level: " ++ App.py_str P risk_level ++ "
Confidence: " ++ App.py_str P confidence ++ "%

Location: " ++ App.py_str P (if truthy location then location else VStr "Not specified") ++ "

Immediate pediatric cardiology consult recommended.

This is an automated alert from PulseEcho System.".

(** [random.randint(1000, 9999)]; [draw] is the draw. *)
Definition randint_1000_9999 (draw : Z) : Z := 1000 + draw mod 9000.

(** [created] is what [client.messages.create] does (the sid of the
    message, or an exception) and [draw] the draw of the mock id. *)
Definition send_alert (self : t) (P : App.platform) (created : outcome string)
    (draw : Z) (patient_name risk_level confidence patient_id location : pyval)
    : M dict :=
  let message := alert_message P patient_name risk_level confidence patient_id location in
  try_except
    (if client self && set_ (clinic_number self) then
       let clinic := default "" (clinic_number self) in
       do! emit (EvSms (VStr clinic) message) in
       let! sid := lift created in
       ret (<["success" := VBool true]>
           (<["message_id" := VStr sid]>
           (<["to" := VStr clinic]>
           (<["message" := VStr "SMS alert sent successfully"]> ∅))))
     else
       ret (<["success" := VBool true]>
           (<["message_id" := VStr ("mock_" ++ pretty (randint_1000_9999 draw))]>
           (<["to" := VStr "+1234567890 (Mock)"]>
           (<["message" := VStr "Mock SMS sent for demo"]> ∅)))))
    (fun e =>
       ret (<["success" := VBool false]>
           (<["error" := VStr (exn_msg e)]>
           (<["message" := VStr "Failed to send SMS alert"]> ∅)))).

(** [send_alert_sms]: the public interface, on the global instance. *)
Definition send_alert_sms (sms_service : t) (P : App.platform)
    (created : outcome string) (draw : Z)
    (patient_name risk_level confidence patient_id location : pyval) : M dict :=
  send_alert sms_service P created draw patient_name risk_level confidence
    patient_id location.

End SMSService.

(** ** predict.py *)

Module Predict.




(** [prediction[i]]. *)
Definition item (prediction : list Q) (i : nat) : M Q :=
  match prediction !! i with
  | Some p => ret p
  | None => raise (Exn IndexError "index out of bounds")
  end.


End Predict.

(** ** preprocess/audio_features.py *)

Module AudioFeatures.

(** [int(x)] on a float: truncation towards zero. *)
Definition py_int_of_float (x : Q) : Z :=
  if Qlt_le_dec x 0 then Qceiling x else Qfloor x.

(** [audio[:n]]: a negative [n] counts from the end. *)
Definition slice_to {A} (audio : list A) (n : Z) : list A :=
  if n <? 0 then take (Z.to_nat (Z.of_nat (length audio) + n)) audio
  else take (Z.to_nat n) audio.

(** Lines 13-18 of [extract_mel_spectrogram]: the loaded samples are
    padded with zeros or cut to [int(sr * duration)] samples.  The product
    is a product of Python floats, [float_mul]: the exact product rounded
    to a double. *)
Definition fixed_length (float_mul : Q → Q → Q) (audio : list Q) (sr duration : Q)
    : list Q :=
  let target_length := py_int_of_float (float_mul sr duration) in
  if Z.of_nat (length audio) <? target_length then
    audio ++ replicate (Z.to_nat (target_length - Z.of_nat (length audio))) 0%Q
  else slice_to audio target_length.

End AudioFeatures.

(** ** ml_model/model_loader.py: loading the model *)

Module ModelLoader.

(** The files [HeartSoundModel.__init__] reads and writes. *)
Record files : Type := Files {
  info_file : option (outcome pyval);  (* model_info.json: absent, or json.load *)
  model_exists : bool;                 (* os.path.exists(model_path) *)
  model_size : Z;                      (* os.path.getsize(model_path) *)
  load_model : outcome HeartSoundModel.keras_model;  (* tf.keras.models.load_model *)
  build_model : outcome HeartSoundModel.keras_model; (* Sequential, compile, save *)
  write_info : option exn              (* writing model_info.json back failing *)
}.

Definition default_info : dict :=
  <["model_name" := VStr "Heart Sound CNN"]>
  (<["classes" := HeartSoundModel.default_classes]>
  (<["description" := VStr "Heart sound classification model"]>
  (<["input_shape" := VList [VInt 1; VInt 128; VInt 128; VInt 1]]> ∅))).

(** [_create_new_model]: [None] when building or saving fails. *)
Definition _create_new_model (fs : files) : option HeartSoundModel.keras_model :=
  match build_model fs with
  | Return m => Some m
  | Raise _ => None
  end.

(** [self.model_info['note'] = note]. *)
Definition set_note (info : pyval) (note : string) : M dict :=
  match info with
  | VDict d => ret (<["note" := VStr note]> d)
  | _ => raise (Exn TypeError "object does not support item assignment")
  end.

Definition __init__ (fs : files) : M HeartSoundModel.t :=
  let! info :=
    match info_file fs with
    | Some loaded => lift loaded
    | None => ret (VDict default_info)
    end in
  let! loaded :=
    if negb (model_exists fs) then
      let model := _create_new_model fs in
      let! info := set_note info "New model created - original file missing" in
      ret (model, info)
    else if model_size fs <? 1024 then
      let model := _create_new_model fs in
      let! info := set_note info "New model created - original file corrupted" in
      ret (model, info)
    else
      match load_model fs, info with
      | Return m, VDict _ =>
          let! info := set_note info "Loaded from existing file" in
          ret (Some m, info)
      | Return _, _ =>
          (* [self.model_info.get] fails inside the try *)
          let model := _create_new_model fs in
          let! info :=
            set_note info
              ("New model created - load error: "
               ++ String.substring 0 50 "object has no attribute 'get'") in
          ret (model, info)
      | Raise e, _ =>
          let model := _create_new_model fs in
          let! info :=
            set_note info
              ("New model created - load error: " ++ String.substring 0 50 (exn_msg e)) in
          ret (model, info)
      end in
  do! match write_info fs with
      | Some e => raise e
      | None => ret tt
      end in
  ret (HeartSoundModel.Build loaded.1 loaded.2).

End ModelLoader.

(** ** More sample inputs *)

Module MoreSamples.

(** A model object whose Keras model could not be built. *)
Definition broken_model : HeartSoundModel.t := HeartSoundModel.Build None ∅.

Definition broken_client : MLClient.t :=
  MLClient.__init__ ∅ true (Return broken_model).

(** USE_REAL_ML is on, in upper case, and no URL is configured. *)
Definition flag_only : gmap string string := <["USE_REAL_ML" := "TRUE"]> ∅.

Definition screening : dict :=
  <["patient_id" := VStr "P1"]>
  (<["age" := VInt 60]>
  (<["audio_filename" := VStr "0123abcd_heart.wav"]>
  (<["prediction" := VStr "abnormal"]>
  (<["confidence" := VFloat (3 # 4)]>
  (<["risk_level" := VStr "high"]>
  (<["recommendation" := VStr "Urgent consultation."]> ∅)))))).

Definition nameless : dict := <["patient_id" := VStr "P1"]> (<["name" := VStr ""]> ∅).

Definition two_names : dict :=
  <["patient_id" := VStr "P1"]>
  (<["full_name" := VStr "Ada Lovelace"]>
  (<["name" := VStr "Ada"]> ∅)).

Definition inserted : outcome api_response :=
  Return (ApiResponse (DataRows [<["id" := VInt 7]> ∅]) None).

(** What the sample model predicts, and what the sample client makes of it. *)
Definition prediction : dict :=
  match fst (HeartSoundModel.predict_from_audio Sample.heart_model
               Sample.local_world None) with
  | Return result => result
  | Raise _ => ∅
  end.

Definition formatted : dict :=
  match fst (MLClient._format_local_ml_result Sample.local_client prediction None) with
  | Return (VDict r) => r
  | _ => ∅
  end.

(** The world of [Sample.local_world], with a database that accepts the
    insert and returns the new row. *)
Definition saving_world : world :=
  World 0 0 (fun _ => true)
    (HttpRaise (Exn RequestException "Read timed out."))
    (Return [1 # 4; 3 # 4]%Q)
    "0123abcd" "2026-01-01T00:00:00" None
    (InsertResponse (Some [<["id" := VInt 7]> ∅])).

(** The classifier's answer to the sample upload of a patient aged 60. *)
Definition classified : M pyval :=
  App.ml_analyze Sample.local_app saving_world
    (Some (App.audio_path_of Sample.platform saving_world
             (App.FileStorage "heart.wav")))
    (Some (App.patient_context_of Sample.platform Sample.request_60)).

Definition analysis : dict :=
  match fst classified with
  | Return (VDict ml) => ml
  | _ => ∅
  end.

(** The product of two Python floats where it is exact, as it is for the
    sample rate 2 and the duration 2.5 used below. *)
Definition float_mul (x y : Q) : Q := x * y.

(** No model file, no model info; building and writing go through. *)
Definition fresh_files : ModelLoader.files :=
  ModelLoader.Files None false 0 (Raise (Exn OSError "No such file"))
    (Return HeartSoundModel.KerasModel) None.

(** The model object built from them. *)
Definition fresh_model : HeartSoundModel.t :=
  match fst (ModelLoader.__init__ fresh_files) with
  | Return m => m
  | Raise _ => broken_model
  end.

End MoreSamples.


Example lower_NORMAL : Str.lower "NoRmAl" = "normal".
Proof. reflexivity. Qed.
Example rsplit_ex : Str.rsplit_dot "a.b.WAV" = ["a.b"; "WAV"].
Proof. reflexivity. Qed.
Example rsplit_nodot : Str.rsplit_dot "abc" = ["abc"].
Proof. reflexivity. Qed.
Example rsplit_trail : Str.rsplit_dot "abc." = ["abc"; ""].
Proof. reflexivity. Qed.
Example allowed_upper_case : App.allowed_file "heart.WAV" = true.
Proof. reflexivity. Qed.
Example allowed_no_extension : App.allowed_file "wav" = false.
Proof. reflexivity. Qed.
Example round_ex : Num.round_digits (12345 # 10000) 3 = (1234 # 1000).
Proof. reflexivity. Qed.
Example round_ex2 : Num.round_digits (12355 # 10000) 3 = (1236 # 1000).
Proof. reflexivity. Qed.
Example argmax_ex : Num.argmax [1#2; 3#4; 3#4; 1#4]%Q = ret 1%nat.
Proof. reflexivity. Qed.

(** * Properties *)

(** ** The effect monad *)

Section MonadLemmas.
Context {A B : Type}.

Lemma bind_Return_inv (m : M A) (f : A → M B) (b : B) (t : list event) :
  bind m f = (Return b, t) →
  ∃ a t1 t2, m = (Return a, t1) ∧ f a = (Return b, t2) ∧ t = (t1 ++ t2)%list.
Proof.
  destruct m as [[x | e] t1]; simpl; [| discriminate].
  destruct (f x) as [r t2] eqn:Hf. intros [= -> <-].
  exists x, t1, t2. auto.
Qed.



Lemma bind_ret_l (x : A) (f : A → M B) : bind (ret x) f = f x.
Proof. unfold bind, ret. by destruct (f x). Qed.


End MonadLemmas.

(** ** Strings *)

Section StringLemmas.

Lemma is_upper_spec (c : ascii) :
  Str.is_upper c = true ↔ (65 ≤ N_of_ascii c ≤ 90)%N.
Proof.
  unfold Str.is_upper. rewrite andb_true_iff, !N.leb_le. tauto.
Qed.

Lemma lower_char_not_upper (c : ascii) : Str.is_upper (Str.lower_char c) = false.
Proof.
  unfold Str.lower_char. destruct (Str.is_upper c) eqn:Hu; [| exact Hu].
  apply is_upper_spec in Hu. apply not_true_iff_false. rewrite is_upper_spec.
  rewrite N_ascii_embedding by lia. lia.
Qed.

Lemma lower_no_upper (s : string) : Str.no_upper (Str.lower s) = true.
Proof.
  induction s as [| c s IH]; simpl; [reflexivity |].
  rewrite lower_char_not_upper, IH. reflexivity.
Qed.

Lemma lower_char_same_letter (a b : ascii) :
  Str.is_upper b = false →
  Str.lower_char a = b ↔ Str.same_letter a b = true.
Proof.
  intros Hb. unfold Str.lower_char, Str.same_letter. rewrite Hb.
  rewrite andb_false_l, orb_false_r.
  destruct (Str.is_upper a) eqn:Ha; simpl.
  - pose proof (proj1 (is_upper_spec a) Ha) as Hr.
    rewrite orb_true_iff, Ascii.eqb_eq, N.eqb_eq. split.
    + intros <-. right. rewrite N_ascii_embedding by lia. reflexivity.
    + intros [-> | Hn]; [congruence |].
      rewrite Hn. apply ascii_N_embedding.
  - rewrite orb_false_r. symmetry. apply Ascii.eqb_eq.
Qed.

(** Lowering and comparing with a lower-case key is comparing up to
    case. *)
Lemma lower_eq_ci (s key : string) :
  Str.no_upper key = true →
  Str.lower s = key ↔ Str.ci_eqb s key = true.
Proof.
  revert key. induction s as [| a s IH]; intros [| b key] Hk; simpl in *;
    try (split; [discriminate | discriminate]); [tauto |].
  apply andb_true_iff in Hk as [Hb Hk]. apply negb_true_iff in Hb.
  rewrite andb_true_iff, <- (IH key Hk), <- (lower_char_same_letter a b Hb).
  split; [intros [= -> ->]; auto | intros [-> ->]; reflexivity].
Qed.

Lemma lower_ne_of_upper (s key : string) :
  Str.no_upper key = false → Str.lower s ≠ key.
Proof.
  intros Hk <-. rewrite lower_no_upper in Hk. discriminate.
Qed.

End StringLemmas.

(** ** Result normalization *)

Section Normalization.

Lemma risk_mapping_lower (label : string) :
  default "medium" (MLClient.risk_mapping !! Str.lower label)
  = Spec.tier_of_label label.
Proof.
  unfold Spec.tier_of_label, MLClient.risk_mapping.
  destruct (Str.ci_eqb label "normal") eqn:H1.
  { apply lower_eq_ci in H1; [| reflexivity]. rewrite H1. reflexivity. }
  destruct (Str.ci_eqb label "abnormal") eqn:H2.
  { apply lower_eq_ci in H2; [| reflexivity]. rewrite H2. reflexivity. }
  destruct (Str.ci_eqb label "murmur") eqn:H3.
  { apply lower_eq_ci in H3; [| reflexivity]. rewrite H3. reflexivity. }
  assert (Hne : ∀ key, Str.no_upper key = true → Str.ci_eqb label key = false →
                       key ≠ Str.lower label).
  { intros key Hk Hc Heq. symmetry in Heq. apply lower_eq_ci in Heq; congruence. }
  assert (Hup : ∀ key, Str.no_upper key = false → key ≠ Str.lower label).
  { intros key Hk Heq. symmetry in Heq. revert Heq. by apply lower_ne_of_upper. }
  rewrite !lookup_insert_ne, lookup_empty; auto.
Qed.

Lemma mock_risk_mapping_spec (label : string) :
  label ∈ MLClient.predictions →
  default "medium" (MLClient.mock_risk_mapping !! label) = Spec.tier_of_label label.
Proof.
  unfold MLClient.predictions. rewrite !elem_of_cons, elem_of_nil.
  intros [-> | [-> | [-> | []]]]; reflexivity.
Qed.

End Normalization.

Section Draws.

Lemma choice_elem {A} (l : list A) (draw : nat) :
  l ≠ [] → ∃ x, Num.choice l draw = ret x ∧ x ∈ l.
Proof.
  intros Hl. unfold Num.choice.
  assert (Hlt : (draw mod length l < length l)%nat).
  { apply Nat.mod_upper_bound. destruct l; [done | simpl; lia]. }
  destruct (lookup_lt_is_Some_2 l _ Hlt) as [x Hx]. rewrite Hx.
  exists x. split; [reflexivity |]. by eapply list_elem_of_lookup_2.
Qed.

(** What [_mock_analysis] returns, in terms of the label drawn. *)
Lemma mock_analysis_result (w : world) (ctx : option dict) :
  ∃ label, label ∈ MLClient.predictions ∧
    MLClient._mock_analysis w ctx =
    (Return (VDict
       (<["prediction" := VStr label]>
       (<["confidence" :=
            VFloat (Num.round_digits (Num.uniform (6 # 10) (95 # 100) (w_random w)) 3)]>
       (<["risk_level" := VStr (default "medium" (MLClient.mock_risk_mapping !! label))]>
       (<["recommendation" :=
            VStr (default "" (MLClient.mock_recommendations
                                !! default "medium" (MLClient.mock_risk_mapping !! label)))]>
       (<["ml_source" := VStr "mock"]>
       (<["note" := VStr "Using mock analysis - ML model not available"]> ∅))))))),
     [EvMockAnalysis; EvSleep]).
Proof.
  destruct (choice_elem MLClient.predictions (w_choice w)) as (label & Hc & Hin);
    [discriminate |].
  exists label. split; [exact Hin |].
  unfold MLClient._mock_analysis. simpl. rewrite Hc. reflexivity.
Qed.

End Draws.

(** C1: the risk tier assigned by normalization is the fixed mapping,
    case-insensitive on the label: normal gives low, abnormal gives high,
    murmur gives medium, and a label outside the table gives medium, never
    low.  This holds for the local-model formatter on every label and for
    the mock generator on the label it draws. *)
Theorem C1_risk_tier_mapping :
  (∀ self ml_result ctx label r t,
     ml_result !! "prediction" = Some (VStr label) →
     MLClient._format_local_ml_result self ml_result ctx = (Return (VDict r), t) →
     r !! "risk_level" = Some (VStr (Spec.tier_of_label label))
     ∧ (Spec.in_table label = false → r !! "risk_level" = Some (VStr "medium"))
     ∧ (r !! "risk_level" = Some (VStr "low") → Str.ci_eqb label "normal" = true))
  ∧ (∀ w ctx, ∃ label r t,
       MLClient._mock_analysis w ctx = (Return (VDict r), t)
       ∧ r !! "prediction" = Some (VStr label)
       ∧ r !! "risk_level" = Some (VStr (Spec.tier_of_label label))).
Proof.
  split.
  - intros self ml_result ctx label r t Hp Hf.
    unfold MLClient._format_local_ml_result, dict_item in Hf. rewrite Hp in Hf.
    simpl in Hf.
    destruct (ml_result !! "confidence") as [conf |]; simpl in Hf; [| discriminate].
    destruct (MLClient.analysis_note_of _ ctx) as [[note | e] t1]; simpl in Hf;
      [| discriminate].
    destruct (py_round conf 4) as [[rounded | e] t2]; simpl in Hf; [| discriminate].
    injection Hf as <- <-. unfold MLClient.local_result.
    rewrite lookup_insert_ne by done. rewrite lookup_insert_ne by done.
    rewrite lookup_insert_eq, risk_mapping_lower.
    split; [reflexivity |]. unfold Spec.tier_of_label, Spec.in_table.
    destruct (Str.ci_eqb label "normal"), (Str.ci_eqb label "abnormal"),
      (Str.ci_eqb label "murmur"); simpl; split; intros; congruence.
  - intros w ctx. destruct (mock_analysis_result w ctx) as (label & Hin & ->).
    eexists label, _, _. split; [reflexivity |].
    split; [by rewrite lookup_insert_eq |].
    rewrite lookup_insert_ne by done. rewrite lookup_insert_ne by done.
    rewrite lookup_insert_eq. by rewrite mock_risk_mapping_spec.
Qed.

Lemma C1_risk_tier_mapping_witness :
  ∃ r t,
    MLClient._format_local_ml_result Sample.local_client
      (<["prediction" := VStr "ABNORMAL"]> (<["confidence" := VFloat (9 # 10)]> ∅))
      None = (Return (VDict r), t)
    ∧ r !! "risk_level" = Some (VStr "high").
Proof.
  eexists _, _. split; [reflexivity |].
  eapply (proj1 C1_risk_tier_mapping Sample.local_client
            (<["prediction" := VStr "ABNORMAL"]> (<["confidence" := VFloat (9 # 10)]> ∅))
            None "ABNORMAL").
  - reflexivity.
  - reflexivity.
Defined.

(** ** Selection and fallback of the classifier *)

Section Selection.

Lemma trace_bind_emit {B} (ev : event) (f : unit → M B) :
  snd (bind (emit ev) f) = ev :: snd (f tt).
Proof. unfold bind, emit. destruct (f tt). reflexivity. Qed.

Lemma trace_try_except {A} (m : M A) (h : exn → M A) :
  ∃ t', snd (try_except m h) = (snd m ++ t')%list.
Proof.
  destruct m as [[x | e] t]; simpl.
  - exists []. by rewrite app_nil_r.
  - destruct (h e) as [r t']. by exists t'.
Qed.


Lemma trace_bind_prefix {A B} (m : M A) (g : A → M B) :
  ∃ t', snd (bind m g) = (snd m ++ t')%list.
Proof.
  destruct m as [[x | e] t]; simpl.
  - destruct (g x) as [r t']. by exists t'.
  - exists []. by rewrite app_nil_r.
Qed.

Lemma external_trace (self : MLClient.t) (w : world) (audio_path : option string)
    (ctx : option dict) :
  ∃ t, snd (MLClient._call_external_ml_api self w audio_path ctx)
       = EvOpenFile audio_path :: t.
Proof.
  unfold MLClient._call_external_ml_api.
  match goal with |- ∃ t, snd (try_except ?m ?h) = _ =>
    destruct (trace_try_except m h) as [t1 ->] end.
  match goal with |- ∃ t, (snd (bind ?m ?g) ++ _)%list = _ =>
    destruct (trace_bind_prefix m g) as [t2 ->] end.
  unfold MLClient.open_audio. rewrite trace_bind_emit. simpl. eauto.
Qed.

End Selection.

Section Fallback.

Lemma external_fallback (self : MLClient.t) (w : world)
    (audio_path : option string) (ctx : option dict) (v : pyval) (t0 : list event) :
  MLClient._mock_analysis w ctx = (Return v, t0) →
  remote_fails w audio_path →
  ∃ t, MLClient._call_external_ml_api self w audio_path ctx = (Return v, t).
Proof.
  intros Hm Hf. unfold MLClient._call_external_ml_api, MLClient.open_audio.
  rewrite Hm.
  destruct audio_path as [p |]; [destruct (w_readable w p) eqn:Hr |];
    try (simpl; eauto; fail).
  destruct (w_http w) as [e | status json] eqn:Hh; [simpl; eauto |].
  destruct (status =? 200) eqn:Hs; [| simpl; eauto].
  apply Z.eqb_eq in Hs. subst status.
  destruct json as [body | e]; [| simpl; eauto].
  exfalso. destruct Hf as [status json Hh' Hne | e Hh' | e Hh' | Hp | q Hp Hq];
    congruence.
Qed.

End Fallback.

(** C3: when the remote API variant fails (non-200 status, timeout or
    transport exception), the classifier returns the mock variant's result
    for that request: a complete outcome with a label, a confidence and
    provenance mock; nothing is raised to the caller. *)
Theorem C3_remote_failure_falls_back_to_mock
    (self : MLClient.t) (w : world) (audio_path : option string) (ctx : option dict) :
  remote_fails w audio_path →
  ∃ r t label c,
    MLClient._call_external_ml_api self w audio_path ctx = (Return (VDict r), t)
    ∧ fst (MLClient._mock_analysis w ctx) = Return (VDict r)
    ∧ r !! "prediction" = Some (VStr label) ∧ label ∈ MLClient.predictions
    ∧ r !! "confidence" = Some (VFloat c)
    ∧ r !! "ml_source" = Some (VStr "mock").
Proof.
  intros Hf. destruct (mock_analysis_result w ctx) as (label & Hin & Hm).
  destruct (external_fallback self w audio_path ctx _ _ Hm Hf) as [t Ht].
  eexists _, t, label, _. split; [exact Ht |]. rewrite Hm.
  split; [reflexivity |]. split; [by rewrite lookup_insert_eq |].
  split; [exact Hin |]. split.
  - rewrite lookup_insert_ne by done. by rewrite lookup_insert_eq.
  - do 4 (rewrite lookup_insert_ne by done). by rewrite lookup_insert_eq.
Qed.

(** ** Confidence of the mock variants *)

Section Confidence.

Local Open Scope Q_scope.

Lemma round_half_even_bounds (q : Q) (lo hi : Z) :
  inject_Z lo <= q → q <= inject_Z hi →
  (lo ≤ Num.round_half_even q ≤ hi)%Z.
Proof.
  intros Hlo Hhi. unfold Num.round_half_even.
  pose proof (Qfloor_resp_le _ _ Hlo) as Hf1. rewrite Qfloor_Z in Hf1.
  pose proof (Qfloor_resp_le _ _ Hhi) as Hf2. rewrite Qfloor_Z in Hf2.
  assert (Hup : 0 < q - inject_Z (Qfloor q) → (Qfloor q + 1 ≤ hi)%Z).
  { intros Hpos. destruct (Z.eq_dec (Qfloor q) hi) as [Heq | Hne]; [| lia].
    exfalso. rewrite Heq in Hpos. lra. }
  destruct (Qcompare_spec (q - inject_Z (Qfloor q)) (1 # 2)) as [He | Hl | Hg].
  - destruct (Z.even (Qfloor q)); [lia |].
    split; [lia |]. apply Hup. lra.
  - lia.
  - split; [lia |]. apply Hup. lra.
Qed.

Lemma random_unit_bounds (k : Z) :
  0 <= Num.random_unit k ∧ Num.random_unit k < 1.
Proof.
  unfold Num.random_unit, Qle, Qlt. cbn [Qnum Qden].
  pose proof (Z.mod_pos_bound k (2 ^ 53) eq_refl) as Hb.
  rewrite Z2Pos.id by reflexivity. lia.
Qed.

Lemma uniform_bounds (a b : Q) (k : Z) :
  a <= b → a <= Num.uniform a b k ∧ Num.uniform a b k <= b.
Proof.
  intros Hab. unfold Num.uniform.
  destruct (random_unit_bounds k) as [H0 H1].
  set (r := Num.random_unit k) in *.
  split; nra.
Qed.

(** Rounding to [n] digits keeps a value between two bounds that have at
    most [n] digits themselves. *)
Lemma round_digits_bounds (q : Q) (n : nat) (lo hi : Z) :
  inject_Z lo <= q * inject_Z (10 ^ Z.of_nat n) →
  q * inject_Z (10 ^ Z.of_nat n) <= inject_Z hi →
  Qmake lo (Z.to_pos (10 ^ Z.of_nat n)) <= Num.round_digits q n
  ∧ Num.round_digits q n <= Qmake hi (Z.to_pos (10 ^ Z.of_nat n)).
Proof.
  intros Hlo Hhi. unfold Num.round_digits.
  destruct (round_half_even_bounds _ _ _ Hlo Hhi) as [H1 H2].
  unfold Qle. cbn [Qnum Qden]. split; nia.
Qed.

Lemma mock_confidence_bounds (a b : Q) (lo hi : Z) (k : Z) :
  a <= b → inject_Z lo == a * 1000 → inject_Z hi == b * 1000 →
  a <= Num.round_digits (Num.uniform a b k) 3
  ∧ Num.round_digits (Num.uniform a b k) 3 <= b.
Proof.
  intros Hab Hlo Hhi. destruct (uniform_bounds a b k Hab) as [H1 H2].
  destruct (round_digits_bounds (Num.uniform a b k) 3 lo hi) as [H3 H4].
  - change (inject_Z (10 ^ Z.of_nat 3)) with 1000. lra.
  - change (inject_Z (10 ^ Z.of_nat 3)) with 1000. lra.
  - change (Z.to_pos (10 ^ Z.of_nat 3)) with 1000%positive in *.
    assert (Ea : lo # 1000 == a).
    { rewrite (Qmake_Qdiv lo 1000). change (inject_Z (Z.pos 1000)) with 1000.
      rewrite Hlo. field. }
    assert (Eb : hi # 1000 == b).
    { rewrite (Qmake_Qdiv hi 1000). change (inject_Z (Z.pos 1000)) with 1000.
      rewrite Hhi. field. }
    split.
    + apply Qle_trans with (lo # 1000); [| exact H3].
      apply Qle_lteq. right. symmetry. exact Ea.
    + apply Qle_trans with (hi # 1000); [exact H4 |].
      apply Qle_lteq. right. exact Eb.
Qed.

End Confidence.

(** C5: every result of the mock classifier has a label from the fixed set
    normal, abnormal, murmur, a confidence in [0.6, 0.95] and provenance
    mock (the generator of core/ml_client.py and the stand-in client of
    app.py alike); the confidence drawn by the model-fallback sub-variant
    lies in [0.7, 0.95]. *)
Theorem C5_mock_outcome :
  (∀ w ctx, ∃ r t label c,
     MLClient._mock_analysis w ctx = (Return (VDict r), t)
     ∧ r !! "prediction" = Some (VStr label)
     ∧ label ∈ ["normal"; "abnormal"; "murmur"]
     ∧ r !! "confidence" = Some (VFloat c)
     ∧ (6 # 10 <= c)%Q ∧ (c <= 95 # 100)%Q
     ∧ r !! "ml_source" = Some (VStr "mock"))
  ∧ (∀ a w audio_path ctx,
       App.ml_client a = App.FallbackClient →
       ∃ r c,
         App.ml_analyze a w audio_path ctx = (Return (VDict r), [])
         ∧ r !! "prediction" = Some (VStr "normal")
         ∧ r !! "confidence" = Some (VFloat c)
         ∧ (6 # 10 <= c)%Q ∧ (c <= 95 # 100)%Q
         ∧ r !! "ml_source" = Some (VStr "mock"))
  ∧ (∀ m w r t,
       HeartSoundModel._mock_prediction m w = (Return r, t) →
       ∃ c, r !! "confidence" = Some (VFloat c)
            ∧ (7 # 10 <= c)%Q ∧ (c <= 95 # 100)%Q).
Proof.
  split; [| split].
  - intros w ctx. destruct (mock_analysis_result w ctx) as (label & Hin & ->).
    eexists _, _, label, _. split; [reflexivity |].
    split; [by rewrite lookup_insert_eq |]. split; [exact Hin |].
    split; [rewrite lookup_insert_ne by done; by rewrite lookup_insert_eq |].
    destruct (mock_confidence_bounds (6 # 10) (95 # 100) 600 950 (w_random w))
      as [H1 H2]; [discriminate | reflexivity | reflexivity |].
    split; [exact H1 |]. split; [exact H2 |].
    do 4 (rewrite lookup_insert_ne by done). by rewrite lookup_insert_eq.
  - intros a w audio_path ctx Ha. unfold App.ml_analyze. rewrite Ha.
    eexists _, (85 # 100)%Q. split; [reflexivity |].
    repeat split; try discriminate.
  - intros m w r t. unfold HeartSoundModel._mock_prediction.
    destruct (py_seq _) as [[seq | e] t1]; simpl; [| discriminate].
    destruct (Num.choice seq (w_choice w)) as [[prediction | e] t2]; simpl;
      [| discriminate].
    intros [= <- <-]. eexists. split.
    + rewrite lookup_insert_ne by done. by rewrite lookup_insert_eq.
    + apply (mock_confidence_bounds (7 # 10) (95 # 100) 700 950);
        [discriminate | reflexivity | reflexivity].
Qed.

(** ** The contextual note *)

Section Note.

Lemma analysis_note_spec (tier : string) (ctx : option dict) (note : string)
    (t : list event) :
  MLClient.analysis_note_of tier ctx = (Return note, t) →
  note = (if Spec.age_over_50 ctx && negb (String.eqb tier "low")
          then MLClient.over_50_note else "")
  ∧ t = [].
Proof.
  unfold MLClient.analysis_note_of, MLClient.context_given, Spec.age_over_50, ret.
  destruct ctx as [d |]; [| by intros [= <- <-]].
  case_bool_decide as Hd.
  { subst d. rewrite lookup_empty. by intros [= <- <-]. }
  unfold dict_get_default. destruct (d !! "age") as [[| b | z | q | s | l | d'] |];
    simpl; try discriminate.
  - destruct b; simpl; by intros [= <- <-].
  - destruct (50 <? z), (negb (String.eqb tier "low")); simpl; by intros [= <- <-].
  - change (inject_Z 50) with 50%Q.
    destruct (Qlt_le_dec 50 q), (negb (String.eqb tier "low")); simpl;
      by intros [= <- <-].
  - by intros [= <- <-].
Qed.

Lemma analysis_note_total (tier : string) (ctx : option dict) :
  Spec.age_is_number ctx →
  ∃ note, MLClient.analysis_note_of tier ctx = (Return note, []).
Proof.
  unfold MLClient.analysis_note_of, MLClient.context_given, Spec.age_is_number, ret.
  destruct ctx as [d |]; [| eauto].
  case_bool_decide as Hd; [eauto |].
  unfold dict_get_default. destruct (d !! "age") as [[| b | z | q | s | l | d'] |];
    simpl; try tauto; intros _.
  - destruct b; simpl; eauto.
  - destruct (50 <? z), (negb (String.eqb tier "low")); simpl; eauto.
  - change (inject_Z 50) with 50%Q.
    destruct (Qlt_le_dec 50 q), (negb (String.eqb tier "low")); simpl; eauto.
  - eauto.
Qed.

Lemma py_round_pure (v r : pyval) (n : nat) (t : list event) :
  py_round v n = (Return r, t) → t = [].
Proof. destruct v; simpl; unfold ret, raise; congruence. Qed.

(** The shape of what the formatter returns. *)
Lemma format_local_inv (self : MLClient.t) (ml : dict) (ctx : option dict)
    (r : dict) (t : list event) :
  MLClient._format_local_ml_result self ml ctx = (Return (VDict r), t) →
  ∃ label conf rounded note,
    ml !! "prediction" = Some (VStr label)
    ∧ ml !! "confidence" = Some conf
    ∧ py_round conf 4 = ret rounded
    ∧ MLClient.analysis_note_of (Spec.tier_of_label label) ctx = ret note
    ∧ r = MLClient.local_result self ml (VStr label) rounded
            (Spec.tier_of_label label) note
    ∧ t = [].
Proof.
  unfold MLClient._format_local_ml_result, dict_item.
  destruct (ml !! "prediction") as [prediction |]; simpl; [| discriminate].
  destruct (ml !! "confidence") as [conf |]; simpl; [| discriminate].
  destruct prediction as [| | | | label | |]; simpl; try discriminate.
  rewrite risk_mapping_lower.
  destruct (MLClient.analysis_note_of _ ctx) as [[note | e] t1] eqn:Hn; simpl;
    [| discriminate].
  destruct (analysis_note_spec _ _ _ _ Hn) as [_ ->].
  destruct (py_round conf 4) as [[rounded | e] t2] eqn:Hr; simpl; [| discriminate].
  pose proof (py_round_pure _ _ _ _ Hr) as ->.
  intros [= <- <-]. exists label, conf, rounded, note.
  repeat split; try reflexivity; assumption.
Qed.

Lemma format_local_run (self : MLClient.t) (ml : dict) (ctx : option dict)
    (label : string) (conf rounded : pyval) (note : string) :
  ml !! "prediction" = Some (VStr label) →
  ml !! "confidence" = Some conf →
  py_round conf 4 = ret rounded →
  MLClient.analysis_note_of (Spec.tier_of_label label) ctx = ret note →
  MLClient._format_local_ml_result self ml ctx
  = ret (VDict (MLClient.local_result self ml (VStr label) rounded
                  (Spec.tier_of_label label) note)).
Proof.
  intros Hp Hc Hr Hn. unfold MLClient._format_local_ml_result, dict_item.
  rewrite Hp, Hc. simpl. rewrite risk_mapping_lower, Hn. simpl. rewrite Hr.
  reflexivity.
Qed.

End Note.

(** C6: in a normalized result the analysis note flags increased
    cardiovascular risk exactly when the age of the patient context is
    greater than 50 and the risk tier is not low, and is empty otherwise;
    no other field of the result depends on the patient context; and the
    formatter returns whenever the age is a number or is not given. *)
Theorem C6_analysis_note :
  (∀ self ml ctx r t,
     MLClient._format_local_ml_result self ml ctx = (Return (VDict r), t) →
     ∃ tier,
       r !! "risk_level" = Some (VStr tier)
       ∧ r !! "analysis_note"
         = Some (VStr (if Spec.age_over_50 ctx && negb (String.eqb tier "low")
                       then "Patient is over 50, increased cardiovascular risk factors."
                       else "")))
  ∧ (∀ self ml ctx1 ctx2 r1 r2 t1 t2,
       MLClient._format_local_ml_result self ml ctx1 = (Return (VDict r1), t1) →
       MLClient._format_local_ml_result self ml ctx2 = (Return (VDict r2), t2) →
       delete "analysis_note" r1 = delete "analysis_note" r2)
  ∧ (∀ self ml ctx label c,
       ml !! "prediction" = Some (VStr label) →
       ml !! "confidence" = Some (VFloat c) →
       Spec.age_is_number ctx →
       ∃ r, MLClient._format_local_ml_result self ml ctx = (Return (VDict r), [])).
Proof.
  split; [| split].
  - intros self ml ctx r t Hf.
    destruct (format_local_inv _ _ _ _ _ Hf) as (label & conf & rounded & note
      & Hp & Hc & Hr & Hn & -> & ->).
    exists (Spec.tier_of_label label). unfold MLClient.local_result. split.
    + do 2 (rewrite lookup_insert_ne by done). by rewrite lookup_insert_eq.
    + do 4 (rewrite lookup_insert_ne by done). rewrite lookup_insert_eq.
      by destruct (analysis_note_spec _ _ _ _ Hn) as [-> _].
  - intros self ml ctx1 ctx2 r1 r2 t1 t2 H1 H2.
    destruct (format_local_inv _ _ _ _ _ H1) as (label & conf & rounded & note
      & Hp & Hc & Hr & Hn & -> & ->).
    destruct (format_local_inv _ _ _ _ _ H2) as (label' & conf' & rounded' & note'
      & Hp' & Hc' & Hr' & Hn' & -> & ->).
    assert (label' = label) as -> by congruence.
    assert (conf' = conf) as -> by congruence.
    assert (rounded' = rounded) as -> by (unfold ret in *; congruence).
    unfold MLClient.local_result.
    do 4 (rewrite delete_insert_ne by done).
    by rewrite !delete_insert_eq.
  - intros self ml ctx label c Hp Hc Ha.
    destruct (analysis_note_total (Spec.tier_of_label label) ctx Ha) as [note Hn].
    eexists. by eapply format_local_run.
Qed.

(** ** Upload validation *)

Section Upload.

Lemma contains_dot_app (stem ext : string) :
  Str.contains_dot (stem ++ "." ++ ext) = true.
Proof. induction stem as [| c stem IH]; simpl; [reflexivity |]. by rewrite IH, orb_true_r. Qed.

Lemma rsplit_dot_cons (c : ascii) (s : string) :
  Str.rsplit_dot (String c s)
  = match Str.rsplit_dot s with
    | [h; t] => [String c h; t]
    | _ => if Ascii.eqb c "." then [EmptyString; s] else [String c s]
    end.
Proof. reflexivity. Qed.

Lemma rsplit_dot_cases (s : string) :
  (Str.contains_dot s = false ∧ Str.rsplit_dot s = [s])
  ∨ (∃ stem ext, Str.rsplit_dot s = [stem; ext]
                 ∧ s = stem ++ "." ++ ext ∧ Str.contains_dot ext = false).
Proof.
  induction s as [| c s IH]; simpl; [by left |].
  destruct IH as [[Hd Hr] | (stem & ext & Hr & Hs & Hd)]; rewrite Hr.
  - destruct (Ascii.eqb c ".") eqn:Hc; simpl.
    + right. apply Ascii.eqb_eq in Hc. subst c. by exists "", s.
    + left. by rewrite Hd.
  - right. exists (String c stem), ext. by rewrite Hs.
Qed.

Lemma rsplit_dot_unique (stem ext : string) :
  Str.contains_dot ext = false →
  Str.rsplit_dot (stem ++ "." ++ ext) = [stem; ext].
Proof.
  intros Hd. induction stem as [| c stem IH].
  - change ("" ++ "." ++ ext) with (String "." ext). rewrite rsplit_dot_cons.
    destruct (rsplit_dot_cases ext) as [[_ ->] | (stem' & ext' & _ & -> & _)];
      [reflexivity |].
    by rewrite contains_dot_app in Hd.
  - change (String c stem ++ "." ++ ext) with (String c (stem ++ "." ++ ext)).
    by rewrite rsplit_dot_cons, IH.
Qed.

Lemma lower_in_allowed (ext : string) :
  Str.lower ext ∈ App.ALLOWED_EXTENSIONS
  ↔ ∃ known, known ∈ ["wav"; "mp3"; "m4a"] ∧ Str.ci_eqb ext known = true.
Proof.
  unfold App.ALLOWED_EXTENSIONS. rewrite !elem_of_union, !elem_of_singleton. split.
  - intros [[H | H] | H]; apply lower_eq_ci in H; try reflexivity;
      eexists; (split; [| exact H]); set_solver.
  - intros (known & Hin & Hci).
    rewrite !elem_of_cons, elem_of_nil in Hin.
    destruct Hin as [-> | [-> | [-> | []]]]; apply lower_eq_ci in Hci; auto.
Qed.

(** [allowed_file] accepts exactly the names with an allowed extension. *)
Lemma allowed_file_spec (name : string) :
  App.allowed_file name = true ↔ Spec.has_allowed_extension name.
Proof.
  unfold App.allowed_file, Spec.has_allowed_extension. split.
  - intros [Hd Hx]%andb_true_iff.
    destruct (rsplit_dot_cases name) as [[Hn _] | (stem & ext & Hr & Hs & He)];
      [congruence |].
    rewrite Hr in Hx. simpl in Hx. apply bool_decide_eq_true in Hx.
    apply lower_in_allowed in Hx as (known & Hin & Hci).
    by exists stem, ext, known.
  - intros (stem & ext & known & -> & He & Hin & Hci).
    rewrite contains_dot_app, rsplit_dot_unique by exact He. simpl.
    apply bool_decide_eq_true, lower_in_allowed. eauto.
Qed.

End Upload.

(** C8: an analyze request whose audio part is missing, whose file name is
    empty, or whose extension is not wav, mp3 or m4a (in any case) is
    answered with status 400, and the handler has done nothing by then: no
    file stored, no classification, no record persisted, no alert. *)
Theorem C8_invalid_upload_rejected
    (P : App.platform) (send : pyval → string → dict) (a : App.app) (w : world)
    (req : App.request) :
  (App.files req !! "audio" = None
   ∨ ∃ f, App.files req !! "audio" = Some f
          ∧ (App.filename f = "" ∨ ¬ Spec.has_allowed_extension (App.filename f))) →
  ∃ msg, App.analyze_with P send a w req = (Return (App.error_response msg 400), []).
Proof.
  unfold App.analyze_with.
  intros [-> | (f & -> & Hf)]; [by eexists |].
  destruct (String.eqb (App.filename f) "") eqn:He; [by eexists |].
  destruct Hf as [Hf | Hf]; [apply String.eqb_neq in He; contradiction |].
  destruct (App.allowed_file (App.filename f)) eqn:Ha.
  - apply allowed_file_spec in Ha. contradiction.
  - by eexists.
Qed.

(** ** Persistence and alerting in the /analyze handler *)

Section Orchestration.

Variable P : App.platform.
Variable send : pyval → string → dict.
Variable a : App.app.
Variable w : world.

Lemma alerts_app (t1 t2 : list event) :
  alerts (t1 ++ t2) = (alerts t1 + alerts t2)%nat.
Proof. unfold alerts. by rewrite filter_app, length_app. Qed.

(** Saving always returns a result dict and never alerts; when the
    insert fails the dict carries no id. *)
Lemma save_returns (data : dict) :
  ∃ db t,
    App.save_screening_result a w data = (Return db, t)
    ∧ alerts t = 0%nat
    ∧ (App.database a = App.CoreDatabase true → insert_fails w →
       db !! "id" = None ∧ db !! "success" = Some (VBool false)).
Proof.
  unfold App.save_screening_result, Database.save_screening_result, insert_fails.
  destruct (App.database a) as [[|] |]; simpl.
  - destruct (w_insert w) as [e | [[| row rows] |]]; simpl;
      eexists _, _; (split; [reflexivity |]); (split; [reflexivity |]);
      intros _ Hf; try done.
  - eexists _, _. split; [reflexivity |]. split; [reflexivity |]. discriminate.
  - eexists _, _. split; [reflexivity |]. split; [reflexivity |]. discriminate.
Qed.

Lemma high_risk_spec (ml : dict) :
  py_eq_str (dict_get ml "risk_level") "high" = Spec.high_risk ml.
Proof.
  unfold Spec.high_risk, dict_get. by destruct (ml !! "risk_level") as [[] |].
Qed.

Lemma phone_present_spec (ctx : dict) :
  truthy (dict_get ctx "phone") = Spec.phone_present ctx.
Proof.
  unfold Spec.phone_present, dict_get. by destruct (ctx !! "phone") as [[] |].
Qed.

Lemma alert_if_high_spec (ml ctx : dict) :
  App.alert_if_high P send ml ctx
  = if Spec.high_risk ml && Spec.phone_present ctx then
      let phone := dict_get ctx "phone" in
      let message :=
        "Urgent: Your heart screening shows high risk. "
        ++ App.py_str P (dict_get_default ml "recommendation" (VStr "")) in
      (Return (<["sms_sent" :=
                   dict_get_default (send phone message) "success" (VBool false)]> ml),
       [EvSms phone message])
    else (Return ml, []).
Proof.
  unfold App.alert_if_high. rewrite high_risk_spec, phone_present_spec.
  by destruct (Spec.high_risk ml && Spec.phone_present ctx).
Qed.

(** What [record_and_respond] does with a result dict. *)
Lemma record_and_respond_dict (ml ctx : dict) (name : string) :
  ∃ db t_db ml' t_sms,
    App.save_screening_result a w (App.screening_data_of w ml ctx name)
      = (Return db, t_db)
    ∧ alerts t_db = 0%nat
    ∧ App.alert_if_high P send ml ctx = (Return ml', t_sms)
    ∧ App.record_and_respond P send a w (VDict ml) ctx name
      = (Return (VDict (<["audio_file" := VStr name]>
                       (<["screening_id" := dict_get_default db "id" (VStr "")]> ml')),
                 200),
         (t_db ++ t_sms)%list).
Proof.
  destruct (save_returns (App.screening_data_of w ml ctx name))
    as (db & t_db & Hs & Ha & _).
  unfold App.record_and_respond. rewrite Hs. simpl.
  rewrite alert_if_high_spec.
  destruct (Spec.high_risk ml && Spec.phone_present ctx); simpl;
    eexists db, t_db, _, _; (split; [reflexivity |]); (split; [exact Ha |]);
    (split; [reflexivity |]); reflexivity.
Qed.

End Orchestration.

(** C4: while a result is recorded and answered, an alert dispatch is
    attempted if and only if the risk tier is high and the phone of the
    patient context is present and non-empty; it is then attempted exactly
    once and its success flag is stored in the response as [sms_sent];
    whatever the alerting collaborator answers, the response has status
    200 and the label, confidence and risk tier of the classifier. *)
Theorem C4_alert_dispatch
    (P : App.platform) (send : pyval → string → dict) (a : App.app) (w : world)
    (ml ctx : dict) (name : string) :
  ∃ body t,
    App.record_and_respond P send a w (VDict ml) ctx name = (Return (VDict body, 200), t)
    ∧ alerts t = (if Spec.high_risk ml && Spec.phone_present ctx then 1 else 0)%nat
    ∧ (Spec.high_risk ml && Spec.phone_present ctx = true ↔ ∃ phone message, EvSms phone message ∈ t)
    ∧ (∀ phone message, EvSms phone message ∈ t →
         ctx !! "phone" = Some phone
         ∧ body !! "sms_sent"
           = Some (dict_get_default (send phone message) "success" (VBool false)))
    ∧ (Spec.high_risk ml && Spec.phone_present ctx = false →
         body !! "sms_sent" = ml !! "sms_sent")
    ∧ body !! "prediction" = ml !! "prediction"
    ∧ body !! "confidence" = ml !! "confidence"
    ∧ body !! "risk_level" = ml !! "risk_level".
Proof.
  destruct (record_and_respond_dict P send a w ml ctx name)
    as (db & t_db & ml' & t_sms & Hs & Ha & Hal & Hr).
  rewrite alert_if_high_spec in Hal.
  assert (Hno : ∀ phone message, EvSms phone message ∉ t_db).
  { intros phone message Hin. unfold alerts in Ha.
    apply length_zero_iff_nil in Ha.
    assert (Hf : EvSms phone message ∈ filter (λ ev, is_sms ev = true) t_db)
      by (apply list_elem_of_filter; auto).
    rewrite Ha in Hf. by apply elem_of_nil in Hf. }
  eexists _, _. split; [exact Hr |]. rewrite alerts_app, Ha.
  destruct (Spec.high_risk ml && Spec.phone_present ctx) eqn:Hc;
    injection Hal as <- <-.
  - split; [reflexivity |]. split.
    { split; [intros _ | done]. eexists _, _. apply elem_of_app. right. by left. }
    split.
    { intros phone message [Hin | Hin]%elem_of_app; [by apply Hno in Hin |].
      apply list_elem_of_singleton in Hin. injection Hin as -> ->.
      apply andb_true_iff in Hc as [_ Hp]. unfold Spec.phone_present, dict_get in *.
      destruct (ctx !! "phone") as [v |]; [| discriminate]. split; [reflexivity |].
      do 2 (rewrite lookup_insert_ne by done). by rewrite lookup_insert_eq. }
    split; [discriminate |].
    repeat split; by do 3 (rewrite lookup_insert_ne by done).
  - split; [reflexivity |]. split.
    { split; [discriminate |]. intros (phone & message & Hin). exfalso.
      rewrite app_nil_r in Hin. by apply Hno in Hin. }
    split.
    { intros phone message Hin. exfalso. rewrite app_nil_r in Hin. by apply Hno in Hin. }
    repeat split; by do 2 (rewrite lookup_insert_ne by done).
Qed.

(** ** Traces without alerts *)

Section Silent.

Lemma silent_ret {A} (x : A) : silent (ret x).
Proof. reflexivity. Qed.


Lemma silent_lift {A} (o : outcome A) : silent (lift o).
Proof. reflexivity. Qed.

Lemma silent_emit (ev : event) : is_sms ev = false → silent (emit ev).
Proof. intros H. unfold silent, alerts. simpl. rewrite filter_cons_False; [done |]. congruence. Qed.

Lemma silent_bind {A B} (m : M A) (f : A → M B) :
  silent m → (∀ x, silent (f x)) → silent (bind m f).
Proof.
  unfold silent. destruct m as [[x | e] t]; simpl; [| done].
  intros Hm Hf. specialize (Hf x). destruct (f x) as [r t']. simpl in *.
  rewrite alerts_app. lia.
Qed.

Lemma silent_try_except {A} (m : M A) (h : exn → M A) :
  silent m → (∀ e, silent (h e)) → silent (try_except m h).
Proof.
  unfold silent. destruct m as [[x | e] t]; simpl; [done |].
  intros Hm Hh. specialize (Hh e). destruct (h e) as [r t']. simpl in *.
  rewrite alerts_app. lia.
Qed.

Lemma silent_choice {A} (l : list A) (n : nat) : silent (Num.choice l n).
Proof. unfold Num.choice. destruct (l !! _); reflexivity. Qed.

Lemma silent_py_seq (v : pyval) : silent (py_seq v).
Proof. destruct v; reflexivity. Qed.

Lemma silent_mock_analysis (w : world) (ctx : option dict) :
  silent (MLClient._mock_analysis w ctx).
Proof. destruct (mock_analysis_result w ctx) as (label & _ & ->). reflexivity. Qed.

Lemma silent_mock_prediction (m : HeartSoundModel.t) (w : world) :
  silent (HeartSoundModel._mock_prediction m w).
Proof.
  unfold HeartSoundModel._mock_prediction.
  apply silent_bind; [apply silent_py_seq | intros seq].
  apply silent_bind; [apply silent_choice | intros x]. apply silent_ret.
Qed.

Lemma silent_predict (m : HeartSoundModel.t) (w : world) (path : option string) :
  silent (HeartSoundModel.predict_from_audio m w path).
Proof.
  unfold HeartSoundModel.predict_from_audio.
  destruct (HeartSoundModel.model m); [| apply silent_mock_prediction].
  apply silent_try_except; [| intros _; apply silent_mock_prediction].
  apply silent_bind; [apply silent_lift | intros probs].
  apply silent_bind; [destruct probs; reflexivity | intros idx].
  apply silent_bind; [destruct (probs !! idx); reflexivity | intros c].
  apply silent_bind; [apply silent_py_seq | intros seq]. apply silent_ret.
Qed.

Lemma silent_format (self : MLClient.t) (ml : dict) (ctx : option dict) :
  silent (MLClient._format_local_ml_result self ml ctx).
Proof.
  unfold MLClient._format_local_ml_result, dict_item.
  apply silent_bind; [destruct (ml !! "prediction"); reflexivity | intros p].
  apply silent_bind; [destruct (ml !! "confidence"); reflexivity | intros c].
  apply silent_bind; [destruct p; reflexivity | intros lowered].
  apply silent_bind; [| intros note].
  - unfold MLClient.analysis_note_of.
    destruct (MLClient.context_given ctx) as [d |]; [| reflexivity].
    apply silent_bind; [destruct (dict_get_default d "age" (VInt 0)); reflexivity |].
    intros over. destruct (over && _); reflexivity.
  - apply silent_bind; [destruct c; reflexivity | intros r]. apply silent_ret.
Qed.

Lemma silent_external (self : MLClient.t) (w : world) (path : option string)
    (ctx : option dict) :
  silent (MLClient._call_external_ml_api self w path ctx).
Proof.
  unfold MLClient._call_external_ml_api.
  apply silent_try_except; [| intros _; apply silent_mock_analysis].
  apply silent_bind; [| intros _].
  - unfold MLClient.open_audio. apply silent_bind; [by apply silent_emit |].
    intros _. destruct path as [p |]; [destruct (w_readable w p) |]; reflexivity.
  - apply silent_bind; [by apply silent_emit | intros _].
    destruct (w_http w) as [e | status json]; [reflexivity |].
    destruct (status =? 200); [apply silent_lift | apply silent_mock_analysis].
Qed.

Lemma silent_analyze (self : MLClient.t) (w : world) (path : option string)
    (ctx : option dict) :
  silent (MLClient.analyze_heart_sound self w path ctx).
Proof.
  unfold MLClient.analyze_heart_sound.
  destruct (_ && _); [apply silent_external |].
  destruct (MLClient.local_model self) as [m |]; [| apply silent_mock_analysis].
  apply silent_bind; [by apply silent_emit | intros _].
  apply silent_bind; [apply silent_predict | intros result].
  case_bool_decide; [apply silent_mock_analysis | apply silent_format].
Qed.

Lemma silent_ml_analyze (a : App.app) (w : world) (path : option string)
    (ctx : option dict) :
  silent (App.ml_analyze a w path ctx).
Proof.
  unfold App.ml_analyze. destruct (App.ml_client a); [apply silent_analyze | reflexivity].
Qed.

End Silent.

(** ** Where a result of the classifier comes from *)

Section Provenance.

Lemma mock_analysis_keys (w : world) (ctx : option dict) (r : dict) (t : list event) :
  MLClient._mock_analysis w ctx = (Return (VDict r), t) →
  dom r = {["prediction"; "confidence"; "risk_level"; "recommendation";
            "ml_source"; "note"]}.
Proof.
  destruct (mock_analysis_result w ctx) as (label & _ & ->). intros [= <- _].
  rewrite !dom_insert_L, dom_empty_L. set_solver.
Qed.

Lemma local_result_keys (self : MLClient.t) (ml : dict) (p c : pyval)
    (tier note : string) :
  dom (MLClient.local_result self ml p c tier note)
  = {["prediction"; "confidence"; "risk_level"; "recommendation"; "analysis_note";
      "probabilities"; "class_names"; "ml_source"; "model_info"]}.
Proof.
  unfold MLClient.local_result. rewrite !dom_insert_L, dom_empty_L. set_solver.
Qed.

(** A remote call returns the body of a 200 response or what the mock
    returns. *)
Lemma external_result (self : MLClient.t) (w : world) (path : option string)
    (ctx : option dict) (v : pyval) (t : list event) :
  MLClient._call_external_ml_api self w path ctx = (Return v, t) →
  w_http w = HttpResponse 200 (Return v)
  ∨ fst (MLClient._mock_analysis w ctx) = Return v.
Proof.
  unfold MLClient._call_external_ml_api, MLClient.open_audio.
  destruct (mock_analysis_result w ctx) as (label & _ & Hmock).
  destruct (MLClient._mock_analysis w ctx) as [rm tm] eqn:Hm.
  assert (∃ v0, rm = Return v0) as [v0 ->] by (injection Hmock as -> _; eauto).
  clear Hmock.
  destruct path as [p |]; [destruct (w_readable w p) |]; simpl;
    try (intros H; inversion H; by right).
  destruct (w_http w) as [e | status json]; simpl;
    [intros H; inversion H; by right |].
  destruct (status =? 200) eqn:Hs; simpl; [| intros H; inversion H; by right].
  apply Z.eqb_eq in Hs. subst status.
  destruct json as [body | e]; simpl; intros H; inversion H; subst; auto.
Qed.

(** The three sources of a result of [analyze_heart_sound]. *)
Lemma analyze_result_cases (self : MLClient.t) (w : world) (path : option string)
    (ctx : option dict) (v : pyval) (t : list event) :
  MLClient.analyze_heart_sound self w path ctx = (Return v, t) →
  (MLClient.use_real_ml self = true ∧ MLClient.ml_api_url self ≠ ""
   ∧ w_http w = HttpResponse 200 (Return v))
  ∨ fst (MLClient._mock_analysis w ctx) = Return v
  ∨ (∃ result t', MLClient._format_local_ml_result self result ctx = (Return v, t')).
Proof.
  unfold MLClient.analyze_heart_sound.
  destruct (MLClient.use_real_ml self && _) eqn:Hsel.
  - apply andb_true_iff in Hsel as [Hu He]. apply negb_true_iff, String.eqb_neq in He.
    intros [Hh | Hm]%external_result; auto.
  - destruct (MLClient.local_model self) as [m |].
    + intros ([] & t1 & t2 & _ & Hr & _)%bind_Return_inv.
      apply bind_Return_inv in Hr as (result & t3 & t4 & _ & Hr & _).
      case_bool_decide; [rewrite Hr; auto | eauto].
    + intros ->. auto.
Qed.

(** Only a remote body can bring an [sms_sent] key. *)
Lemma classifier_sms_sent (a : App.app) (w : world) (path : option string)
    (ctx : option dict) (ml : dict) (t : list event) (v : pyval) :
  App.ml_analyze a w path ctx = (Return (VDict ml), t) →
  ml !! "sms_sent" = Some v →
  ∃ c, App.ml_client a = App.CoreClient c
       ∧ MLClient.use_real_ml c = true ∧ MLClient.ml_api_url c ≠ ""
       ∧ w_http w = HttpResponse 200 (Return (VDict ml)).
Proof.
  intros Hr Hk.
  assert (Hin : "sms_sent" ∈ dom ml) by (apply elem_of_dom; eauto).
  unfold App.ml_analyze in Hr. destruct (App.ml_client a) as [c |].
  2: { injection Hr as <- _. discriminate. }
  exists c. split; [reflexivity |].
  apply analyze_result_cases in Hr as [Hr | [Hm | (result & t' & Hf)]]; [exact Hr | |];
    exfalso.
  - destruct (MLClient._mock_analysis w ctx) as [rm tm] eqn:Hm'. simpl in Hm. subst rm.
    apply mock_analysis_keys in Hm'. rewrite Hm' in Hin.
    rewrite !elem_of_union, !elem_of_singleton in Hin. intuition discriminate.
  - apply format_local_inv in Hf as (? & ? & ? & ? & _ & _ & _ & _ & -> & _).
    rewrite local_result_keys in Hin.
    rewrite !elem_of_union, !elem_of_singleton in Hin. intuition discriminate.
Qed.

End Provenance.

(** ** The /analyze handler as a whole *)

Section AnalyzeHandler.

Variable P : App.platform.
Variable send : pyval → string → dict.
Variable a : App.app.
Variable w : world.

Lemma patient_context_no_phone (req : App.request) :
  App.patient_context_of P req !! "phone" = None.
Proof.
  unfold App.patient_context_of.
  do 6 (rewrite lookup_insert_ne by done). apply lookup_empty.
Qed.

Lemma patient_context_no_alert (req : App.request) (ml : dict) :
  App.alert_if_high P send ml (App.patient_context_of P req) = ret ml.
Proof.
  rewrite alert_if_high_spec. unfold Spec.phone_present.
  rewrite patient_context_no_phone. by rewrite andb_false_r.
Qed.

(** The request passes validation and its audio is stored: what remains
    is classification, persistence and the response. *)
Lemma analyze_with_accepted (req : App.request) (f : App.file_storage) :
  App.files req !! "audio" = Some f →
  App.filename f ≠ "" →
  App.allowed_file (App.filename f) = true →
  w_file_save w = None →
  App.analyze_with P send a w req
  = try_except
      (do! emit (EvFileSaved (App.audio_path_of P w f)) in
       let! ml_result :=
         App.ml_analyze a w (Some (App.audio_path_of P w f))
           (Some (App.patient_context_of P req)) in
       App.record_and_respond P send a w ml_result (App.patient_context_of P req)
         (App.unique_filename_of P w f))
      (fun e => ret (App.error_response (exn_msg e) 500)).
Proof.
  intros Hf Hn Ha Hs. unfold App.analyze_with. rewrite Hf, Ha, Hs.
  apply String.eqb_neq in Hn. rewrite Hn. cbn [negb].
  f_equal. unfold bind at 1 3, emit. by rewrite bind_ret_l.
Qed.

(** With a dict from the classifier the handler answers 200 with that
    dict, the audio file name and the screening id. *)
Lemma analyze_with_classified (req : App.request) (f : App.file_storage)
    (ml : dict) (t_ml : list event) :
  App.files req !! "audio" = Some f →
  App.filename f ≠ "" →
  App.allowed_file (App.filename f) = true →
  w_file_save w = None →
  App.ml_analyze a w (Some (App.audio_path_of P w f))
    (Some (App.patient_context_of P req)) = (Return (VDict ml), t_ml) →
  ∃ db t_db,
    App.save_screening_result a w
      (App.screening_data_of w ml (App.patient_context_of P req)
         (App.unique_filename_of P w f)) = (Return db, t_db)
    ∧ App.analyze_with P send a w req
      = (Return (VDict (<["audio_file" := VStr (App.unique_filename_of P w f)]>
                       (<["screening_id" := dict_get_default db "id" (VStr "")]> ml)),
                 200),
         EvFileSaved (App.audio_path_of P w f) :: t_ml ++ t_db).
Proof.
  intros Hf Hn Ha Hs Hml.
  rewrite (analyze_with_accepted req f Hf Hn Ha Hs).
  destruct (record_and_respond_dict P send a w ml (App.patient_context_of P req)
              (App.unique_filename_of P w f))
    as (db & t_db & ml' & t_sms & Hsave & _ & Hal & Hr).
  rewrite patient_context_no_alert in Hal. injection Hal as <- <-.
  exists db, t_db. split; [exact Hsave |].
  unfold bind at 1. unfold emit. rewrite Hml. unfold bind. rewrite Hr.
  simpl. by rewrite app_nil_r.
Qed.

End AnalyzeHandler.

(** C9: when the persistence write of a processed request fails, the
    handler still answers 200 with the label, confidence, risk tier and
    recommendation of the classifier, and the failure shows as the empty
    screening identifier. *)
Theorem C9_persistence_failure_is_soft
    (P : App.platform) (send : pyval → string → dict) (a : App.app) (w : world)
    (req : App.request) (f : App.file_storage) (ml : dict) (t_ml : list event) :
  App.files req !! "audio" = Some f →
  App.filename f ≠ "" →
  Spec.has_allowed_extension (App.filename f) →
  w_file_save w = None →
  App.ml_analyze a w (Some (App.audio_path_of P w f))
    (Some (App.patient_context_of P req)) = (Return (VDict ml), t_ml) →
  App.database a = App.CoreDatabase true →
  insert_fails w →
  ∃ body t,
    App.analyze_with P send a w req = (Return (VDict body, 200), t)
    ∧ body !! "screening_id" = Some (VStr "")
    ∧ body !! "prediction" = ml !! "prediction"
    ∧ body !! "confidence" = ml !! "confidence"
    ∧ body !! "risk_level" = ml !! "risk_level"
    ∧ body !! "recommendation" = ml !! "recommendation".
Proof.
  intros Hf Hn Ha Hs Hml Hdb Hfail. apply allowed_file_spec in Ha.
  destruct (analyze_with_classified P send a w req f ml t_ml Hf Hn Ha Hs Hml)
    as (db & t_db & Hsave & Hr).
  destruct (save_returns a w
              (App.screening_data_of w ml (App.patient_context_of P req)
                 (App.unique_filename_of P w f)))
    as (db' & t_db' & Hsave' & _ & Hid).
  rewrite Hsave in Hsave'. injection Hsave' as <- <-.
  destruct (Hid Hdb Hfail) as [Hnone _].
  eexists _, _. split; [exact Hr |]. split.
  - rewrite lookup_insert_ne by done. rewrite lookup_insert_eq.
    unfold dict_get_default. by rewrite Hnone.
  - repeat split; by do 2 (rewrite lookup_insert_ne by done).
Qed.

Section AnalyzeNeverAlerts.

Variable P : App.platform.
Variable send : pyval → string → dict.
Variable a : App.app.
Variable w : world.

Lemma silent_record_and_respond (v : pyval) (req : App.request) (name : string) :
  silent (App.record_and_respond P send a w v (App.patient_context_of P req) name).
Proof.
  destruct v as [| | | | | | ml]; try reflexivity.
  destruct (record_and_respond_dict P send a w ml (App.patient_context_of P req) name)
    as (db & t_db & ml' & t_sms & _ & Ha & Hal & ->).
  rewrite patient_context_no_alert in Hal. injection Hal as <- <-.
  unfold silent. simpl. by rewrite app_nil_r.
Qed.

Lemma silent_analyze_with (req : App.request) :
  silent (App.analyze_with P send a w req).
Proof.
  unfold App.analyze_with.
  apply silent_try_except; [| intros e; apply silent_ret].
  destruct (App.files req !! "audio") as [f |]; [| apply silent_ret].
  destruct (String.eqb (App.filename f) ""); [apply silent_ret |].
  destruct (negb (App.allowed_file (App.filename f))); [apply silent_ret |].
  apply silent_bind; [by apply silent_emit | intros _].
  apply silent_bind; [destruct (w_file_save w); reflexivity | intros _].
  apply silent_bind; [apply silent_ml_analyze | intros v].
  apply silent_record_and_respond.
Qed.

(** What the handler answers: an error body, or the dict of the
    classifier with the two bookkeeping fields. *)
Lemma analyze_with_answer (req : App.request) (body : dict) (status : Z) :
  fst (App.analyze_with P send a w req) = Return (VDict body, status) →
  (∃ msg, body = <["error" := VStr msg]> ∅)
  ∨ (∃ f ml t_ml id,
       App.ml_analyze a w (Some (App.audio_path_of P w f))
         (Some (App.patient_context_of P req)) = (Return (VDict ml), t_ml)
       ∧ body = <["audio_file" := VStr (App.unique_filename_of P w f)]>
                (<["screening_id" := id]> ml)).
Proof.
  unfold App.analyze_with.
  destruct (App.files req !! "audio") as [f |] eqn:Hf;
    [| intros [= <- _]; left; by eexists].
  destruct (String.eqb (App.filename f) "") eqn:Hn;
    [intros [= <- _]; left; by eexists |].
  destruct (App.allowed_file (App.filename f)) eqn:Ha;
    [| intros [= <- _]; left; by eexists].
  cbn [negb]. unfold bind at 1, emit.
  destruct (w_file_save w) as [e |] eqn:Hs;
    [intros [= <- _]; left; by eexists |].
  rewrite bind_ret_l.
  destruct (App.ml_analyze a w _ _) as [[v | e] t_ml] eqn:Hml;
    [| intros [= <- _]; left; by eexists].
  destruct v as [| | | | | | ml]; try (intros [= <- _]; left; by eexists).
  destruct (record_and_respond_dict P send a w ml (App.patient_context_of P req)
              (App.unique_filename_of P w f))
    as (db & t_db & ml' & t_sms & _ & _ & Hal & Hr).
  rewrite patient_context_no_alert in Hal. injection Hal as <- <-.
  unfold bind. rewrite Hr. intros [= <- _]. right. by eexists f, ml, t_ml, _.
Qed.

End AnalyzeNeverAlerts.

(** C10 (as amended): the patient context built by the /analyze handler
    has exactly the keys patient_id, name, age, gender, doctor_id and
    symptoms, never a phone, so the handler dispatches no alert and adds
    no [sms_sent] flag, whatever form fields are submitted: a response
    carries [sms_sent] only when the body of a remote classifier carried
    it. *)
Theorem C10_analyze_never_alerts
    (P : App.platform) (a : App.app) (w : world) (req : App.request) :
  dom (App.patient_context_of P req)
  = {["patient_id"; "name"; "age"; "gender"; "doctor_id"; "symptoms"]}
  ∧ alerts (snd (App.analyze_heart_sound P a w req)) = 0%nat
  ∧ (∀ body status v,
       fst (App.analyze_heart_sound P a w req) = Return (VDict body, status) →
       body !! "sms_sent" = Some v →
       ∃ c remote,
         App.ml_client a = App.CoreClient c
         ∧ MLClient.use_real_ml c = true ∧ MLClient.ml_api_url c ≠ ""
         ∧ w_http w = HttpResponse 200 (Return (VDict remote))
         ∧ remote !! "sms_sent" = Some v).
Proof.
  split; [| split].
  - unfold App.patient_context_of. rewrite !dom_insert_L, dom_empty_L.
    by rewrite (right_id_L ∅ (∪)), !(assoc_L (∪)).
  - apply silent_analyze_with.
  - intros body status v Hr Hk.
    apply analyze_with_answer in Hr as [[msg ->] | (f & ml & t_ml & id & Hml & ->)].
    + rewrite lookup_insert_ne in Hk by done. by rewrite lookup_empty in Hk.
    + do 2 (rewrite lookup_insert_ne in Hk by done).
      destruct (classifier_sms_sent _ _ _ _ _ _ _ Hml Hk) as (c & Hc & Hu & He & Hh).
      by exists c, ml.
Qed.

(** ** A null age on the local-model path *)

Section NullAge.

(** [age > 50] with a null age raises in the formatter. *)
Lemma format_null_age_raises (self : MLClient.t) (ml ctx : dict) (label : string)
    (conf : pyval) :
  ml !! "prediction" = Some (VStr label) →
  ml !! "confidence" = Some conf →
  ctx !! "age" = Some VNone →
  ∃ e, MLClient._format_local_ml_result self ml (Some ctx) = (Raise e, [])
       ∧ exn_class e = TypeError.
Proof.
  intros Hp Hc Ha. unfold MLClient._format_local_ml_result, dict_item.
  rewrite Hp, Hc. simpl. unfold MLClient.analysis_note_of, MLClient.context_given.
  case_bool_decide as He; [subst ctx; by rewrite lookup_empty in Ha |].
  unfold dict_get_default. rewrite Ha. simpl. eauto.
Qed.

End NullAge.

(** C7: with the local model in use, the context that the /analyze handler
    builds from a form without an age field (age is null) makes
    [analyze_heart_sound] raise [TypeError] instead of degrading to a
    result, and the handler answers 500. *)
Theorem C7_null_age_raises :
  MLClient.analyze_heart_sound Sample.local_client Sample.local_world
    (Some "uploads/0123abcd_heart.wav")
    (Some (App.patient_context_of Sample.platform Sample.request))
  = (Raise (Exn TypeError "'>' not supported between instances"),
     [EvLocalPredict (Some "uploads/0123abcd_heart.wav")])
  ∧ App.analyze_heart_sound Sample.platform Sample.local_app Sample.local_world
      Sample.request
    = (Return (App.error_response "'>' not supported between instances" 500),
       [EvFileSaved "uploads/0123abcd_heart.wav";
        EvLocalPredict (Some "uploads/0123abcd_heart.wav")]).
Proof. split; vm_compute; reflexivity. Qed.

(** ** Instances on the sample inputs *)

(** The claim that a response of /analyze never carries [sms_sent] fails
    when the remote classifier is in use and its body has that key. *)
Lemma C10_counterexample :
  ∃ body t,
    App.analyze_heart_sound Sample.platform Sample.remote_app Sample.remote_world
      Sample.request = (Return (VDict body, 200), t)
    ∧ body !! "sms_sent" = Some (VBool true).
Proof.
  eexists _, _. split; [vm_compute; reflexivity |]. vm_compute. reflexivity.
Qed.

Lemma C3_remote_failure_witness :
  remote_fails Sample.local_world (Some "uploads/0123abcd_heart.wav")
  ∧ ∃ r t label c,
      MLClient._call_external_ml_api Sample.remote_client Sample.local_world
        (Some "uploads/0123abcd_heart.wav") None = (Return (VDict r), t)
      ∧ fst (MLClient._mock_analysis Sample.local_world None) = Return (VDict r)
      ∧ r !! "prediction" = Some (VStr label) ∧ label ∈ MLClient.predictions
      ∧ r !! "confidence" = Some (VFloat c)
      ∧ r !! "ml_source" = Some (VStr "mock").
Proof.
  assert (H : remote_fails Sample.local_world (Some "uploads/0123abcd_heart.wav")).
  { eapply fails_transport. reflexivity. }
  split; [exact H |].
  exact (C3_remote_failure_falls_back_to_mock Sample.remote_client Sample.local_world
           (Some "uploads/0123abcd_heart.wav") None H).
Defined.

Lemma C5_mock_outcome_witness :
  ∃ r c,
    HeartSoundModel._mock_prediction Sample.heart_model Sample.local_world
    = (Return r, [])
    ∧ r !! "confidence" = Some (VFloat c)
    ∧ (7 # 10 <= c)%Q ∧ (c <= 95 # 100)%Q.
Proof.
  eexists _. 
  destruct (proj2 (proj2 C5_mock_outcome) Sample.heart_model Sample.local_world _ []
              eq_refl) as (c & Hc & Hb).
  exists c. split; [reflexivity |]. split; [exact Hc | exact Hb].
Defined.

Lemma C6_analysis_note_witness :
  ∃ r,
    MLClient._format_local_ml_result Sample.local_client
      (<["prediction" := VStr "abnormal"]> (<["confidence" := VFloat (9 # 10)]> ∅))
      (Some (<["age" := VInt 60]> (<["phone" := VStr "+15550100"]> ∅)))
    = (Return (VDict r), [])
    ∧ r !! "risk_level" = Some (VStr "high")
    ∧ r !! "analysis_note"
      = Some (VStr "Patient is over 50, increased cardiovascular risk factors.").
Proof.
  set (ml := <["prediction" := VStr "abnormal"]> (<["confidence" := VFloat (9 # 10)]> ∅)).
  set (ctx := Some (<["age" := VInt 60]> (<["phone" := VStr "+15550100"]> ∅))).
  assert (Hp : ml !! "prediction" = Some (VStr "abnormal")) by reflexivity.
  assert (Hc : ml !! "confidence" = Some (VFloat (9 # 10))) by reflexivity.
  assert (Ha : Spec.age_is_number ctx) by exact I.
  destruct (proj2 (proj2 C6_analysis_note) Sample.local_client ml ctx _ _ Hp Hc Ha)
    as [r Hr].
  exists r. split; [exact Hr |].
  destruct (proj1 C6_analysis_note _ _ _ _ _ Hr) as (tier & Ht & Hn).
  assert (Hhigh : r !! "risk_level" = Some (VStr "high")).
  { vm_compute in Hr. injection Hr as <-. reflexivity. }
  split; [exact Hhigh |].
  rewrite Hhigh in Ht. injection Ht as <-. exact Hn.
Defined.

Lemma C8_invalid_upload_witness :
  ¬ Spec.has_allowed_extension "notes.txt"
  ∧ ∃ msg,
      App.analyze_with Sample.platform App.send_sms_alert Sample.local_app
        Sample.local_world
        (App.Request (<["audio" := App.FileStorage "notes.txt"]> ∅) ∅)
      = (Return (App.error_response msg 400), []).
Proof.
  assert (H : ¬ Spec.has_allowed_extension "notes.txt").
  { intros Ha. apply allowed_file_spec in Ha. vm_compute in Ha. discriminate. }
  split; [exact H |].
  apply (C8_invalid_upload_rejected Sample.platform App.send_sms_alert Sample.local_app
           Sample.local_world
           (App.Request (<["audio" := App.FileStorage "notes.txt"]> ∅) ∅)).
  right. exists (App.FileStorage "notes.txt"). split; [reflexivity |]. right. exact H.
Defined.

Lemma C9_persistence_failure_witness :
  insert_fails Sample.local_world
  ∧ ∃ body t,
      App.analyze_with Sample.platform App.send_sms_alert Sample.local_app
        Sample.local_world Sample.request_60 = (Return (VDict body, 200), t)
      ∧ body !! "screening_id" = Some (VStr "")
      ∧ body !! "prediction" = Some (VStr "abnormal")
      ∧ body !! "risk_level" = Some (VStr "high").
Proof.
  split; [exact I |].
  assert (Hf : App.files Sample.request_60 !! "audio" = Some (App.FileStorage "heart.wav"))
    by reflexivity.
  assert (Hn : App.filename (App.FileStorage "heart.wav") ≠ "") by discriminate.
  assert (Ha : Spec.has_allowed_extension (App.filename (App.FileStorage "heart.wav"))).
  { exists "heart", "wav", "wav". repeat split. apply list_elem_of_here. }
  assert (Hs : w_file_save Sample.local_world = None) by reflexivity.
  destruct (App.ml_analyze Sample.local_app Sample.local_world
              (Some (App.audio_path_of Sample.platform Sample.local_world
                       (App.FileStorage "heart.wav")))
              (Some (App.patient_context_of Sample.platform Sample.request_60)))
    as [[[| | | | | | ml] | e] t_ml] eqn:Hml; try (vm_compute in Hml; discriminate).
  assert (Hdb : App.database Sample.local_app = App.CoreDatabase true) by reflexivity.
  assert (Hi : insert_fails Sample.local_world) by exact I.
  destruct (C9_persistence_failure_is_soft Sample.platform App.send_sms_alert
              Sample.local_app Sample.local_world Sample.request_60
              (App.FileStorage "heart.wav") ml t_ml Hf Hn Ha Hs Hml Hdb Hi)
    as (body & t & Hr & Hid & Hp & _ & Hk & _).
  exists body, t. split; [exact Hr |]. split; [exact Hid |].
  vm_compute in Hml. injection Hml as <- _. split.
  - rewrite Hp. reflexivity.
  - rewrite Hk. reflexivity.
Defined.

Lemma C10_analyze_never_alerts_witness :
  ∃ body,
    fst (App.analyze_heart_sound Sample.platform Sample.remote_app Sample.remote_world
           Sample.request) = Return (VDict body, 200)
    ∧ body !! "sms_sent" = Some (VBool true)
    ∧ ∃ c remote,
        App.ml_client Sample.remote_app = App.CoreClient c
        ∧ MLClient.use_real_ml c = true ∧ MLClient.ml_api_url c ≠ ""
        ∧ w_http Sample.remote_world = HttpResponse 200 (Return (VDict remote))
        ∧ remote !! "sms_sent" = Some (VBool true).
Proof.
  eexists. split; [vm_compute; reflexivity |]. split; [vm_compute; reflexivity |].
  eapply (proj2 (proj2 (C10_analyze_never_alerts Sample.platform Sample.remote_app
                          Sample.remote_world Sample.request))).
  - vm_compute. reflexivity.
  - vm_compute. reflexivity.
Defined.

(** ** The end-to-end scenarios of the specification *)

(** Scenario 1: a mock request without audio. *)
Example scenario_mock_request :
  App.mock_analyze (App.Build App.FallbackClient App.FallbackDatabase) Sample.local_world
    (Some (<["patient_id" := VStr "TEST001"]>
          (<["age" := VInt 35]> (<["gender" := VStr "male"]> ∅))))
  = (Return (VDict (<["prediction" := VStr "normal"]>
                   (<["confidence" := VFloat (85 # 100)]>
                   (<["ml_source" := VStr "mock"]> ∅))), 200), []).
Proof. vm_compute. reflexivity. Qed.

(** Scenario 2: an abnormal outcome for a patient of 60 with a phone gives
    tier high, the over-50 note, and one alert. *)
Example scenario_high_risk_alert :
  let ctx : dict := <["age" := VInt 60]> (<["phone" := VStr "+15550100"]> ∅) in
  ∃ r body t,
    MLClient._format_local_ml_result Sample.local_client
      (<["prediction" := VStr "abnormal"]> (<["confidence" := VFloat (9 # 10)]> ∅))
      (Some ctx) = (Return (VDict r), [])
    ∧ r !! "risk_level" = Some (VStr "high")
    ∧ r !! "analysis_note" = Some (VStr MLClient.over_50_note)
    ∧ App.record_and_respond Sample.platform App.send_sms_alert Sample.local_app
        Sample.remote_world (VDict r) ctx "0123abcd_heart.wav"
      = (Return (VDict body, 200), t)
    ∧ alerts t = 1%nat
    ∧ body !! "sms_sent" = Some (VBool true)
    ∧ body !! "screening_id" = Some (VInt 7).
Proof.
  eexists _, _, _. split; [vm_compute; reflexivity |].
  split; [vm_compute; reflexivity |]. split; [vm_compute; reflexivity |].
  split; [vm_compute; reflexivity |]. repeat split; vm_compute; reflexivity.
Qed.

(** Scenario 3: an unknown label defaults to medium, not low. *)
Example scenario_unknown_label :
  ∃ r,
    MLClient._format_local_ml_result Sample.local_client
      (<["prediction" := VStr "unknown_label"]> (<["confidence" := VFloat (1 # 2)]> ∅))
      None = (Return (VDict r), [])
    ∧ r !! "risk_level" = Some (VStr "medium").
Proof. eexists. split; vm_compute; reflexivity. Qed.

(** * Properties of the rest of the code *)

(** ** Computations that leave no trace *)

Section Traceless.

Lemma traceless_bind {A B} (m : M A) (f : A → M B) :
  snd m = [] → (∀ x, snd (f x) = []) → snd (bind m f) = [].
Proof.
  destruct m as [[x | e] t]; simpl; [| done].
  intros -> Hf. specialize (Hf x). destruct (f x) as [r t']. simpl in *. by subst.
Qed.

Lemma traceless_try_except {A} (m : M A) (h : exn → M A) :
  snd m = [] → (∀ e, snd (h e) = []) → snd (try_except m h) = [].
Proof.
  destruct m as [[x | e] t]; simpl; [done |].
  intros -> Hh. specialize (Hh e). destruct (h e) as [r t']. simpl in *. by subst.
Qed.

Lemma traceless_mock_prediction (m : HeartSoundModel.t) (w : world) :
  snd (HeartSoundModel._mock_prediction m w) = [].
Proof.
  unfold HeartSoundModel._mock_prediction.
  apply traceless_bind; [by destruct (dict_get_default _ _ _) |]. intros seq.
  apply traceless_bind; [| done]. unfold Num.choice. by destruct (seq !! _).
Qed.

Lemma traceless_predict (m : HeartSoundModel.t) (w : world) (path : option string) :
  snd (HeartSoundModel.predict_from_audio m w path) = [].
Proof.
  unfold HeartSoundModel.predict_from_audio.
  destruct (HeartSoundModel.model m); [| apply traceless_mock_prediction].
  apply traceless_try_except; [| intros _; apply traceless_mock_prediction].
  apply traceless_bind; [done | intros probs].
  apply traceless_bind; [by destruct probs | intros idx].
  apply traceless_bind; [by destruct (probs !! idx) | intros c].
  apply traceless_bind; [by destruct (dict_get_default _ _ _) | done].
Qed.

Lemma traceless_format (self : MLClient.t) (ml : dict) (ctx : option dict) :
  snd (MLClient._format_local_ml_result self ml ctx) = [].
Proof.
  unfold MLClient._format_local_ml_result, dict_item.
  apply traceless_bind; [by destruct (ml !! "prediction") | intros p].
  apply traceless_bind; [by destruct (ml !! "confidence") | intros c].
  apply traceless_bind; [by destruct p | intros lowered].
  apply traceless_bind; [| intros note].
  - unfold MLClient.analysis_note_of.
    destruct (MLClient.context_given ctx) as [d |]; [| done].
    apply traceless_bind; [by destruct (dict_get_default d "age" (VInt 0)) |].
    intros over. by destruct (over && _).
  - apply traceless_bind; [by destruct c | done].
Qed.

(** Whatever [predict_from_audio] returns has a prediction and so is not
    an empty dict. *)
Lemma predict_not_empty (m : HeartSoundModel.t) (w : world) (path : option string)
    (result : dict) (t : list event) :
  HeartSoundModel.predict_from_audio m w path = (Return result, t) →
  is_Some (result !! "prediction") ∧ result ≠ ∅.
Proof.
  assert (Hmock : ∀ t', HeartSoundModel._mock_prediction m w = (Return result, t') →
                        is_Some (result !! "prediction")).
  { unfold HeartSoundModel._mock_prediction. intros t'.
    intros (seq & ? & ? & _ & (x & ? & ? & _ & [= <- _] & _)%bind_Return_inv & _)%bind_Return_inv.
    rewrite lookup_insert_eq. eauto. }
  intros Hp.
  assert (Hs : is_Some (result !! "prediction")).
  { unfold HeartSoundModel.predict_from_audio in Hp.
    destruct (HeartSoundModel.model m); [| by eapply Hmock].
    unfold try_except in Hp.
    match type of Hp with context [match ?b with _ => _ end] =>
      destruct b as [[r0 | e0] t0] eqn:Hb end.
    - injection Hp as -> ->.
      apply bind_Return_inv in Hb as (probs & ? & ? & _ & Hb & _).
      apply bind_Return_inv in Hb as (idx & ? & ? & _ & Hb & _).
      apply bind_Return_inv in Hb as (c & ? & ? & _ & Hb & _).
      apply bind_Return_inv in Hb as (seq & ? & ? & _ & [= <- _] & _).
      rewrite lookup_insert_eq. eauto.
    - destruct (HeartSoundModel._mock_prediction m w) as [r1 t1] eqn:Hm.
      injection Hp as -> _. by eapply Hmock. }
  split; [exact Hs |]. intros ->. rewrite lookup_empty in Hs. by destruct Hs.
Qed.

End Traceless.

(** ** Rounding and the arg max *)

Section Rounding.

Local Open Scope Q_scope.

Lemma round_half_even_comp (q q' : Q) :
  q == q' → Num.round_half_even q = Num.round_half_even q'.
Proof.
  intros H. unfold Num.round_half_even. rewrite (Qfloor_comp _ _ H).
  assert (Hc : (q - inject_Z (Qfloor q') ?= 1 # 2) = (q' - inject_Z (Qfloor q') ?= 1 # 2)).
  { apply Qcompare_comp; [rewrite H |]; reflexivity. }
  by rewrite Hc.
Qed.

Lemma round_half_even_Z (z : Z) : Num.round_half_even (inject_Z z) = z.
Proof.
  unfold Num.round_half_even. rewrite Qfloor_Z.
  assert (H : (inject_Z z - inject_Z z ?= 1 # 2) = Lt).
  { apply (proj1 (Qlt_alt _ _)). lra. }
  by rewrite H.
Qed.

(** The rounded value is within one half of the argument. *)
Lemma round_half_even_near (q : Q) :
  inject_Z (Num.round_half_even q) - q <= 1 # 2
  ∧ q - inject_Z (Num.round_half_even q) <= 1 # 2.
Proof.
  unfold Num.round_half_even.
  pose proof (Qfloor_le q) as H1. pose proof (Qlt_floor q) as H2.
  rewrite inject_Z_plus in H2. change (inject_Z 1) with 1 in H2.
  destruct (Qcompare_spec (q - inject_Z (Qfloor q)) (1 # 2)) as [He | Hl | Hg].
  - destruct (Z.even (Qfloor q)).
    + split; lra.
    + rewrite inject_Z_plus. change (inject_Z 1) with 1. split; lra.
  - split; lra.
  - rewrite inject_Z_plus. change (inject_Z 1) with 1. split; lra.
Qed.

Lemma pow10_pos (n : nat) : (0 < 10 ^ Z.of_nat n)%Z.
Proof. apply Z.pow_pos_nonneg; lia. Qed.

Lemma Qmake_pow10 (z : Z) (n : nat) :
  Qmake z (Z.to_pos (10 ^ Z.of_nat n)) * inject_Z (10 ^ Z.of_nat n) == inject_Z z.
Proof.
  unfold Qeq, Qmult, inject_Z. cbn [Qnum Qden].
  rewrite Pos.mul_1_r, Z2Pos.id by apply pow10_pos. lia.
Qed.

(** Rounding to [n] digits a value that has [m ≤ n] digits changes
    nothing. *)
Lemma round_digits_stable (q : Q) (m n : nat) :
  (m ≤ n)%nat →
  Num.round_digits (Num.round_digits q m) n == Num.round_digits q m.
Proof.
  intros Hmn. unfold Num.round_digits at 1.
  set (z := Num.round_half_even (q * inject_Z (10 ^ Z.of_nat m))).
  assert (Hz : Num.round_digits q m = Qmake z (Z.to_pos (10 ^ Z.of_nat m))) by reflexivity.
  rewrite Hz.
  assert (Hsplit : (10 ^ Z.of_nat n = 10 ^ Z.of_nat m * 10 ^ Z.of_nat (n - m))%Z).
  { rewrite <- Z.pow_add_r by lia. f_equal. lia. }
  assert (Hq : Qmake z (Z.to_pos (10 ^ Z.of_nat m)) * inject_Z (10 ^ Z.of_nat n)
               == inject_Z (z * 10 ^ Z.of_nat (n - m))).
  { rewrite Hsplit, !inject_Z_mult, Qmult_assoc, Qmake_pow10. reflexivity. }
  rewrite (round_half_even_comp _ _ Hq), round_half_even_Z.
  unfold Qeq. cbn [Qnum Qden]. rewrite !Z2Pos.id by apply pow10_pos.
  rewrite Hsplit. lia.
Qed.

(** Rounding to [n] digits moves a value by at most half a unit of the
    last digit. *)
Lemma round_digits_near (q : Q) (n : nat) :
  Num.round_digits q n - q <= Qmake 1 (Z.to_pos (2 * 10 ^ Z.of_nat n))
  ∧ q - Num.round_digits q n <= Qmake 1 (Z.to_pos (2 * 10 ^ Z.of_nat n)).
Proof.
  pose proof (pow10_pos n) as Hp. set (s := (10 ^ Z.of_nat n)%Z) in *.
  destruct (round_half_even_near (q * inject_Z s)) as [H1 H2].
  unfold Num.round_digits. fold s.
  set (z := Num.round_half_even (q * inject_Z s)) in *.
  assert (Hs : 0 < inject_Z s) by (change 0 with (inject_Z 0); by rewrite <- Zlt_Qlt).
  assert (Ez : Qmake z (Z.to_pos s) == inject_Z z / inject_Z s).
  { rewrite (Qmake_Qdiv z (Z.to_pos s)), Z2Pos.id by exact Hp. reflexivity. }
  assert (Eh : Qmake 1 (Z.to_pos (2 * s)) == (1 # 2) / inject_Z s).
  { rewrite (Qmake_Qdiv 1 (Z.to_pos (2 * s))), Z2Pos.id by lia.
    rewrite inject_Z_mult. change (inject_Z 1) with 1. change (inject_Z 2) with 2.
    field. lra. }
  rewrite Ez, Eh.
  assert (Hdiv : ∀ a b, a <= b → a / inject_Z s <= b / inject_Z s).
  { intros a b Hab. apply Qmult_le_compat_r; [exact Hab |].
    apply Qlt_le_weak, Qinv_lt_0_compat, Hs. }
  split.
  - setoid_replace (inject_Z z / inject_Z s - q)
      with ((inject_Z z - q * inject_Z s) / inject_Z s) using relation Qeq
      by (field; lra).
    by apply Hdiv.
  - setoid_replace (q - inject_Z z / inject_Z s)
      with ((q * inject_Z s - inject_Z z) / inject_Z s) using relation Qeq
      by (field; lra).
    by apply Hdiv.
Qed.

End Rounding.

Section ArgMax.

Local Open Scope list_scope.
Local Open Scope Q_scope.

Lemma argmax_from_correct (l pre : list Q) (best : Q) (besti : nat) :
  pre !! besti = Some best →
  (∀ j p, pre !! j = Some p → p <= best) →
  (∀ j p, (j < besti)%nat → pre !! j = Some p → p < best) →
  ∃ v, (pre ++ l) !! Num.argmax_from best besti (length pre) l = Some v
       ∧ (∀ j p, (pre ++ l) !! j = Some p → p <= v)
       ∧ (∀ j p, (j < Num.argmax_from best besti (length pre) l)%nat →
                 (pre ++ l) !! j = Some p → p < v).
Proof.
  revert pre best besti. induction l as [| x l IH]; intros pre best besti Hb Hmax Hfirst.
  - simpl. rewrite app_nil_r. eauto.
  - simpl. replace (pre ++ x :: l) with ((pre ++ [x]) ++ l) by by rewrite <- app_assoc.
    replace (S (length pre)) with (length (pre ++ [x])) by (rewrite length_app; simpl; lia).
    destruct (Qlt_le_dec best x) as [Hlt | Hle].
    + apply IH.
      * rewrite lookup_app_r by lia. by rewrite Nat.sub_diag.
      * intros j p [Hj | [_ Hj]]%lookup_app_Some.
        -- specialize (Hmax _ _ Hj). lra.
        -- destruct (j - length pre)%nat; [injection Hj as <-; lra | done].
      * intros j p Hlt' Hj. rewrite lookup_app_l in Hj by exact Hlt'.
        specialize (Hmax _ _ Hj). lra.
    + apply IH.
      * rewrite lookup_app_l; [exact Hb |]. by eapply lookup_lt_Some.
      * intros j p [Hj | [_ Hj]]%lookup_app_Some; [by eapply Hmax |].
        destruct (j - length pre)%nat; [injection Hj as <-; lra | done].
      * intros j p Hlt' Hj. apply (Hfirst j p Hlt').
        rewrite lookup_app_l in Hj; [exact Hj |].
        apply lookup_lt_Some in Hb. lia.
Qed.

(** [argmax] gives the first position of a maximal entry. *)
Lemma argmax_correct (l : list Q) :
  l ≠ [] →
  ∃ i v, Num.argmax l = ret i ∧ l !! i = Some v
         ∧ (∀ j p, l !! j = Some p → p <= v)
         ∧ (∀ j p, (j < i)%nat → l !! j = Some p → p < v).
Proof.
  destruct l as [| x l]; [done |]. intros _.
  destruct (argmax_from_correct l [x] x 0) as (v & Hv & Hmax & Hfirst).
  - reflexivity.
  - intros [| j] p; simpl; [intros [= <-]; lra | done].
  - intros j p Hj. lia.
  - exists (Num.argmax_from x 0 1 l), v. simpl in *. split; [reflexivity |]. eauto.
Qed.

End ArgMax.

(** ** The local model *)

Section LocalModel.

Local Open Scope list_scope.

(** What [_mock_prediction] returns. *)
Lemma mock_prediction_inv (m : HeartSoundModel.t) (w : world) (result : dict)
    (t : list event) :
  HeartSoundModel._mock_prediction m w = (Return result, t) →
  ∃ seq prediction,
    py_seq (dict_get_default (HeartSoundModel.model_info m) "classes"
              HeartSoundModel.default_classes) = ret seq
    ∧ prediction ∈ seq
    ∧ result !! "prediction" = Some prediction
    ∧ result !! "confidence"
      = Some (VFloat (Num.round_digits (Num.uniform (7 # 10) (95 # 100) (w_random w)) 3))
    ∧ result !! "probabilities"
      = Some (if (length seq =? 2)%nat then VList [VFloat (1 # 2); VFloat (1 # 2)]
              else VList [VFloat (3 # 10); VFloat (7 # 10)])
    ∧ result !! "model_source" = Some (VStr "mock_fallback")
    ∧ t = [].
Proof.
  unfold HeartSoundModel._mock_prediction.
  intros (seq & t1 & t2 & Hseq & Hr & ->)%bind_Return_inv.
  apply bind_Return_inv in Hr as (prediction & t3 & t4 & Hc & [= <- <-] & ->).
  assert (t1 = []) as ->.
  { destruct (dict_get_default _ _ _); simpl in Hseq; unfold ret, raise in Hseq; congruence. }
  unfold Num.choice in Hc. destruct (seq !! _) as [x |] eqn:Hx; [| discriminate].
  injection Hc as -> <-.
  exists seq, prediction. split; [exact Hseq |].
  split; [by eapply list_elem_of_lookup_2 |].
  split; [by rewrite lookup_insert_eq |].
  split; [rewrite lookup_insert_ne by done; by rewrite lookup_insert_eq |].
  split; [do 2 (rewrite lookup_insert_ne by done); by rewrite lookup_insert_eq |].
  split; [do 4 (rewrite lookup_insert_ne by done); by rewrite lookup_insert_eq |].
  reflexivity.
Qed.

(** A result of [predict_from_audio] is the model's own or the mock
    prediction. *)
Lemma predict_inv (m : HeartSoundModel.t) (w : world) (path : option string)
    (result : dict) (t : list event) :
  HeartSoundModel.predict_from_audio m w path = (Return result, t) →
  (∃ probs i p,
      w_predict w = Return probs ∧ Num.argmax probs = ret i ∧ probs !! i = Some p
      ∧ result !! "confidence" = Some (VFloat (Num.round_digits p 4))
      ∧ result !! "model_source" = Some (VStr "real_cnn_model"))
  ∨ HeartSoundModel._mock_prediction m w = (Return result, []).
Proof.
  intros Hp. pose proof (traceless_predict m w path) as Ht. rewrite Hp in Ht.
  simpl in Ht. subst t.
  pose proof (traceless_mock_prediction m w) as Htm.
  unfold HeartSoundModel.predict_from_audio in Hp.
  destruct (HeartSoundModel.model m); [| by right].
  unfold try_except in Hp.
  match type of Hp with context [match ?b with _ => _ end] =>
    destruct b as [[r0 | e0] t0] eqn:Hb end.
  - injection Hp as -> ->. left.
    apply bind_Return_inv in Hb as (probs & ? & ? & Hw & Hb & _).
    apply bind_Return_inv in Hb as (idx & ? & ? & Hi & Hb & _).
    apply bind_Return_inv in Hb as (c & ? & ? & Hc & Hb & _).
    apply bind_Return_inv in Hb as (seq & ? & ? & _ & [= <- _] & _).
    exists probs, idx, c. unfold lift in Hw. injection Hw as Hw _.
    split; [exact Hw |]. split.
    { destruct probs; simpl in *; unfold ret, raise in *; congruence. }
    split.
    { destruct (probs !! idx); unfold ret, raise in Hc; congruence. }
    split; [rewrite lookup_insert_ne by done; by rewrite lookup_insert_eq |].
    do 4 (rewrite lookup_insert_ne by done). by rewrite lookup_insert_eq.
  - right. destruct (HeartSoundModel._mock_prediction m w) as [r1 t1] eqn:Hm.
    simpl in Htm. subst t1. injection Hp as -> _. reflexivity.
Qed.

End LocalModel.

(** X1: with a Keras model and a class list, [predict_from_audio] reports
    the first class of maximal probability (or unknown when the model has
    more outputs than classes) and that probability rounded to 4 digits. *)
Theorem predict_reports_first_maximum
    (m : HeartSoundModel.t) (w : world) (path : option string)
    (k : HeartSoundModel.keras_model) (probs : list Q) (classes : list pyval) :
  HeartSoundModel.model m = Some k →
  w_predict w = Return probs →
  probs ≠ [] →
  dict_get_default (HeartSoundModel.model_info m) "classes"
    HeartSoundModel.default_classes = VList classes →
  ∃ i p result,
    probs !! i = Some p
    ∧ (∀ j q, probs !! j = Some q → (q <= p)%Q)
    ∧ (∀ j q, (j < i)%nat → probs !! j = Some q → (q < p)%Q)
    ∧ HeartSoundModel.predict_from_audio m w path = (Return result, [])
    ∧ result !! "prediction" = Some (default (VStr "unknown") (classes !! i))
    ∧ result !! "confidence" = Some (VFloat (Num.round_digits p 4))
    ∧ result !! "model_source" = Some (VStr "real_cnn_model").
Proof.
  intros Hk Hw Hne Hcl.
  destruct (argmax_correct probs Hne) as (i & p & Hi & Hp & Hmax & Hfirst).
  exists i, p. eexists. split; [exact Hp |]. split; [exact Hmax |].
  split; [exact Hfirst |].
  unfold HeartSoundModel.predict_from_audio. rewrite Hk, Hw. unfold lift.
  cbn [bind try_except]. rewrite Hi. cbn [bind ret]. rewrite Hp. cbn [bind ret].
  rewrite Hcl. cbn [py_seq bind ret app try_except].
  split; [reflexivity |]. split.
  - rewrite lookup_insert_eq. by destruct (classes !! i).
  - split; [rewrite lookup_insert_ne by done; by rewrite lookup_insert_eq |].
    do 4 (rewrite lookup_insert_ne by done). by rewrite lookup_insert_eq.
Qed.

(** X2: while a local model object is held and the remote API is not
    selected, a call leaves exactly one event, the local prediction: the
    fallback to the mock analysis after an empty prediction is never
    reached, and every result returned is the formatter's, tagged
    local_cnn_model. *)
Theorem local_model_never_falls_back
    (self : MLClient.t) (m : HeartSoundModel.t) (w : world)
    (path : option string) (ctx : option dict) :
  MLClient.use_real_ml self && negb (String.eqb (MLClient.ml_api_url self) "") = false →
  MLClient.local_model self = Some m →
  snd (MLClient.analyze_heart_sound self w path ctx) = [EvLocalPredict path]
  ∧ (∀ v t,
       MLClient.analyze_heart_sound self w path ctx = (Return v, t) →
       ∃ result r,
         HeartSoundModel.predict_from_audio m w path = (Return result, [])
         ∧ MLClient._format_local_ml_result self result ctx = (Return v, [])
         ∧ v = VDict r
         ∧ r !! "ml_source" = Some (VStr "local_cnn_model")).
Proof.
  intros Hsel Hm. unfold MLClient.analyze_heart_sound. rewrite Hsel, Hm.
  pose proof (traceless_predict m w path) as Htp.
  destruct (HeartSoundModel.predict_from_audio m w path) as [[result | e] tp] eqn:Hp;
    simpl in Htp; subst tp.
  2: { split; [reflexivity | intros v t [=]]. }
  destruct (predict_not_empty _ _ _ _ _ Hp) as [_ Hne].
  pose proof (traceless_format self result ctx) as Htf.
  unfold bind, emit. rewrite bool_decide_eq_false_2 by exact Hne.
  destruct (MLClient._format_local_ml_result self result ctx) as [[v0 | e0] tf] eqn:Hf;
    simpl in Htf; subst tf; simpl.
  2: { split; [reflexivity | intros v t [=]]. }
  split; [reflexivity |]. intros v t [= <- <-].
  destruct v0 as [| | | | | | r];
    try (apply bind_Return_inv in Hf as (? & ? & ? & _ & Hf & _);
         apply bind_Return_inv in Hf as (? & ? & ? & _ & Hf & _);
         apply bind_Return_inv in Hf as (? & ? & ? & _ & Hf & _);
         apply bind_Return_inv in Hf as (? & ? & ? & _ & Hf & _);
         apply bind_Return_inv in Hf as (? & ? & ? & _ & Hf & _); discriminate).
  exists result, r. split; [reflexivity |]. split; [exact Hf |]. split; [reflexivity |].
  apply format_local_inv in Hf as (? & ? & ? & ? & _ & _ & _ & _ & -> & _).
  unfold MLClient.local_result.
  do 7 (rewrite lookup_insert_ne by done). by rewrite lookup_insert_eq.
Qed.

(** X3: the formatter's second rounding does not change the confidence
    that [predict_from_audio] reported. *)
Theorem formatter_keeps_confidence
    (self : MLClient.t) (m : HeartSoundModel.t) (w : world) (path : option string)
    (ctx : option dict) (result r : dict) (t t' : list event) :
  HeartSoundModel.predict_from_audio m w path = (Return result, t) →
  MLClient._format_local_ml_result self result ctx = (Return (VDict r), t') →
  ∃ c c',
    result !! "confidence" = Some (VFloat c)
    ∧ r !! "confidence" = Some (VFloat c')
    ∧ (c' == c)%Q.
Proof.
  intros Hp Hf.
  assert (Hc : ∃ q n, (n ≤ 4)%nat
                      ∧ result !! "confidence" = Some (VFloat (Num.round_digits q n))).
  { apply predict_inv in Hp as [(probs & i & p & _ & _ & _ & Hc & _) | Hm].
    - exists p, 4%nat. eauto.
    - apply mock_prediction_inv in Hm as (? & ? & _ & _ & _ & Hc & _).
      eexists _, 3%nat. split; [lia | exact Hc]. }
  destruct Hc as (q & n & Hn & Hc).
  apply format_local_inv in Hf as (label & conf & rounded & note & _ & Hc' & Hr & _ & -> & _).
  rewrite Hc in Hc'. injection Hc' as <-. simpl in Hr. injection Hr as <-.
  eexists _, _. split; [exact Hc |]. split.
  - unfold MLClient.local_result. rewrite lookup_insert_ne by done.
    by rewrite lookup_insert_eq.
  - by apply round_digits_stable.
Qed.

(** X4: when the probabilities of the model lie in [0, 1], the confidence
    of a real prediction lies in [0, 1] and is the largest probability
    rounded to four digits, so less than 0.0001 away from it. *)
Theorem predict_confidence_accurate
    (m : HeartSoundModel.t) (w : world) (path : option string) (probs : list Q)
    (result : dict) (t : list event) :
  w_predict w = Return probs →
  (∀ q, q ∈ probs → (0 <= q)%Q ∧ (q <= 1)%Q) →
  HeartSoundModel.predict_from_audio m w path = (Return result, t) →
  result !! "model_source" = Some (VStr "real_cnn_model") →
  ∃ p c,
    p ∈ probs ∧ (∀ q, q ∈ probs → (q <= p)%Q)
    ∧ result !! "confidence" = Some (VFloat c)
    ∧ (c - p < 1 # 10000)%Q ∧ (p - c < 1 # 10000)%Q
    ∧ (0 <= c)%Q ∧ (c <= 1)%Q.
Proof.
  intros Hw Hrange Hp Hsrc.
  apply predict_inv in Hp as [(probs' & i & p & Hw' & Hi & Hpi & Hc & _) | Hm].
  2: { apply mock_prediction_inv in Hm as (? & ? & _ & _ & _ & _ & _ & Hs & _).
       rewrite Hs in Hsrc. discriminate. }
  rewrite Hw in Hw'. injection Hw' as <-.
  assert (Hne : probs ≠ []) by (intros ->; discriminate).
  destruct (argmax_correct probs Hne) as (i' & v & Hi' & Hv & Hmax & _).
  rewrite Hi in Hi'. injection Hi' as <-. rewrite Hpi in Hv. injection Hv as <-.
  assert (Hin : p ∈ probs) by (by eapply list_elem_of_lookup_2).
  exists p, (Num.round_digits p 4). split; [exact Hin |]. split.
  { intros q [j Hj]%list_elem_of_lookup. by eapply Hmax. }
  split; [exact Hc |].
  destruct (round_digits_near p 4) as [H1 H2].
  change (Z.to_pos (2 * 10 ^ Z.of_nat 4)) with 20000%positive in H1, H2.
  split; [lra |]. split; [lra |].
  destruct (Hrange p Hin) as [H0 H1'].
  destruct (round_digits_bounds p 4 0 10000) as [H3 H4].
  - change (inject_Z (10 ^ Z.of_nat 4)) with 10000%Q. change (inject_Z 0) with 0%Q. lra.
  - change (inject_Z (10 ^ Z.of_nat 4)) with 10000%Q. change (inject_Z 10000) with 10000%Q.
    lra.
  - change (Z.to_pos (10 ^ Z.of_nat 4)) with 10000%positive in H3, H4.
    split.
    + apply Qle_trans with (0 # 10000)%Q; [discriminate | exact H3].
    + apply Qle_trans with (10000 # 10000)%Q; [exact H4 | discriminate].
Qed.

Section ModelFallback.

(** The mock prediction of a model whose info names no classes. *)
Lemma mock_prediction_default (m : HeartSoundModel.t) (w : world) :
  HeartSoundModel.model_info m !! "classes" = None →
  ∃ label result,
    label ∈ ["normal"; "abnormal"]
    ∧ HeartSoundModel._mock_prediction m w = (Return result, [])
    ∧ result !! "prediction" = Some (VStr label)
    ∧ result !! "confidence"
      = Some (VFloat (Num.round_digits (Num.uniform (7 # 10) (95 # 100) (w_random w)) 3))
    ∧ result !! "probabilities" = Some (VList [VFloat (1 # 2); VFloat (1 # 2)]).
Proof.
  intros Hc. unfold HeartSoundModel._mock_prediction, dict_get_default. rewrite Hc.
  cbn [HeartSoundModel.default_classes py_seq bind ret].
  destruct (choice_elem [VStr "normal"; VStr "abnormal"] (w_choice w)) as (x & Hx & Hin);
    [discriminate |].
  rewrite Hx. cbn [bind ret app length Nat.eqb].
  assert (∃ label, x = VStr label ∧ label ∈ ["normal"; "abnormal"]) as (label & -> & Hl).
  { rewrite !elem_of_cons, elem_of_nil in Hin.
    destruct Hin as [-> | [-> | []]]; eexists; (split; [reflexivity |]);
      rewrite !elem_of_cons; auto. }
  exists label. eexists. split; [exact Hl |]. split; [reflexivity |].
  split; [by rewrite lookup_insert_eq |].
  split; [rewrite lookup_insert_ne by done; by rewrite lookup_insert_eq |].
  do 2 (rewrite lookup_insert_ne by done). by rewrite lookup_insert_eq.
Qed.

Lemma predict_falls_back (m : HeartSoundModel.t) (w : world) (path : option string) :
  (HeartSoundModel.model m = None ∨ ∃ e, w_predict w = Raise e) →
  HeartSoundModel.predict_from_audio m w path = HeartSoundModel._mock_prediction m w.
Proof.
  unfold HeartSoundModel.predict_from_audio.
  intros [-> | [e He]]; [reflexivity |].
  destruct (HeartSoundModel.model m); [| reflexivity].
  rewrite He. unfold lift. cbn [bind try_except].
  by destruct (HeartSoundModel._mock_prediction m w).
Qed.

End ModelFallback.

(** X5: when the model object holds no Keras model, or the prediction of
    the Keras model raises, the answer is drawn at random (a default class,
    a confidence in [0.7, 0.95], probabilities 0.5 / 0.5) and is still
    reported with ml_source local_cnn_model. *)
Theorem model_fallback_is_reported_as_local
    (self : MLClient.t) (m : HeartSoundModel.t) (w : world)
    (path : option string) (ctx : option dict) :
  MLClient.use_real_ml self && negb (String.eqb (MLClient.ml_api_url self) "") = false →
  MLClient.local_model self = Some m →
  (HeartSoundModel.model m = None ∨ ∃ e, w_predict w = Raise e) →
  HeartSoundModel.model_info m !! "classes" = None →
  Spec.age_is_number ctx →
  ∃ r label c,
    MLClient.analyze_heart_sound self w path ctx
    = (Return (VDict r), [EvLocalPredict path])
    ∧ r !! "prediction" = Some (VStr label) ∧ label ∈ ["normal"; "abnormal"]
    ∧ r !! "confidence" = Some (VFloat c)
    ∧ (7 # 10 <= c)%Q ∧ (c <= 95 # 100)%Q
    ∧ r !! "probabilities" = Some (VList [VFloat (1 # 2); VFloat (1 # 2)])
    ∧ r !! "ml_source" = Some (VStr "local_cnn_model").
Proof.
  intros Hsel Hm Hfail Hcl Hage.
  destruct (mock_prediction_default m w Hcl) as (label & result & Hl & Hmock & Hp & Hc & Hpr).
  assert (Hpred : HeartSoundModel.predict_from_audio m w path = (Return result, [])).
  { by rewrite (predict_falls_back m w path Hfail). }
  destruct (predict_not_empty _ _ _ _ _ Hpred) as [_ Hne].
  destruct (analysis_note_total (Spec.tier_of_label label) ctx Hage) as [note Hn].
  pose proof (format_local_run self result ctx label _ _ note Hp Hc eq_refl Hn) as Hf.
  set (c3 := Num.round_digits (Num.uniform (7 # 10) (95 # 100) (w_random w)) 3) in *.
  eexists _, label, (Num.round_digits c3 4). split.
  { unfold MLClient.analyze_heart_sound. rewrite Hsel, Hm, Hpred.
    unfold bind, emit. rewrite bool_decide_eq_false_2 by exact Hne.
    rewrite Hf. reflexivity. }
  unfold MLClient.local_result.
  split; [by rewrite lookup_insert_eq |]. split; [exact Hl |].
  split; [rewrite lookup_insert_ne by done; by rewrite lookup_insert_eq |].
  destruct (mock_confidence_bounds (7 # 10) (95 # 100) 700 950 (w_random w))
    as [H1 H2]; [discriminate | reflexivity | reflexivity |]. fold c3 in H1, H2.
  pose proof (round_digits_stable (Num.uniform (7 # 10) (95 # 100) (w_random w)) 3 4
                ltac:(lia)) as Hst. fold c3 in Hst.
  split; [by rewrite Hst |]. split; [by rewrite Hst |].
  split.
  - do 5 (rewrite lookup_insert_ne by done). rewrite lookup_insert_eq.
    unfold dict_get_default. by rewrite Hpr.
  - do 7 (rewrite lookup_insert_ne by done). by rewrite lookup_insert_eq.
Qed.

(** ** The traces of the classifier *)

Section ClassifierTraces.

Local Open Scope list_scope.

Lemma mock_analysis_trace (w : world) (ctx : option dict) :
  snd (MLClient._mock_analysis w ctx) = [EvMockAnalysis; EvSleep].
Proof. destruct (mock_analysis_result w ctx) as (label & _ & ->). reflexivity. Qed.

Lemma mock_analysis_returns (w : world) (ctx : option dict) :
  ∃ r, MLClient._mock_analysis w ctx = (Return (VDict r), [EvMockAnalysis; EvSleep])
       ∧ r !! "ml_source" = Some (VStr "mock").
Proof.
  destruct (mock_analysis_result w ctx) as (label & _ & ->). eexists.
  split; [reflexivity |]. do 4 (rewrite lookup_insert_ne by done).
  by rewrite lookup_insert_eq.
Qed.

(** The traces a remote call can leave. *)
Lemma external_trace_shape (self : MLClient.t) (w : world) (path : option string)
    (ctx : option dict) :
  let t := snd (MLClient._call_external_ml_api self w path ctx) in
  t = [EvOpenFile path; EvMockAnalysis; EvSleep]
  ∨ (∃ p, path = Some p ∧ w_readable w p = true
          ∧ (t = [EvOpenFile path; post_event self ctx]
             ∨ t = [EvOpenFile path; post_event self ctx; EvMockAnalysis; EvSleep])).
Proof.
  unfold MLClient._call_external_ml_api, MLClient.open_audio, post_event.
  destruct (mock_analysis_returns w ctx) as (r & Hm & _). rewrite Hm.
  destruct path as [p |]; [destruct (w_readable w p) eqn:Hr |]; simpl; auto.
  right. exists p. split; [reflexivity |]. split; [exact Hr |].
  destruct (w_http w) as [e | status json]; simpl; auto.
  destruct (status =? 200); simpl; auto.
  destruct json; simpl; auto.
Qed.

(** The trace of the local path. *)
Lemma local_trace (self : MLClient.t) (m : HeartSoundModel.t) (w : world)
    (path : option string) (ctx : option dict) :
  MLClient.use_real_ml self && negb (String.eqb (MLClient.ml_api_url self) "") = false →
  MLClient.local_model self = Some m →
  snd (MLClient.analyze_heart_sound self w path ctx) = [EvLocalPredict path].
Proof.
  intros Hsel Hm. unfold MLClient.analyze_heart_sound. rewrite Hsel, Hm.
  pose proof (traceless_predict m w path) as Htp.
  destruct (HeartSoundModel.predict_from_audio m w path) as [[result | e] tp] eqn:Hp;
    simpl in Htp; subst tp; [| reflexivity].
  destruct (predict_not_empty _ _ _ _ _ Hp) as [_ Hne].
  pose proof (traceless_format self result ctx) as Htf.
  unfold bind, emit. rewrite bool_decide_eq_false_2 by exact Hne.
  destruct (MLClient._format_local_ml_result self result ctx) as [[v0 | e0] tf];
    simpl in Htf; subst tf; reflexivity.
Qed.

(** The traces [analyze_heart_sound] can leave. *)
Lemma analyze_trace_shape (self : MLClient.t) (w : world) (path : option string)
    (ctx : option dict) :
  let t := snd (MLClient.analyze_heart_sound self w path ctx) in
  t = [EvLocalPredict path]
  ∨ t = [EvMockAnalysis; EvSleep]
  ∨ (MLClient.use_real_ml self = true ∧ MLClient.ml_api_url self ≠ ""
     ∧ (t = [EvOpenFile path; EvMockAnalysis; EvSleep]
        ∨ (∃ p, path = Some p ∧ w_readable w p = true
                ∧ (t = [EvOpenFile path; post_event self ctx]
                   ∨ t = [EvOpenFile path; post_event self ctx;
                          EvMockAnalysis; EvSleep])))).
Proof.
  destruct (MLClient.use_real_ml self
            && negb (String.eqb (MLClient.ml_api_url self) "")) eqn:Hsel.
  - right. right. apply andb_true_iff in Hsel as [Hu He].
    apply negb_true_iff, String.eqb_neq in He. split; [exact Hu |]. split; [exact He |].
    pose proof (external_trace_shape self w path ctx) as Hs.
    unfold MLClient.analyze_heart_sound. rewrite Hu.
    apply String.eqb_neq in He. rewrite He. exact Hs.
  - destruct (MLClient.local_model self) as [m |] eqn:Hm.
    + left. by eapply local_trace.
    + right. left. unfold MLClient.analyze_heart_sound. rewrite Hsel, Hm.
      apply mock_analysis_trace.
Qed.

Lemma ml_analyze_trace_shape (a : App.app) (w : world) (path : option string)
    (ctx : option dict) :
  let t := snd (App.ml_analyze a w path ctx) in
  t = [] ∨ t = [EvLocalPredict path] ∨ t = [EvMockAnalysis; EvSleep]
  ∨ t = [EvOpenFile path; EvMockAnalysis; EvSleep]
  ∨ (∃ c p, App.ml_client a = App.CoreClient c
            ∧ MLClient.use_real_ml c = true ∧ MLClient.ml_api_url c ≠ ""
            ∧ path = Some p ∧ w_readable w p = true
            ∧ (t = [EvOpenFile path; post_event c ctx]
               ∨ t = [EvOpenFile path; post_event c ctx; EvMockAnalysis; EvSleep])).
Proof.
  unfold App.ml_analyze. destruct (App.ml_client a) as [c |]; [| by left].
  destruct (analyze_trace_shape c w path ctx)
    as [H | [H | (Hu & He & [H | (p & Hp & Hr & H)])]]; simpl; auto 10.
  do 4 right. exists c, p. auto 10.
Qed.

End ClassifierTraces.

(** ** The variant that answers a request *)

Section SelectedVariant.

(** The local path formats what the model predicts: a prediction is never
    an empty dict, so the mock analysis is not reached from there. *)
Lemma local_analysis (self : MLClient.t) (m : HeartSoundModel.t) (w : world)
    (path : option string) (ctx : option dict) :
  MLClient.use_real_ml self && negb (String.eqb (MLClient.ml_api_url self) "") = false →
  MLClient.local_model self = Some m →
  MLClient.analyze_heart_sound self w path ctx
  = (do! emit (EvLocalPredict path) in
     let! result := HeartSoundModel.predict_from_audio m w path in
     MLClient._format_local_ml_result self result ctx).
Proof.
  intros Hsel Hm. unfold MLClient.analyze_heart_sound. rewrite Hsel, Hm.
  destruct (HeartSoundModel.predict_from_audio m w path) as [[result | e] tp] eqn:Hp;
    [| reflexivity].
  destruct (predict_not_empty _ _ _ _ _ Hp) as [_ Hne].
  unfold bind, emit. by rewrite bool_decide_eq_false_2 by exact Hne.
Qed.

(** What the formatter returns is a dict tagged local_cnn_model. *)
Lemma format_local_tagged (self : MLClient.t) (result : dict) (ctx : option dict)
    (v : pyval) (t : list event) :
  MLClient._format_local_ml_result self result ctx = (Return v, t) →
  ∃ r, v = VDict r ∧ t = [] ∧ r !! "ml_source" = Some (VStr "local_cnn_model").
Proof.
  intros Hf.
  destruct v as [| | | | | | r];
    try (apply bind_Return_inv in Hf as (? & ? & ? & _ & Hf & _);
         apply bind_Return_inv in Hf as (? & ? & ? & _ & Hf & _);
         apply bind_Return_inv in Hf as (? & ? & ? & _ & Hf & _);
         apply bind_Return_inv in Hf as (? & ? & ? & _ & Hf & _);
         apply bind_Return_inv in Hf as (? & ? & ? & _ & Hf & _); discriminate).
  exists r. split; [reflexivity |].
  apply format_local_inv in Hf as (? & ? & ? & ? & _ & _ & _ & _ & -> & ->).
  split; [reflexivity |]. unfold MLClient.local_result.
  do 7 (rewrite lookup_insert_ne by done). by rewrite lookup_insert_eq.
Qed.

(** A remote call whose file opens and whose post is answered 200 with a
    JSON body returns that body. *)
Lemma remote_answer (self : MLClient.t) (w : world) (p : string)
    (ctx : option dict) (body : pyval) :
  w_readable w p = true →
  w_http w = HttpResponse 200 (Return body) →
  MLClient._call_external_ml_api self w (Some p) ctx
  = (Return body, [EvOpenFile (Some p); post_event self ctx]).
Proof.
  intros Hr Hh. unfold MLClient._call_external_ml_api, MLClient.open_audio.
  rewrite Hr, Hh. destruct (MLClient._mock_analysis w _). reflexivity.
Qed.

End SelectedVariant.

(** C2: the classifier implementation is selected by the ordered policy:
    the remote API is attempted when the use-remote flag is on and an
    endpoint URL is configured; else the local model is used when one was
    loaded at startup; else the mock is used.  The variant chosen is the
    one that runs and answers: the request is [_call_external_ml_api]'s
    (whose 200 body is returned after one post), or the formatted
    prediction of the loaded model (tagged local_cnn_model, never the
    mock's), or [_mock_analysis]'s (tagged mock).  A model counts as
    loaded when [local_model] is set, as in [get_status]; at startup that
    is exactly when the flag is off, the model class was importable and
    its construction did not raise. *)
Theorem C2_selection_policy :
  (∀ (self : MLClient.t) (w : world) (audio_path : option string) (ctx : option dict),
     let chosen :=
       Spec.select (MLClient.use_real_ml self)
         (negb (String.eqb (MLClient.ml_api_url self) ""))
         (bool_decide (is_Some (MLClient.local_model self))) in
     let answer := MLClient.analyze_heart_sound self w audio_path ctx in
     first_variant (snd answer) = Some chosen
     ∧ match chosen with
       | Spec.RemoteAPI =>
           answer = MLClient._call_external_ml_api self w audio_path ctx
           ∧ (∀ p body,
                audio_path = Some p → w_readable w p = true →
                w_http w = HttpResponse 200 (Return body) →
                answer = (Return body, [EvOpenFile audio_path; post_event self ctx]))
       | Spec.LocalModel =>
           ∃ m,
             MLClient.local_model self = Some m
             ∧ answer
               = (do! emit (EvLocalPredict audio_path) in
                  let! result := HeartSoundModel.predict_from_audio m w audio_path in
                  MLClient._format_local_ml_result self result ctx)
             ∧ (∀ v t,
                  answer = (Return v, t) →
                  ∃ result r,
                    HeartSoundModel.predict_from_audio m w audio_path
                    = (Return result, [])
                    ∧ MLClient._format_local_ml_result self result ctx = (Return v, [])
                    ∧ v = VDict r
                    ∧ r !! "ml_source" = Some (VStr "local_cnn_model"))
       | Spec.Mock =>
           ∃ r,
             answer = MLClient._mock_analysis w ctx
             ∧ answer = (Return (VDict r), [EvMockAnalysis; EvSleep])
             ∧ r !! "ml_source" = Some (VStr "mock")
       end)
  ∧ (∀ environ has_local_model construct,
       let self := MLClient.__init__ environ has_local_model construct in
       (MLClient.use_real_ml self = true
        ↔ Str.ci_eqb (default "false" (environ !! "USE_REAL_ML")) "true" = true)
       ∧ MLClient.ml_api_url self = default "" (environ !! "ML_API_URL")
       ∧ (is_Some (MLClient.local_model self)
          ↔ MLClient.use_real_ml self = false ∧ has_local_model = true
            ∧ ∃ m, construct = Return m)).
Proof.
  split.
  - intros self w audio_path ctx chosen answer. subst chosen answer.
    unfold Spec.select.
    destruct (MLClient.use_real_ml self
              && negb (String.eqb (MLClient.ml_api_url self) "")) eqn:Hsel.
    + assert (Heq : MLClient.analyze_heart_sound self w audio_path ctx
                    = MLClient._call_external_ml_api self w audio_path ctx).
      { unfold MLClient.analyze_heart_sound. by rewrite Hsel. }
      rewrite Heq. split; [| split; [reflexivity |]].
      * destruct (external_trace self w audio_path ctx) as [t ->]. reflexivity.
      * intros p body -> Hr Hh. by apply remote_answer.
    + destruct (MLClient.local_model self) as [m |] eqn:Hm.
      * rewrite bool_decide_eq_true_2 by eauto.
        pose proof (local_analysis self m w audio_path ctx Hsel Hm) as Heq.
        split.
        { rewrite Heq, trace_bind_emit. reflexivity. }
        exists m. split; [reflexivity |]. split; [exact Heq |].
        intros v t Hv. rewrite Heq in Hv.
        apply bind_Return_inv in Hv as ([] & t1 & t2 & [= <-] & Hv & ->).
        apply bind_Return_inv in Hv as (result & t3 & t4 & Hp & Hf & ->).
        pose proof (traceless_predict m w audio_path) as Htp.
        rewrite Hp in Htp. simpl in Htp. subst t3.
        destruct (format_local_tagged _ _ _ _ _ Hf) as (r & -> & -> & Hs).
        by exists result, r.
      * rewrite bool_decide_eq_false_2 by (intros [? [=]]).
        assert (Heq : MLClient.analyze_heart_sound self w audio_path ctx
                      = MLClient._mock_analysis w ctx).
        { unfold MLClient.analyze_heart_sound. by rewrite Hsel, Hm. }
        rewrite Heq. destruct (mock_analysis_returns w ctx) as (r & Hr & Hs).
        split; [by rewrite Hr |]. by exists r.
  - intros environ has_local_model construct self. subst self.
    unfold MLClient.__init__. simpl. split; [| split; [reflexivity |]].
    + rewrite String.eqb_eq. by apply lower_eq_ci.
    + destruct (String.eqb _ "true"); simpl.
      { split; [intros [? [=]] | intros [[=] _]]. }
      destruct has_local_model; simpl.
      2: { split; [intros [? [=]] | intros (_ & [=] & _)]. }
      destruct construct as [m | e].
      * split; eauto.
      * split; [intros [? [=]] | intros (_ & _ & ? & [=])].
Qed.

(** X6: with USE_REAL_ML set to true (in any case) and no ML_API_URL, the
    client built at startup holds no local model, even when one could be
    loaded, and answers every request with the mock analysis. *)
Theorem remote_flag_without_url_means_mock
    (environ : gmap string string) (has_local_model : bool)
    (construct : outcome HeartSoundModel.t) (w : world) (path : option string)
    (ctx : option dict) :
  Str.ci_eqb (default "false" (environ !! "USE_REAL_ML")) "true" = true →
  default "" (environ !! "ML_API_URL") = "" →
  MLClient.local_model (MLClient.__init__ environ has_local_model construct) = None
  ∧ MLClient.analyze_heart_sound (MLClient.__init__ environ has_local_model construct)
      w path ctx
    = MLClient._mock_analysis w ctx.
Proof.
  intros Hflag Hurl. apply lower_eq_ci in Hflag; [| reflexivity].
  unfold MLClient.__init__, MLClient.analyze_heart_sound. cbn [MLClient.use_real_ml
    MLClient.ml_api_url MLClient.local_model]. rewrite Hflag, Hurl. split; reflexivity.
Qed.

(** X7: one call of [analyze_heart_sound] posts to the remote API at most
    once, and only when the remote API is selected and the audio file
    could be opened; nothing is retried. *)
Theorem at_most_one_post
    (self : MLClient.t) (w : world) (path : option string) (ctx : option dict) :
  (count_events is_post (snd (MLClient.analyze_heart_sound self w path ctx)) ≤ 1)%nat
  ∧ (count_events is_post (snd (MLClient.analyze_heart_sound self w path ctx)) = 1%nat →
     MLClient.use_real_ml self = true ∧ MLClient.ml_api_url self ≠ ""
     ∧ ∃ p, path = Some p ∧ w_readable w p = true).
Proof.
  destruct (analyze_trace_shape self w path ctx)
    as [H | [H | (Hu & He & [H | (p & Hp & Hr & [H | H])])]];
    simpl in H; rewrite H; unfold count_events, post_event; simpl;
    (split; [lia |]); try discriminate; intros _; eauto.
Qed.

(** ** Persistence in the /analyze handler *)

Section Persistence.

Local Open Scope list_scope.

(** With a connected client, saving inserts the record once. *)
Lemma database_save_trace (w : world) (data : dict) :
  snd (Database.save_screening_result true w data)
  = [EvDbInsert (DatabaseRead.screening_record w data)].
Proof.
  unfold Database.save_screening_result, DatabaseRead.screening_record.
  cbn [negb]. destruct (w_insert w) as [e | [[| row rows] |]]; reflexivity.
Qed.

(** What saving leaves in the trace. *)
Lemma save_trace_shape (a : App.app) (w : world) (data : dict) :
  let t := snd (App.save_screening_result a w data) in
  (App.database a = App.CoreDatabase true
   ∧ t = [EvDbSave data; EvDbInsert (DatabaseRead.screening_record w data)])
  ∨ (App.database a ≠ App.CoreDatabase true ∧ t = [EvDbSave data]).
Proof.
  unfold App.save_screening_result.
  destruct (App.database a) as [[|] |]; [left | right | right];
    (split; [done |]); rewrite trace_bind_emit; f_equal.
  apply database_save_trace.
Qed.

End Persistence.

(** X8: a 200 answer of the remote API is not normalized: the /analyze
    handler returns its JSON object as it is, with only the screening id
    and the stored file name added, after exactly one post and without
    any mock analysis. *)
Theorem remote_body_is_passed_through
    (P : App.platform) (send : pyval → string → dict) (a : App.app) (c : MLClient.t)
    (w : world) (req : App.request) (f : App.file_storage) (remote : dict) :
  App.ml_client a = App.CoreClient c →
  MLClient.use_real_ml c = true →
  MLClient.ml_api_url c ≠ "" →
  App.files req !! "audio" = Some f →
  App.filename f ≠ "" →
  Spec.has_allowed_extension (App.filename f) →
  w_file_save w = None →
  w_readable w (App.audio_path_of P w f) = true →
  w_http w = HttpResponse 200 (Return (VDict remote)) →
  ∃ id t,
    App.analyze_with P send a w req
    = (Return (VDict (<["audio_file" := VStr (App.unique_filename_of P w f)]>
                     (<["screening_id" := id]> remote)), 200), t)
    ∧ count_events is_post t = 1%nat
    ∧ count_events is_mock_analysis t = 0%nat.
Proof.
  intros Ha Hu He Hf Hn Hext Hs Hr Hh. apply allowed_file_spec in Hext.
  assert (Hml : App.ml_analyze a w (Some (App.audio_path_of P w f))
                  (Some (App.patient_context_of P req))
                = (Return (VDict remote),
                   [EvOpenFile (Some (App.audio_path_of P w f));
                    post_event c (Some (App.patient_context_of P req))])).
  { unfold App.ml_analyze. rewrite Ha. unfold MLClient.analyze_heart_sound.
    apply String.eqb_neq in He. rewrite Hu, He. cbn [andb negb].
    unfold MLClient._call_external_ml_api, MLClient.open_audio. rewrite Hr, Hh.
    destruct (MLClient._mock_analysis w _). reflexivity. }
  destruct (analyze_with_classified P send a w req f remote _ Hf Hn Hext Hs Hml)
    as (db & t_db & Hsave & Hres).
  eexists _, _. split; [exact Hres |].
  pose proof (save_trace_shape a w
                (App.screening_data_of w remote (App.patient_context_of P req)
                   (App.unique_filename_of P w f))) as Hshape.
  rewrite Hsave in Hshape. simpl in Hshape.
  destruct Hshape as [[_ ->] | [_ ->]]; split; reflexivity.
Qed.

(** X9: the /mock-analyze handler never contacts the remote API, and it
    stores no file, persists nothing and alerts nobody: its trace holds
    classifier events only, none of them a post. *)
Theorem mock_analyze_stays_local (a : App.app) (w : world) (data : option dict) :
  Forall (fun ev => classifier_event ev = true) (snd (App.mock_analyze a w data))
  ∧ count_events is_post (snd (App.mock_analyze a w data)) = 0%nat.
Proof.
  unfold App.mock_analyze.
  match goal with |- context [App.ml_analyze a w None ?ctx] =>
    pose proof (ml_analyze_trace_shape a w None ctx) as Hshape;
    destruct (App.ml_analyze a w None ctx) as [[v | e] t] end;
    simpl in Hshape; simpl; rewrite ?app_nil_r;
    (destruct Hshape as [-> | [-> | [-> | [-> | (c & p & _ & _ & _ & [=] & _)]]]];
     (split; [repeat (apply Forall_cons; split; [reflexivity |]); apply Forall_nil
             | reflexivity])).
  all: exact I.
Qed.

Section NoInsert.

Local Open Scope list_scope.

Lemma count_events_app (p : event → bool) (t1 t2 : list event) :
  count_events p (t1 ++ t2) = (count_events p t1 + count_events p t2)%nat.
Proof. unfold count_events. by rewrite filter_app, length_app. Qed.

Lemma ml_analyze_classifier_events (a : App.app) (w : world) (path : option string)
    (ctx : option dict) :
  Forall (fun ev => classifier_event ev = true) (snd (App.ml_analyze a w path ctx)).
Proof.
  destruct (ml_analyze_trace_shape a w path ctx)
    as [H | [H | [H | [H | (c & p & _ & _ & _ & _ & _ & [H | H])]]]];
    simpl in H; rewrite H;
    repeat (apply Forall_cons; split; [reflexivity |]); try apply Forall_nil.
  all: exact I.
Qed.

Lemma classifier_events_no_insert (t : list event) :
  Forall (fun ev => classifier_event ev = true) t → count_events is_insert t = 0%nat.
Proof.
  induction 1 as [| ev t Hev _ IH]; [reflexivity |].
  change (ev :: t) with ([ev] ++ t). rewrite count_events_app, IH.
  destruct ev; try discriminate; reflexivity.
Qed.

End NoInsert.

(** X10: the recommendation of a normalized or mock result is the fixed
    text of its risk tier, one of three, and is never empty. *)
Theorem recommendation_is_the_text_of_the_tier :
  (∀ self ml ctx r t,
     MLClient._format_local_ml_result self ml ctx = (Return (VDict r), t) →
     ∃ tier text,
       tier ∈ ["low"; "medium"; "high"]
       ∧ r !! "risk_level" = Some (VStr tier)
       ∧ MLClient.recommendations !! tier = Some text
       ∧ r !! "recommendation" = Some (VStr text) ∧ text ≠ "")
  ∧ (∀ w ctx, ∃ r t tier text,
       MLClient._mock_analysis w ctx = (Return (VDict r), t)
       ∧ tier ∈ ["low"; "medium"; "high"]
       ∧ r !! "risk_level" = Some (VStr tier)
       ∧ MLClient.mock_recommendations !! tier = Some text
       ∧ r !! "recommendation" = Some (VStr text) ∧ text ≠ "").
Proof.
  split.
  - intros self ml ctx r t Hf.
    apply format_local_inv in Hf as (label & ? & ? & ? & _ & _ & _ & _ & -> & _).
    assert (Ht : Spec.tier_of_label label ∈ ["low"; "medium"; "high"]).
    { unfold Spec.tier_of_label. rewrite !elem_of_cons.
      destruct (Str.ci_eqb label "normal"), (Str.ci_eqb label "abnormal"),
        (Str.ci_eqb label "murmur"); auto. }
    exists (Spec.tier_of_label label). unfold MLClient.local_result.
    rewrite !elem_of_cons, elem_of_nil in Ht.
    destruct Ht as [Ht | [Ht | [Ht | []]]]; rewrite Ht; eexists;
      (split; [rewrite !elem_of_cons; auto |]);
      (split; [do 2 (rewrite lookup_insert_ne by done); by rewrite lookup_insert_eq |]);
      (split; [reflexivity |]);
      (split; [do 3 (rewrite lookup_insert_ne by done); by rewrite lookup_insert_eq
              | discriminate]).
  - intros w ctx. destruct (mock_analysis_result w ctx) as (label & Hin & ->).
    unfold MLClient.predictions in Hin. rewrite !elem_of_cons, elem_of_nil in Hin.
    destruct Hin as [-> | [-> | [-> | []]]]; eexists _, _, _, _;
      (split; [reflexivity |]);
      (split; [| split; [do 2 (rewrite lookup_insert_ne by done); by rewrite lookup_insert_eq
                        | split; [reflexivity
                                 | split; [do 3 (rewrite lookup_insert_ne by done);
                                           by rewrite lookup_insert_eq
                                          | discriminate]]]]);
      rewrite !elem_of_cons; auto.
Qed.

(** X11: when the classifier raises, the /analyze handler answers 500 with
    the message of the exception; the upload stays stored and nothing is
    persisted or alerted (the rest of the trace is the classifier's). *)
Theorem classifier_failure_keeps_upload
    (P : App.platform) (send : pyval → string → dict) (a : App.app) (w : world)
    (req : App.request) (f : App.file_storage) (e : exn) (t_ml : list event) :
  App.files req !! "audio" = Some f →
  App.filename f ≠ "" →
  Spec.has_allowed_extension (App.filename f) →
  w_file_save w = None →
  App.ml_analyze a w (Some (App.audio_path_of P w f))
    (Some (App.patient_context_of P req)) = (Raise e, t_ml) →
  App.analyze_with P send a w req
  = (Return (App.error_response (exn_msg e) 500),
     EvFileSaved (App.audio_path_of P w f) :: t_ml)
  ∧ Forall (fun ev => classifier_event ev = true) t_ml.
Proof.
  intros Hf Hn Hext Hs Hml. apply allowed_file_spec in Hext.
  split.
  - rewrite (analyze_with_accepted P send a w req f Hf Hn Hext Hs).
    unfold bind at 1. unfold emit. rewrite Hml. simpl. by rewrite app_nil_r.
  - pose proof (ml_analyze_classifier_events a w (Some (App.audio_path_of P w f))
                  (Some (App.patient_context_of P req))) as H.
    by rewrite Hml in H.
Qed.

(** X12: for a classified request with a connected database whose insert
    returns a row, that insert is the only one made; the [screening_id]
    of the response is the id of the returned row, the name in
    [audio_file] is the name under which the upload was stored and the
    [recording_url] of the record inserted, and that record carries the
    label, confidence and risk tier of the response. *)
Theorem persisted_row_matches_response
    (P : App.platform) (send : pyval → string → dict) (a : App.app) (w : world)
    (req : App.request) (f : App.file_storage) (ml : dict) (t_ml : list event)
    (row : dict) (rows : list dict) :
  App.files req !! "audio" = Some f →
  App.filename f ≠ "" →
  Spec.has_allowed_extension (App.filename f) →
  w_file_save w = None →
  App.ml_analyze a w (Some (App.audio_path_of P w f))
    (Some (App.patient_context_of P req)) = (Return (VDict ml), t_ml) →
  App.database a = App.CoreDatabase true →
  w_insert w = InsertResponse (Some (row :: rows)) →
  let name := w_uuid_hex w ++ "_" ++ App.secure_filename P (App.filename f) in
  ∃ body t record,
    App.analyze_with P send a w req = (Return (VDict body, 200), t)
    ∧ EvFileSaved ("uploads/" ++ name) ∈ t
    ∧ EvDbInsert record ∈ t
    ∧ count_events is_insert t = 1%nat
    ∧ body !! "screening_id" = Some (dict_get row "id")
    ∧ body !! "audio_file" = Some (VStr name)
    ∧ record !! "recording_url" = Some (VStr name)
    ∧ record !! "status" = Some (dict_get body "prediction")
    ∧ record !! "confidence" = Some (dict_get body "confidence")
    ∧ record !! "risk_level" = Some (dict_get body "risk_level").
Proof.
  intros Hf Hn Hext Hs Hml Hdb Hins name. apply allowed_file_spec in Hext.
  destruct (analyze_with_classified P send a w req f ml t_ml Hf Hn Hext Hs Hml)
    as (db & t_db & Hsave & Hres).
  pose proof (save_trace_shape a w
                (App.screening_data_of w ml (App.patient_context_of P req)
                   (App.unique_filename_of P w f))) as Hshape.
  rewrite Hsave in Hshape. simpl in Hshape.
  destruct Hshape as [[_ ->] | [Hne _]]; [| congruence].
  assert (Hid : dict_get_default db "id" (VStr "") = dict_get row "id").
  { unfold App.save_screening_result, Database.save_screening_result in Hsave.
    rewrite Hdb, Hins in Hsave. cbn [negb bind emit ret try_except app] in Hsave.
    injection Hsave as <-. unfold dict_get_default.
    rewrite lookup_insert_ne by done. by rewrite lookup_insert_eq. }
  eexists _, _, _. split; [exact Hres |].
  split; [by left |].
  split. { right. apply elem_of_app. right. right. by left. }
  split.
  { change (EvFileSaved ?p :: ?t) with ([EvFileSaved p] ++ t)%list.
    rewrite !count_events_app, (classifier_events_no_insert t_ml).
    - reflexivity.
    - pose proof (ml_analyze_classifier_events a w (Some (App.audio_path_of P w f))
                    (Some (App.patient_context_of P req))) as H.
      by rewrite Hml in H. }
  split; [rewrite lookup_insert_ne by done; by rewrite lookup_insert_eq, Hid |].
  split; [by rewrite lookup_insert_eq |].
  unfold DatabaseRead.screening_record, App.screening_data_of, dict_get, dict_get_default.
  split; [| split; [| split]].
  - by rewrite !lookup_insert_ne, lookup_insert_eq,
      !lookup_insert_ne, lookup_insert_eq by done.
  - by rewrite !lookup_insert_ne, lookup_insert_eq,
      !lookup_insert_ne, lookup_insert_eq, !lookup_insert_ne by done.
  - by rewrite !lookup_insert_ne, lookup_insert_eq,
      !lookup_insert_ne, lookup_insert_eq, !lookup_insert_ne by done.
  - by rewrite !lookup_insert_ne, lookup_insert_eq,
      !lookup_insert_ne, lookup_insert_eq, !lookup_insert_ne by done.
Qed.

(** ** The read side of the database *)

(** X13: a saved screening read back.  When the database returns the row
    that [save_screening_result] inserted (with whatever columns it adds),
    [get_patient_history] gives one entry with the patient id, patient
    name, age, audio file name, prediction, confidence, risk tier and
    creation time of the screening data, under the application's names,
    and nothing else but the id: gender, doctor, recommendation, source
    and symptoms are not kept. *)
Theorem history_returns_what_was_saved
    (w : world) (screening_data row : dict) (count : option pyval) (patient_id : pyval) :
  (∀ k v, DatabaseRead.screening_record w screening_data !! k = Some v →
          row !! k = Some v) →
  ∃ entry,
    DatabaseRead.get_patient_history true
      (Return (ApiResponse (DataRows [row]) count)) patient_id
    = (Return (<["success" := VBool true]>
              (<["history" := VList [VDict entry]]>
              (<["count" := VInt 1]> ∅))), [])
    ∧ entry !! "patient_id" = Some (dict_get_default screening_data "patient_id" (VStr ""))
    ∧ entry !! "patient_name"
      = Some (dict_get_default screening_data "patient_name" (VStr ""))
    ∧ entry !! "age" = Some (dict_get screening_data "age")
    ∧ entry !! "audio_filename"
      = Some (dict_get_default screening_data "audio_filename" (VStr ""))
    ∧ entry !! "prediction" = Some (dict_get_default screening_data "prediction" (VStr ""))
    ∧ entry !! "confidence" = Some (dict_get screening_data "confidence")
    ∧ entry !! "risk_level" = Some (dict_get_default screening_data "risk_level" (VStr ""))
    ∧ entry !! "created_at"
      = Some (dict_get_default screening_data "created_at" (VStr (w_now w)))
    ∧ dom entry = {["id"; "patient_id"; "patient_name"; "age"; "audio_filename";
                    "prediction"; "confidence"; "risk_level"; "created_at"]}.
Proof.
  intros Hrow. exists (DatabaseRead.history_entry row).
  split; [reflexivity |].
  assert (Hcol : ∀ k v, DatabaseRead.screening_record w screening_data !! k = Some v →
                        dict_get row k = v).
  { intros k v Hk. unfold dict_get. by rewrite (Hrow k v Hk). }
  unfold DatabaseRead.history_entry.
  repeat split.
  - rewrite lookup_insert_ne, lookup_insert_eq by done. f_equal. by apply Hcol.
  - rewrite !lookup_insert_ne, lookup_insert_eq by done. f_equal. by apply Hcol.
  - rewrite !lookup_insert_ne, lookup_insert_eq by done. f_equal. by apply Hcol.
  - rewrite !lookup_insert_ne, lookup_insert_eq by done. f_equal. by apply Hcol.
  - rewrite !lookup_insert_ne, lookup_insert_eq by done. f_equal. by apply Hcol.
  - rewrite !lookup_insert_ne, lookup_insert_eq by done. f_equal. by apply Hcol.
  - rewrite !lookup_insert_ne, lookup_insert_eq by done. f_equal. by apply Hcol.
  - rewrite !lookup_insert_ne, lookup_insert_eq by done. f_equal. by apply Hcol.
Qed.

(** X14: [get_patient_history] never raises, and in every branch its
    [count] is the length of its [history]; it reports success exactly
    when the database is not connected (an empty history) or the query
    returned a list of rows, each of which gives one entry, in order. *)
Theorem history_count_is_length
    (supabase : bool) (executed : outcome api_response) (patient_id : pyval) :
  ∃ r history,
    DatabaseRead.get_patient_history supabase executed patient_id = (Return r, [])
    ∧ r !! "history" = Some (VList history)
    ∧ r !! "count" = Some (VInt (Z.of_nat (length history)))
    ∧ (r !! "success" = Some (VBool true)
       ∨ r !! "success" = Some (VBool false) ∧ history = [])
    ∧ (r !! "success" = Some (VBool true)
       ↔ supabase = false
         ∨ ∃ rows count, executed = Return (ApiResponse (DataRows rows) count))
    ∧ (∀ rows count,
         supabase = true → executed = Return (ApiResponse (DataRows rows) count) →
         history = (fun row => VDict (DatabaseRead.history_entry row)) <$> rows).
Proof.
  unfold DatabaseRead.get_patient_history.
  destruct supabase; cbn [negb].
  2: { eexists _, []. repeat split; try reflexivity; eauto; try discriminate. }
  destruct executed as [[[| | rows] count] | e]; simpl.
  - eexists _, []. split; [reflexivity |]. repeat split; auto; try discriminate.
    + intros [[=] | (? & ? & [=])].
  - eexists _, []. split; [reflexivity |]. repeat split; auto; try discriminate.
    + intros [[=] | (? & ? & [=])].
  - eexists _, _. split; [reflexivity |].
    split; [rewrite lookup_insert_ne by done; by rewrite lookup_insert_eq |].
    split.
    { do 2 (rewrite lookup_insert_ne by done). rewrite lookup_insert_eq.
      by rewrite !length_fmap. }
    split; [by left |]. split; [split; eauto |].
    intros rows' count' _ [= -> _]. by rewrite <- list_fmap_compose.
  - eexists _, []. split; [reflexivity |]. repeat split; auto; try discriminate.
    + intros [[=] | (? & ? & [=])].
Qed.

(** ** Patients *)

Section Patients.

Lemma py_or_truthy (x y : pyval) :
  truthy (py_or (py_or x y) (VStr "")) = truthy x || truthy y.
Proof.
  unfold py_or. destruct (truthy x) eqn:Hx; simpl; [by rewrite Hx |].
  destruct (truthy y) eqn:Hy; simpl; [by rewrite Hy | reflexivity].
Qed.

(** The name that [register_patient] uses. *)
Lemma register_name (d : dict) :
  py_or (py_or (dict_get_default d "full_name" VNone)
           (if truthy (dict_get_default d "full_name" VNone) then VNone
            else dict_get_default d "name" VNone)) (VStr "")
  = if truthy (dict_get d "full_name") then dict_get d "full_name"
    else if truthy (dict_get d "name") then dict_get d "name" else VStr "".
Proof.
  change (dict_get_default d "full_name" VNone) with (dict_get d "full_name").
  change (dict_get_default d "name" VNone) with (dict_get d "name").
  unfold py_or. destruct (truthy (dict_get d "full_name")) eqn:Hf; simpl.
  - by rewrite Hf.
  - by destruct (truthy (dict_get d "name")) eqn:Hn; rewrite ?Hn.
Qed.

End Patients.

(** X15: with a connected database, a registration whose body has neither
    a usable full_name nor a usable name is refused with status 400, and
    nothing is inserted. *)
Theorem registration_requires_a_name
    (now : string) (executed : outcome api_response) (d : dict) :
  truthy (dict_get d "full_name") = false →
  truthy (dict_get d "name") = false →
  ∃ body,
    Routes.register_patient_endpoint (Routes.CorePatients true) now executed
      (Return (VDict d)) = (Return (VDict body, 400), [])
    ∧ is_Some (body !! "error").
Proof.
  intros Hf Hn. unfold Routes.register_patient_endpoint. cbn [lift bind try_except truthy].
  case_bool_decide as He; cbn [negb].
  { eexists. split; [reflexivity |]. rewrite lookup_insert_eq. eauto. }
  unfold Routes.register_patient, PatientService.register_patient. cbn [negb py_get].
  cbn [bind ret try_except app].
  change (dict_get_default d "full_name" VNone) with (dict_get d "full_name").
  rewrite Hf. cbn [bind ret app].
  change (dict_get_default d "name" VNone) with (dict_get d "name").
  unfold py_or. rewrite Hf, Hn. cbn [truthy String.eqb negb bind ret app try_except].
  eexists. split; [reflexivity |].
  rewrite lookup_insert_ne by done. rewrite lookup_insert_eq. eauto.
Qed.

(** X16: with a connected database and a name in the body,
    [register_patient] inserts exactly one record, named after full_name
    when that is given and after name otherwise; it never raises, succeeds
    exactly when the insert returns a row, and then echoes the patient id
    and the name it stored. *)
Theorem registration_stores_the_full_name
    (now : string) (executed : outcome api_response) (d : dict) :
  truthy (dict_get d "full_name") || truthy (dict_get d "name") = true →
  let name := if truthy (dict_get d "full_name") then dict_get d "full_name"
              else dict_get d "name" in
  ∃ result record,
    PatientService.register_patient true now executed (VDict d)
    = (Return result, [EvDbInsert record])
    ∧ record !! "name" = Some name
    ∧ record !! "patient_id" = Some (dict_get_default d "patient_id" (VStr ""))
    ∧ record !! "phone" = Some (dict_get_default d "phone" (VStr ""))
    ∧ (result !! "success" = Some (VBool true)
       ↔ ∃ row rows count, executed = Return (ApiResponse (DataRows (row :: rows)) count))
    ∧ (result !! "success" = Some (VBool true) →
       result !! "name" = Some name
       ∧ result !! "patient_id" = Some (dict_get_default d "patient_id" (VStr "")))
    ∧ (result !! "success" ≠ Some (VBool true) →
       result !! "success" = Some (VBool false) ∧ is_Some (result !! "error")).
Proof.
  intros Hname name.
  assert (Hfull : py_or (py_or (dict_get_default d "full_name" VNone)
                           (if truthy (dict_get_default d "full_name" VNone) then VNone
                            else dict_get_default d "name" VNone)) (VStr "") = name).
  { rewrite register_name. subst name.
    destruct (truthy (dict_get d "full_name")); [reflexivity |].
    simpl in Hname. by rewrite Hname. }
  assert (Htr : truthy name = true).
  { subst name. destruct (truthy (dict_get d "full_name")) eqn:Hf; [exact Hf | exact Hname]. }
  unfold PatientService.register_patient. cbn [negb py_get bind ret app].
  destruct (truthy (dict_get_default d "full_name" VNone)) eqn:Hf;
    cbn [bind ret app] in *; rewrite Hfull, Htr; cbn [negb bind ret app emit lift].
  all: destruct executed as [[[| | [| row rows]] count] | e];
    cbn [resp_data bind ret raise app try_except];
    eexists _, _; (split; [reflexivity |]);
    (split; [rewrite lookup_insert_ne by done; by rewrite lookup_insert_eq |]);
    (split; [by rewrite lookup_insert_eq |]);
    (split; [do 4 (rewrite lookup_insert_ne by done); by rewrite lookup_insert_eq |]).
  all: rewrite ?lookup_insert_eq.
  all: split; [split; [try discriminate; eauto | intros (? & ? & ? & [=]); try done] |].
  all: split; [try discriminate |].
  all: try (intros _; split;
            [do 2 (rewrite lookup_insert_ne by done); by rewrite lookup_insert_eq
            | rewrite lookup_insert_ne by done; by rewrite lookup_insert_eq]).
  all: try (intros _; split; [reflexivity |];
            rewrite lookup_insert_ne by done; rewrite lookup_insert_eq; eauto).
  all: intros H; by destruct H.
Qed.

(** X17: without a connected database (or without the patient service),
    registration validates nothing: every non-empty JSON object is
    answered 201 with success, no name is required and nothing is
    inserted. *)
Theorem mock_registration_accepts_anything
    (b : Routes.patient_binding) (now : string) (executed : outcome api_response)
    (d : dict) :
  b = Routes.FallbackPatients ∨ b = Routes.CorePatients false →
  d ≠ ∅ →
  ∃ body,
    Routes.register_patient_endpoint b now executed (Return (VDict d))
    = (Return (VDict body, 201), [])
    ∧ body !! "success" = Some (VBool true)
    ∧ ∃ fallback, body !! "patient_id" = Some (dict_get_default d "patient_id" fallback).
Proof.
  intros Hb Hd. unfold Routes.register_patient_endpoint. cbn [lift bind try_except truthy].
  rewrite bool_decide_eq_false_2 by exact Hd. cbn [negb].
  destruct Hb as [-> | ->]; eexists;
    (split; [reflexivity |]); (split; [by rewrite lookup_insert_eq |]);
    eexists; rewrite lookup_insert_ne by done; by rewrite lookup_insert_eq.
Qed.

(** X18: [check_patient_exists] and [get_patient_details] agree: neither
    raises, a patient exists exactly when the details are found, and the
    name reported is the name of the patient returned. *)
Theorem check_agrees_with_details
    (supabase : bool) (executed : outcome api_response) (patient_id : pyval) :
  ∃ c d,
    PatientService.check_patient_exists supabase executed patient_id = (Return c, [])
    ∧ PatientService.get_patient_details supabase executed patient_id = (Return d, [])
    ∧ c !! "patient_id" = Some patient_id
    ∧ (c !! "exists" = Some (VBool true) ∨ c !! "exists" = Some (VBool false))
    ∧ (c !! "exists" = Some (VBool true) ↔ d !! "success" = Some (VBool true))
    ∧ (c !! "exists" = Some (VBool true) →
       ∃ patient, d !! "patient" = Some (VDict patient)
                  ∧ c !! "name" = Some (dict_get patient "name")).
Proof.
  unfold PatientService.check_patient_exists, PatientService.get_patient_details.
  destruct supabase; cbn [negb].
  2: { eexists _, _. repeat split; try reflexivity; auto; discriminate. }
  destruct executed as [[[| | [| row rows]] count] | e];
    cbn [lift resp_data bind ret raise app try_except length];
    eexists _, _; (split; [reflexivity |]); (split; [reflexivity |]);
    (split; [rewrite lookup_insert_ne by done; by rewrite lookup_insert_eq |]);
    rewrite !lookup_insert_eq.
  all: split; [auto |]. all: split; [split; (discriminate || reflexivity || auto) |].
  all: try discriminate.
  intros _. exists row. split.
  - rewrite lookup_insert_ne by done. by rewrite lookup_insert_eq.
  - do 2 (rewrite lookup_insert_ne by done). by rewrite lookup_insert_eq.
Qed.

Section CheckAux.

(** Whatever is bound to [check_patient_exists] returns a dict that echoes
    the patient id. *)
Lemma check_agrees_with_details_aux (b : Routes.patient_binding)
    (executed : outcome api_response) (patient_id : pyval) :
  ∃ c, Routes.check_patient_exists b executed patient_id = (Return c, [])
       ∧ c !! "patient_id" = Some patient_id.
Proof.
  unfold Routes.check_patient_exists, PatientService.check_patient_exists.
  destruct b as [[|] |]; cbn [negb].
  - destruct executed as [[[| | [| row rows]] count] | e];
      cbn [lift resp_data bind ret raise app try_except length];
      eexists; (split; [reflexivity |]);
      rewrite lookup_insert_ne by done; by rewrite lookup_insert_eq.
  - eexists. split; [reflexivity |].
    rewrite lookup_insert_ne by done. by rewrite lookup_insert_eq.
  - eexists. split; [reflexivity |].
    rewrite lookup_insert_ne by done. by rewrite lookup_insert_eq.
Qed.

End CheckAux.

(** X19: POST /patients/check with a JSON object answers 400 exactly when
    the object is empty or has no patient_id key; otherwise it answers
    200 with the patient id it was given, whatever the database does. *)
Theorem check_endpoint_requires_patient_id
    (b : Routes.patient_binding) (executed : outcome api_response) (d : dict) :
  ∃ body status,
    Routes.check_patient b executed (Return (VDict d)) = (Return (VDict body, status), [])
    ∧ (status = 400 ↔ d !! "patient_id" = None)
    ∧ (status = 200 ↔ is_Some (d !! "patient_id"))
    ∧ (∀ v, d !! "patient_id" = Some v → body !! "patient_id" = Some v).
Proof.
  unfold Routes.check_patient. cbn [lift bind try_except truthy app].
  case_bool_decide as He; cbn [negb bind ret app].
  { subst d. eexists _, _. split; [reflexivity |]. rewrite lookup_empty.
    repeat split; auto; try discriminate. intros [? [=]]. }
  cbn [Routes.py_in bind ret app].
  destruct (d !! "patient_id") as [v |] eqn:Hv.
  2: { rewrite bool_decide_eq_false_2 by (intros [? [=]]). cbn [negb].
       eexists _, _. split; [reflexivity |].
       repeat split; auto; try discriminate. intros [? [=]]. }
  rewrite bool_decide_eq_true_2 by eauto. cbn [negb Routes.py_item].
  unfold dict_item. rewrite Hv. cbn [bind ret app].
  destruct (check_agrees_with_details_aux b executed v) as (c & Hc & Hid).
  rewrite Hc. cbn [bind ret app try_except].
  eexists _, _. split; [reflexivity |].
  repeat split; auto; try discriminate; eauto.
  intros v' [= <-]. exact Hid.
Qed.

Section HistoryAux.

Lemma history_count_aux (supabase : bool) (executed : outcome api_response)
    (patient_id : pyval) :
  ∃ r, DatabaseRead.get_patient_history supabase executed patient_id = (Return r, [])
       ∧ is_Some (r !! "history").
Proof.
  unfold DatabaseRead.get_patient_history.
  destruct supabase; cbn [negb].
  - destruct executed as [[[| | rows] count] | e];
      cbn [lift resp_data bind ret raise app try_except];
      eexists; (split; [reflexivity |]).
    + do 2 (rewrite lookup_insert_ne by done). rewrite lookup_insert_eq. eauto.
    + do 2 (rewrite lookup_insert_ne by done). rewrite lookup_insert_eq. eauto.
    + rewrite lookup_insert_ne by done. rewrite lookup_insert_eq. eauto.
    + do 2 (rewrite lookup_insert_ne by done). rewrite lookup_insert_eq. eauto.
  - eexists. split; [reflexivity |].
    rewrite lookup_insert_ne by done. rewrite lookup_insert_eq. eauto.
Qed.

End HistoryAux.

(** X20: the lookup endpoints GET /patients/<id>, /history/<id> and /stats
    always answer 200 with the dict of the service: a patient that is not
    found, a query that raises or a database that is not connected gives
    no 404 and no 500, only [success] false in the body (or, for the
    history of an unconnected database, an empty success). *)
Theorem lookups_always_answer_200
    (pb : Routes.patient_binding) (db : App.db_binding)
    (executed : outcome api_response) (patient_id now : string) :
  (∃ body,
     Routes.get_patient pb executed patient_id = (Return (VDict body, 200), [])
     ∧ (body !! "success" = Some (VBool true)
        ↔ pb = Routes.CorePatients true
          ∧ ∃ row rows count,
              executed = Return (ApiResponse (DataRows (row :: rows)) count)))
  ∧ (∃ body,
       Routes.get_history db executed patient_id = (Return (VDict body, 200), [])
       ∧ is_Some (body !! "history"))
  ∧ (∃ body,
       Routes.get_stats db executed now = (Return (VDict body, 200), [])
       ∧ is_Some (body !! "stats")).
Proof.
  split; [| split].
  - unfold Routes.get_patient, Routes.get_patient_details,
      PatientService.get_patient_details.
    destruct pb as [[|] |]; cbn [negb].
    + destruct executed as [[[| | [| row rows]] count] | e];
        cbn [lift resp_data bind ret raise app try_except];
        eexists; (split; [reflexivity |]); rewrite lookup_insert_eq;
        (split; [try discriminate | intros (_ & ? & ? & ? & [=])]); eauto 10.
    + eexists. split; [reflexivity |]. rewrite lookup_insert_eq.
      split; [discriminate | intros ([=] & _)].
    + eexists. split; [reflexivity |]. rewrite lookup_insert_eq.
      split; [discriminate | intros ([=] & _)].
  - unfold Routes.get_history, Routes.get_patient_history.
    destruct db as [supabase |].
    + destruct (history_count_aux supabase executed (VStr patient_id)) as (r & -> & Hh).
      cbn [bind ret app try_except]. eauto.
    + eexists. split; [reflexivity |].
      rewrite lookup_insert_ne by done. rewrite lookup_insert_eq. eauto.
  - unfold Routes.get_stats, Routes.get_system_stats, DatabaseRead.get_system_stats.
    destruct db as [[|] |]; cbn [negb].
    + destruct executed as [r | e]; cbn [lift bind ret app try_except];
        eexists; (split; [reflexivity |]).
      * rewrite lookup_insert_ne by done. rewrite lookup_insert_eq. eauto.
      * do 2 (rewrite lookup_insert_ne by done). rewrite lookup_insert_eq. eauto.
    + eexists. split; [reflexivity |].
      rewrite lookup_insert_ne by done. rewrite lookup_insert_eq. eauto.
    + eexists. split; [reflexivity |].
      rewrite lookup_insert_ne by done. rewrite lookup_insert_eq. eauto.
Qed.

(** ** The SMS service *)

(** X21: a service built by [__init__] sends an SMS only when
    TWILIO_ACCOUNT_SID, TWILIO_AUTH_TOKEN and CLINIC_PHONE_NUMBER are all
    set and non-empty and the Twilio client could be created; the message
    then goes once to the clinic number, and a failure of Twilio gives
    [success] false instead of an exception.  In every other
    configuration nothing is sent and [send_alert] still reports
    success. *)
Theorem sms_is_sent_only_when_configured
    (environ : gmap string string) (twilio_client : bool) (P : App.platform)
    (created : outcome string) (draw : Z)
    (patient_name risk_level confidence patient_id location : pyval) :
  let self := SMSService.__init__ environ twilio_client in
  let configured :=
    SMSService.set_ (environ !! "TWILIO_ACCOUNT_SID")
    && SMSService.set_ (environ !! "TWILIO_AUTH_TOKEN")
    && twilio_client
    && SMSService.set_ (environ !! "CLINIC_PHONE_NUMBER") in
  ∃ result t,
    SMSService.send_alert self P created draw patient_name risk_level confidence
      patient_id location = (Return result, t)
    ∧ (configured = true →
       ∃ clinic,
         environ !! "CLINIC_PHONE_NUMBER" = Some clinic
         ∧ t = [EvSms (VStr clinic)
                  (SMSService.alert_message P patient_name risk_level confidence
                     patient_id location)]
         ∧ (∀ sid, created = Return sid →
              result !! "success" = Some (VBool true)
              ∧ result !! "message_id" = Some (VStr sid)
              ∧ result !! "to" = Some (VStr clinic))
         ∧ (∀ e, created = Raise e →
              result !! "success" = Some (VBool false)
              ∧ result !! "error" = Some (VStr (exn_msg e))))
    ∧ (configured = false →
       t = [] ∧ result !! "success" = Some (VBool true)
       ∧ result !! "to" = Some (VStr "+1234567890 (Mock)")).
Proof.
  intros self configured. subst self configured.
  unfold SMSService.send_alert, SMSService.__init__.
  cbn [SMSService.client SMSService.clinic_number].
  set (sid := SMSService.set_ (environ !! "TWILIO_ACCOUNT_SID")).
  set (tok := SMSService.set_ (environ !! "TWILIO_AUTH_TOKEN")).
  set (cl := SMSService.set_ (environ !! "CLINIC_PHONE_NUMBER")).
  assert (Hc : (if sid && tok then twilio_client else false) && cl
               = sid && tok && twilio_client && cl).
  { by destruct sid, tok, twilio_client, cl. }
  rewrite Hc. destruct (sid && tok && twilio_client && cl) eqn:Hconf.
  - apply andb_true_iff in Hconf as [_ Hcl]. subst cl.
    destruct (environ !! "CLINIC_PHONE_NUMBER") as [clinic |] eqn:Hclinic;
      [| discriminate].
    destruct created as [s | e]; cbn [lift bind ret emit app try_except default];
      eexists _, _; (split; [reflexivity |]); (split; [| discriminate]);
      intros _; exists clinic; (split; [reflexivity |]); (split; [reflexivity |]).
    + split; [| intros e [=]]. intros s' [= <-].
      split; [by rewrite lookup_insert_eq |].
      split; [rewrite lookup_insert_ne by done; by rewrite lookup_insert_eq |].
      do 2 (rewrite lookup_insert_ne by done). by rewrite lookup_insert_eq.
    + split; [intros s [=] |]. intros e' [= <-].
      split; [by rewrite lookup_insert_eq |].
      rewrite lookup_insert_ne by done. by rewrite lookup_insert_eq.
  - cbn [bind ret app try_except]. eexists _, _. split; [reflexivity |].
    split; [discriminate |]. intros _. split; [reflexivity |].
    split; [by rewrite lookup_insert_eq |].
    do 2 (rewrite lookup_insert_ne by done). by rewrite lookup_insert_eq.
Qed.

(** ** The stand-alone predictor *)


(** ** The audio features *)

(** X23: whatever the length of the loaded audio, the samples handed to
    the mel spectrogram number exactly [int(sr * duration)], for the
    product as Python computes it and when that is not negative: the
    first samples of the audio, then zeros when the audio is too short. *)
Theorem fixed_length_is_fixed (float_mul : Q → Q → Q) (audio : list Q)
    (sr duration : Q) :
  (0 <= float_mul sr duration)%Q →
  let n := Z.to_nat (AudioFeatures.py_int_of_float (float_mul sr duration)) in
  length (AudioFeatures.fixed_length float_mul audio sr duration) = n
  ∧ (∀ i, (i < n)%nat →
          AudioFeatures.fixed_length float_mul audio sr duration !! i
          = Some (default 0%Q (audio !! i))).
Proof.
  intros Hpos n. subst n.
  unfold AudioFeatures.fixed_length, AudioFeatures.py_int_of_float.
  destruct (Qlt_le_dec (float_mul sr duration) 0) as [Hneg | _]; [lra |].
  pose proof (Qfloor_resp_le _ _ Hpos) as Hf. change (Qfloor 0) with 0 in Hf.
  set (target := Qfloor (float_mul sr duration)) in *.
  set (n := Z.to_nat target).
  destruct (Z.of_nat (length audio) <? target) eqn:Hlt.
  - apply Z.ltb_lt in Hlt. split.
    + rewrite length_app, length_replicate. lia.
    + intros i Hi. destruct (decide (i < length audio)%nat) as [Hin | Hout].
      * rewrite lookup_app_l by exact Hin.
        destruct (lookup_lt_is_Some_2 audio i Hin) as [x Hx]. by rewrite Hx.
      * rewrite lookup_app_r by lia.
        rewrite (lookup_ge_None_2 audio i) by lia. simpl.
        apply lookup_replicate_2. lia.
  - apply Z.ltb_ge in Hlt. unfold AudioFeatures.slice_to.
    assert (Hn : (target <? 0) = false) by (apply Z.ltb_ge; lia). rewrite Hn. fold n.
    split.
    + rewrite length_take. lia.
    + intros i Hi. rewrite lookup_take_lt by exact Hi.
      destruct (lookup_lt_is_Some_2 audio i ltac:(lia)) as [x Hx]. by rewrite Hx.
Qed.

(** ** Loading the model *)

Section Loading.

Lemma set_note_dict (d : dict) (note : string) :
  ModelLoader.set_note (VDict d) note = ret (<["note" := VStr note]> d).
Proof. reflexivity. Qed.

Lemma set_note_inv (info : pyval) (note : string) (d' : dict) (t : list event) :
  ModelLoader.set_note info note = (Return d', t) →
  ∃ d, info = VDict d ∧ d' = <["note" := VStr note]> d ∧ t = [].
Proof.
  destruct info; simpl; unfold ret, raise; try discriminate.
  intros [= <- <-]. eauto.
Qed.

End Loading.

(** X24: when [HeartSoundModel()] returns, the model info read at startup
    (or the default info) is kept and gets a note.  The Keras model is the
    one loaded from the file exactly when the file exists, has at least
    1024 bytes and loads; in every other case a new model is built, and
    [model] is empty only if building fails. *)
Theorem model_loading_outcome (fs : ModelLoader.files) (m : HeartSoundModel.t)
    (t : list event) :
  ModelLoader.__init__ fs = (Return m, t) →
  ∃ info note,
    match ModelLoader.info_file fs with
    | Some loaded => loaded = Return (VDict info)
    | None => info = ModelLoader.default_info
    end
    ∧ HeartSoundModel.model_info m = <["note" := VStr note]> info
    ∧ ModelLoader.write_info fs = None
    ∧ match ModelLoader.load_model fs with
      | Return keras =>
          if ModelLoader.model_exists fs && (1024 <=? ModelLoader.model_size fs) then
            HeartSoundModel.model m = Some keras ∧ note = "Loaded from existing file"
          else
            HeartSoundModel.model m = ModelLoader._create_new_model fs
            ∧ String.prefix "New model created - original file " note = true
      | Raise e =>
          HeartSoundModel.model m = ModelLoader._create_new_model fs
          ∧ String.prefix "New model created - " note = true
      end.
Proof.
  unfold ModelLoader.__init__.
  intros (info0 & t1 & t2 & Hinfo & Hrest & ->)%bind_Return_inv.
  apply bind_Return_inv in Hrest as ([model info'] & t3 & t4 & Hload & Hrest & ->).
  apply bind_Return_inv in Hrest as ([] & t5 & t6 & Hw & [= <- <-] & ->).
  assert (Hwrite : ModelLoader.write_info fs = None).
  { destruct (ModelLoader.write_info fs); [discriminate | reflexivity]. }
  cbn [fst snd HeartSoundModel.model HeartSoundModel.model_info].
  assert (Hshape : ∃ d note, info0 = VDict d ∧ info' = <["note" := VStr note]> d
            ∧ match ModelLoader.load_model fs with
              | Return keras =>
                  if ModelLoader.model_exists fs && (1024 <=? ModelLoader.model_size fs)
                  then model = Some keras ∧ note = "Loaded from existing file"
                  else model = ModelLoader._create_new_model fs
                       ∧ String.prefix "New model created - original file " note = true
              | Raise e =>
                  model = ModelLoader._create_new_model fs
                  ∧ String.prefix "New model created - " note = true
              end).
  { destruct (ModelLoader.model_exists fs); cbn [negb andb] in *.
    2: { apply bind_Return_inv in Hload as (d' & ? & ? & Hn & [= <- <-] & _).
         apply set_note_inv in Hn as (d & -> & -> & _).
         exists d. eexists. split; [reflexivity |]. split; [reflexivity |].
         by destruct (ModelLoader.load_model fs). }
    destruct (ModelLoader.model_size fs <? 1024) eqn:Hsize.
    { apply bind_Return_inv in Hload as (d' & ? & ? & Hn & [= <- <-] & _).
      apply set_note_inv in Hn as (d & -> & -> & _).
      exists d. eexists. split; [reflexivity |]. split; [reflexivity |].
      apply Z.ltb_lt in Hsize.
      assert (Hle : (1024 <=? ModelLoader.model_size fs) = false) by (apply Z.leb_gt; lia).
      rewrite Hle. by destruct (ModelLoader.load_model fs). }
    apply Z.ltb_ge in Hsize.
    assert (Hle : (1024 <=? ModelLoader.model_size fs) = true) by (apply Z.leb_le; lia).
    rewrite Hle.
    destruct (ModelLoader.load_model fs) as [keras | e].
    - destruct info0 as [| | | | | | d];
        try (apply bind_Return_inv in Hload as (d' & ? & ? & Hn & _);
             apply set_note_inv in Hn as (d & [=] & _)).
      apply bind_Return_inv in Hload as (d' & ? & ? & Hn & [= <- <-] & _).
      apply set_note_inv in Hn as (d0 & [= <-] & -> & _).
      exists d. eexists. split; [reflexivity |]. split; [reflexivity |]. by split.
    - apply bind_Return_inv in Hload as (d' & ? & ? & Hn & [= <- <-] & _).
      apply set_note_inv in Hn as (d & -> & -> & _).
      exists d. eexists. split; [reflexivity |]. split; [reflexivity |]. by split. }
  destruct Hshape as (d & note & -> & -> & Hm).
  exists d, note. split.
  { destruct (ModelLoader.info_file fs) as [loaded |].
    - unfold lift in Hinfo. by injection Hinfo as -> _.
    - unfold ret in Hinfo. by injection Hinfo as <- _. }
  split; [reflexivity |]. split; [exact Hwrite | exact Hm].
Qed.

Section Startup.

(** What [MLClient.__init__] holds (the startup half of the selection
    policy). *)
Lemma client_startup (environ : gmap string string) (has_local_model : bool)
    (construct : outcome HeartSoundModel.t) :
  let self := MLClient.__init__ environ has_local_model construct in
  (MLClient.use_real_ml self = true
   ↔ Str.ci_eqb (default "false" (environ !! "USE_REAL_ML")) "true" = true)
  ∧ MLClient.ml_api_url self = default "" (environ !! "ML_API_URL")
  ∧ (is_Some (MLClient.local_model self)
     ↔ MLClient.use_real_ml self = false ∧ has_local_model = true
       ∧ ∃ m, construct = Return m).
Proof.
  intros self. subst self.
  unfold MLClient.__init__. simpl. split; [| split; [reflexivity |]].
  - rewrite String.eqb_eq. by apply lower_eq_ci.
  - destruct (String.eqb _ "true"); simpl.
    { split; [intros [? [=]] | intros [[=] _]]. }
    destruct has_local_model; simpl.
    2: { split; [intros [? [=]] | intros (_ & [=] & _)]. }
    destruct construct as [m | e].
    + split; eauto.
    + split; [intros [? [=]] | intros (_ & _ & ? & [=])].
Qed.

(** A construction that returns read a JSON object, or the default info,
    and wrote it back. *)
Lemma model_loading_aux (fs : ModelLoader.files) (m : HeartSoundModel.t)
    (t : list event) :
  ModelLoader.__init__ fs = (Return m, t) →
  ∃ info,
    match ModelLoader.info_file fs with
    | Some loaded => loaded = Return (VDict info)
    | None => info = ModelLoader.default_info
    end
    ∧ ModelLoader.write_info fs = None.
Proof.
  unfold ModelLoader.__init__.
  intros (info0 & t1 & t2 & Hinfo & Hrest & ->)%bind_Return_inv.
  apply bind_Return_inv in Hrest as ([model info'] & t3 & t4 & Hload & Hrest & ->).
  apply bind_Return_inv in Hrest as ([] & t5 & t6 & Hw & _ & ->).
  assert (Hwrite : ModelLoader.write_info fs = None).
  { destruct (ModelLoader.write_info fs); [discriminate | reflexivity]. }
  assert (Hd : ∃ d, info0 = VDict d).
  { destruct (ModelLoader.model_exists fs); cbn [negb] in Hload.
    2: { apply bind_Return_inv in Hload as (d' & ? & ? & Hn & _).
         apply set_note_inv in Hn as (d & -> & _). eauto. }
    destruct (ModelLoader.model_size fs <? 1024).
    { apply bind_Return_inv in Hload as (d' & ? & ? & Hn & _).
      apply set_note_inv in Hn as (d & -> & _). eauto. }
    destruct (ModelLoader.load_model fs) as [keras | e].
    - destruct info0 as [| | | | | | d]; eauto;
        apply bind_Return_inv in Hload as (d' & ? & ? & Hn & _);
        apply set_note_inv in Hn as (d & [=] & _).
    - apply bind_Return_inv in Hload as (d' & ? & ? & Hn & _).
      apply set_note_inv in Hn as (d & -> & _). eauto. }
  destruct Hd as [d ->]. exists d. split; [| exact Hwrite].
  destruct (ModelLoader.info_file fs) as [loaded |].
  - unfold lift in Hinfo. by injection Hinfo as -> _.
  - unfold ret in Hinfo. by injection Hinfo as <- _.
Qed.

End Startup.

(** X25: at startup the client holds a local model exactly when the
    remote flag is off, the model class was importable, model_info.json is
    absent or holds a JSON object, and it can be written back.  The model
    file itself never matters: when it is missing, too small or
    unloadable, a new model is built or mock predictions are used. *)
Theorem local_model_depends_on_the_info_file_only
    (environ : gmap string string) (has_local_model : bool) (fs : ModelLoader.files) :
  is_Some (MLClient.local_model
             (MLClient.__init__ environ has_local_model (fst (ModelLoader.__init__ fs))))
  ↔ Str.ci_eqb (default "false" (environ !! "USE_REAL_ML")) "true" = false
    ∧ has_local_model = true
    ∧ (ModelLoader.info_file fs = None
       ∨ ∃ info, ModelLoader.info_file fs = Some (Return (VDict info)))
    ∧ ModelLoader.write_info fs = None.
Proof.
  destruct (client_startup environ has_local_model (fst (ModelLoader.__init__ fs)))
    as (Hflag & _ & Hloc).
  rewrite Hloc. clear Hloc.
  assert (Hoff : MLClient.use_real_ml
                   (MLClient.__init__ environ has_local_model
                      (fst (ModelLoader.__init__ fs))) = false
                 ↔ Str.ci_eqb (default "false" (environ !! "USE_REAL_ML")) "true" = false).
  { rewrite <- !not_true_iff_false. by rewrite Hflag. }
  rewrite Hoff. clear Hoff Hflag.
  assert (Hinit : (∃ m, fst (ModelLoader.__init__ fs) = Return m)
                  ↔ (ModelLoader.info_file fs = None
                     ∨ ∃ info, ModelLoader.info_file fs = Some (Return (VDict info)))
                    ∧ ModelLoader.write_info fs = None).
  { split.
    - intros [m Hm]. destruct (ModelLoader.__init__ fs) as [o t] eqn:Hi.
      simpl in Hm. subst o.
      apply model_loading_aux in Hi as (info & Hinfo & Hw).
      split; [| exact Hw].
      destruct (ModelLoader.info_file fs) as [loaded |]; [right | by left].
      exists info. by rewrite Hinfo.
    - intros [Hinfo Hw]. unfold ModelLoader.__init__. rewrite Hw.
      assert (∃ d, match ModelLoader.info_file fs with
                   | Some loaded => lift loaded
                   | None => ret (VDict ModelLoader.default_info)
                   end = (Return (VDict d), [])) as [d ->].
      { destruct Hinfo as [-> | [info ->]]; eauto. }
      cbn [bind app].
      destruct (ModelLoader.model_exists fs); cbn [negb];
        [destruct (ModelLoader.model_size fs <? 1024);
         [| destruct (ModelLoader.load_model fs)] |];
        rewrite !set_note_dict; cbn [bind ret app fst]; eauto. }
  rewrite Hinit. tauto.
Qed.

(** ** Instances on the sample inputs *)

Lemma predict_reports_first_maximum_witness :
  ∃ result,
    HeartSoundModel.predict_from_audio Sample.heart_model Sample.local_world None
    = (Return result, [])
    ∧ result !! "prediction" = Some (VStr "abnormal")
    ∧ result !! "confidence" = Some (VFloat (Num.round_digits (3 # 4) 4)).
Proof.
  destruct (predict_reports_first_maximum Sample.heart_model Sample.local_world None
              HeartSoundModel.KerasModel [1 # 4; 3 # 4]%Q
              [VStr "normal"; VStr "abnormal"] eq_refl eq_refl ltac:(discriminate) eq_refl)
    as (i & p & result & Hp & Hmax & Hfirst & Hr & Hpred & Hconf & _).
  assert (Hi : i = 1%nat).
  { destruct i as [| [| i]]; [| reflexivity | discriminate].
    injection Hp as <-. specialize (Hmax 1%nat (3 # 4)%Q eq_refl).
    exfalso. revert Hmax. unfold Qle. simpl. lia. }
  subst i. injection Hp as <-.
  exists result. split; [exact Hr |]. split; [exact Hpred | exact Hconf].
Defined.

Lemma local_model_never_falls_back_witness :
  snd (MLClient.analyze_heart_sound Sample.local_client Sample.local_world
         (Some "uploads/0123abcd_heart.wav") None)
  = [EvLocalPredict (Some "uploads/0123abcd_heart.wav")].
Proof.
  exact (proj1 (local_model_never_falls_back Sample.local_client Sample.heart_model
                  Sample.local_world (Some "uploads/0123abcd_heart.wav") None
                  eq_refl eq_refl)).
Defined.

Lemma formatter_keeps_confidence_witness :
  HeartSoundModel.predict_from_audio Sample.heart_model Sample.local_world None
  = (Return MoreSamples.prediction, [])
  ∧ MLClient._format_local_ml_result Sample.local_client MoreSamples.prediction None
    = (Return (VDict MoreSamples.formatted), [])
  ∧ ∃ c c',
      MoreSamples.prediction !! "confidence" = Some (VFloat c)
      ∧ MoreSamples.formatted !! "confidence" = Some (VFloat c')
      ∧ (c' == c)%Q.
Proof.
  assert (Hp : HeartSoundModel.predict_from_audio Sample.heart_model
                 Sample.local_world None = (Return MoreSamples.prediction, []))
    by (vm_compute; reflexivity).
  assert (Hf : MLClient._format_local_ml_result Sample.local_client
                 MoreSamples.prediction None
               = (Return (VDict MoreSamples.formatted), []))
    by (vm_compute; reflexivity).
  split; [exact Hp |]. split; [exact Hf |].
  exact (formatter_keeps_confidence Sample.local_client Sample.heart_model
           Sample.local_world None None MoreSamples.prediction MoreSamples.formatted
           [] [] Hp Hf).
Defined.

Lemma predict_confidence_accurate_witness :
  HeartSoundModel.predict_from_audio Sample.heart_model Sample.local_world None
  = (Return MoreSamples.prediction, [])
  ∧ ∃ c,
      MoreSamples.prediction !! "confidence" = Some (VFloat c)
      ∧ (0 <= c)%Q ∧ (c <= 1)%Q.
Proof.
  assert (Hp : HeartSoundModel.predict_from_audio Sample.heart_model
                 Sample.local_world None = (Return MoreSamples.prediction, []))
    by (vm_compute; reflexivity).
  assert (Hsrc : MoreSamples.prediction !! "model_source"
                 = Some (VStr "real_cnn_model"))
    by (vm_compute; reflexivity).
  assert (Hrange : ∀ q, q ∈ [1 # 4; 3 # 4]%Q → (0 <= q)%Q ∧ (q <= 1)%Q).
  { intros q Hq. rewrite !elem_of_cons, elem_of_nil in Hq.
    destruct Hq as [-> | [-> | []]]; split; discriminate. }
  split; [exact Hp |].
  destruct (predict_confidence_accurate Sample.heart_model Sample.local_world None
              [1 # 4; 3 # 4]%Q MoreSamples.prediction [] eq_refl Hrange Hp Hsrc)
    as (p & c & _ & _ & Hc & _ & _ & H0 & H1).
  exists c. split; [exact Hc |]. split; [exact H0 | exact H1].
Defined.

Lemma model_fallback_is_reported_as_local_witness :
  ∃ r label,
    MLClient.analyze_heart_sound MoreSamples.broken_client Sample.local_world None None
    = (Return (VDict r), [EvLocalPredict None])
    ∧ r !! "prediction" = Some (VStr label)
    ∧ r !! "ml_source" = Some (VStr "local_cnn_model").
Proof.
  destruct (model_fallback_is_reported_as_local MoreSamples.broken_client
              MoreSamples.broken_model Sample.local_world None None
              eq_refl eq_refl (or_introl eq_refl) eq_refl I)
    as (r & label & c & Hr & Hp & _ & _ & _ & _ & _ & Hs).
  exists r, label. split; [exact Hr |]. split; [exact Hp | exact Hs].
Defined.

Lemma remote_flag_without_url_means_mock_witness :
  MLClient.analyze_heart_sound
    (MLClient.__init__ MoreSamples.flag_only true (Return Sample.heart_model))
    Sample.local_world (Some "uploads/0123abcd_heart.wav") None
  = MLClient._mock_analysis Sample.local_world None.
Proof.
  exact (proj2 (remote_flag_without_url_means_mock MoreSamples.flag_only true
                  (Return Sample.heart_model) Sample.local_world
                  (Some "uploads/0123abcd_heart.wav") None eq_refl eq_refl)).
Defined.

Lemma remote_body_is_passed_through_witness :
  ∃ id t,
    App.analyze_with Sample.platform App.send_sms_alert Sample.remote_app
      Sample.remote_world Sample.request
    = (Return (VDict (<["audio_file" := VStr "0123abcd_heart.wav"]>
                     (<["screening_id" := id]> Sample.remote_body)), 200), t)
    ∧ count_events is_post t = 1%nat
    ∧ count_events is_mock_analysis t = 0%nat.
Proof.
  assert (Ha : Spec.has_allowed_extension (App.filename (App.FileStorage "heart.wav"))).
  { exists "heart", "wav", "wav". repeat split. apply list_elem_of_here. }
  assert (Hf : App.files Sample.request !! "audio" = Some (App.FileStorage "heart.wav"))
    by reflexivity.
  exact (remote_body_is_passed_through Sample.platform App.send_sms_alert
           Sample.remote_app Sample.remote_client Sample.remote_world Sample.request
           (App.FileStorage "heart.wav") Sample.remote_body
           eq_refl eq_refl ltac:(discriminate) Hf ltac:(discriminate) Ha
           eq_refl eq_refl eq_refl).
Defined.

Lemma classifier_failure_keeps_upload_witness :
  App.analyze_with Sample.platform App.send_sms_alert Sample.local_app
    Sample.local_world Sample.request
  = (Return (App.error_response "'>' not supported between instances" 500),
     [EvFileSaved "uploads/0123abcd_heart.wav";
      EvLocalPredict (Some "uploads/0123abcd_heart.wav")]).
Proof.
  assert (Ha : Spec.has_allowed_extension (App.filename (App.FileStorage "heart.wav"))).
  { exists "heart", "wav", "wav". repeat split. apply list_elem_of_here. }
  assert (Hf : App.files Sample.request !! "audio" = Some (App.FileStorage "heart.wav"))
    by reflexivity.
  assert (Hml : App.ml_analyze Sample.local_app Sample.local_world
                  (Some (App.audio_path_of Sample.platform Sample.local_world
                           (App.FileStorage "heart.wav")))
                  (Some (App.patient_context_of Sample.platform Sample.request))
                = (Raise (Exn TypeError "'>' not supported between instances"),
                   [EvLocalPredict (Some "uploads/0123abcd_heart.wav")]))
    by (vm_compute; reflexivity).
  exact (proj1 (classifier_failure_keeps_upload Sample.platform App.send_sms_alert
                  Sample.local_app Sample.local_world Sample.request
                  (App.FileStorage "heart.wav") _ _
                  Hf ltac:(discriminate) Ha eq_refl Hml)).
Defined.

Lemma persisted_row_matches_response_witness :
  MoreSamples.classified
  = (Return (VDict MoreSamples.analysis),
     [EvLocalPredict (Some "uploads/0123abcd_heart.wav")])
  ∧ ∃ body t record,
      App.analyze_with Sample.platform App.send_sms_alert Sample.local_app
        MoreSamples.saving_world Sample.request_60 = (Return (VDict body, 200), t)
      ∧ EvDbInsert record ∈ t
      ∧ body !! "screening_id" = Some (VInt 7)
      ∧ body !! "audio_file" = Some (VStr "0123abcd_heart.wav")
      ∧ record !! "recording_url" = Some (VStr "0123abcd_heart.wav")
      ∧ record !! "status" = Some (dict_get body "prediction").
Proof.
  assert (Ha : Spec.has_allowed_extension (App.filename (App.FileStorage "heart.wav"))).
  { exists "heart", "wav", "wav". repeat split. apply list_elem_of_here. }
  assert (Hf : App.files Sample.request_60 !! "audio" = Some (App.FileStorage "heart.wav"))
    by reflexivity.
  assert (Hml : MoreSamples.classified
                = (Return (VDict MoreSamples.analysis),
                   [EvLocalPredict (Some "uploads/0123abcd_heart.wav")]))
    by (vm_compute; reflexivity).
  split; [exact Hml |].
  destruct (persisted_row_matches_response Sample.platform App.send_sms_alert
              Sample.local_app MoreSamples.saving_world Sample.request_60
              (App.FileStorage "heart.wav") MoreSamples.analysis _
              (<["id" := VInt 7]> ∅) []
              Hf ltac:(discriminate) Ha eq_refl Hml eq_refl eq_refl)
    as (body & t & record & Hr & _ & Hin & _ & Hid & Hb & Hu & Hs & _).
  exists body, t, record. split; [exact Hr |]. split; [exact Hin |].
  split; [exact Hid |]. split; [exact Hb |]. split; [exact Hu | exact Hs].
Defined.

Lemma history_returns_what_was_saved_witness :
  ∃ entry,
    DatabaseRead.get_patient_history true
      (Return (ApiResponse
                 (DataRows [DatabaseRead.screening_record Sample.local_world
                              MoreSamples.screening]) None)) (VStr "P1")
    = (Return (<["success" := VBool true]>
              (<["history" := VList [VDict entry]]>
              (<["count" := VInt 1]> ∅))), [])
    ∧ entry !! "prediction" = Some (VStr "abnormal")
    ∧ entry !! "age" = Some (VInt 60)
    ∧ entry !! "audio_filename" = Some (VStr "0123abcd_heart.wav")
    ∧ entry !! "recommendation" = None.
Proof.
  destruct (history_returns_what_was_saved Sample.local_world MoreSamples.screening
              (DatabaseRead.screening_record Sample.local_world MoreSamples.screening)
              None (VStr "P1") (fun k v H => H))
    as (entry & Hr & _ & _ & Hage & Hfile & Hpred & _ & _ & _ & Hdom).
  exists entry. split; [exact Hr |]. split; [exact Hpred |]. split; [exact Hage |].
  split; [exact Hfile |]. apply not_elem_of_dom. rewrite Hdom.
  rewrite !elem_of_union, !elem_of_singleton. intuition discriminate.
Defined.

Lemma registration_requires_a_name_witness :
  ∃ body,
    Routes.register_patient_endpoint (Routes.CorePatients true) "2026-01-01T00:00:00"
      MoreSamples.inserted (Return (VDict MoreSamples.nameless))
    = (Return (VDict body, 400), [])
    ∧ is_Some (body !! "error").
Proof.
  exact (registration_requires_a_name "2026-01-01T00:00:00" MoreSamples.inserted
           MoreSamples.nameless eq_refl eq_refl).
Defined.

Lemma registration_stores_the_full_name_witness :
  ∃ result record,
    PatientService.register_patient true "2026-01-01T00:00:00" MoreSamples.inserted
      (VDict MoreSamples.two_names) = (Return result, [EvDbInsert record])
    ∧ record !! "name" = Some (VStr "Ada Lovelace")
    ∧ result !! "success" = Some (VBool true).
Proof.
  destruct (registration_stores_the_full_name "2026-01-01T00:00:00" MoreSamples.inserted
              MoreSamples.two_names eq_refl)
    as (result & record & Hr & Hn & _ & _ & Hs & _).
  exists result, record. split; [exact Hr |]. split; [exact Hn |].
  apply Hs. by eexists _, _, _.
Defined.

Lemma mock_registration_accepts_anything_witness :
  ∃ body,
    Routes.register_patient_endpoint Routes.FallbackPatients "2026-01-01T00:00:00"
      MoreSamples.inserted (Return (VDict MoreSamples.nameless))
    = (Return (VDict body, 201), [])
    ∧ body !! "success" = Some (VBool true).
Proof.
  destruct (mock_registration_accepts_anything Routes.FallbackPatients
              "2026-01-01T00:00:00" MoreSamples.inserted MoreSamples.nameless
              (or_introl eq_refl))
    as (body & Hr & Hs & _).
  - intros H. apply (f_equal (fun d : dict => d !! "patient_id")) in H.
    vm_compute in H. discriminate.
  - exists body. split; [exact Hr | exact Hs].
Defined.

Lemma fixed_length_is_fixed_witness :
  AudioFeatures.fixed_length MoreSamples.float_mul [1; 2; 3]%Q 2 (5 # 2)
  = [1; 2; 3; 0; 0]%Q
  ∧ length (AudioFeatures.fixed_length MoreSamples.float_mul
              [1; 2; 3; 4; 5; 6; 7]%Q 2 (5 # 2)) = 5%nat.
Proof.
  split; [reflexivity |].
  exact (proj1 (fixed_length_is_fixed MoreSamples.float_mul [1; 2; 3; 4; 5; 6; 7]%Q
                  2 (5 # 2) ltac:(discriminate))).
Defined.

Lemma model_loading_outcome_witness :
  ModelLoader.__init__ MoreSamples.fresh_files = (Return MoreSamples.fresh_model, [])
  ∧ HeartSoundModel.model MoreSamples.fresh_model = Some HeartSoundModel.KerasModel
  ∧ ∃ note,
      HeartSoundModel.model_info MoreSamples.fresh_model
      = <["note" := VStr note]> ModelLoader.default_info
      ∧ String.prefix "New model created - " note = true.
Proof.
  assert (Hi : ModelLoader.__init__ MoreSamples.fresh_files
               = (Return MoreSamples.fresh_model, []))
    by (vm_compute; reflexivity).
  split; [exact Hi |].
  destruct (model_loading_outcome MoreSamples.fresh_files MoreSamples.fresh_model [] Hi)
    as (info & note & Hinfo & Hm & _ & Hmodel & Hnote).
  simpl in Hinfo, Hmodel. subst info.
  split; [exact Hmodel |]. exists note. split; [exact Hm | exact Hnote].
Defined.
